(** * ibp-monitor: the health-monitoring pipeline

    A shallow embedding of the three parts of the pipeline and the proofs of
    their specification:

    - [AlertsEngine]   the rule engine ([AlertsEngine.run]);
    - [CheckService]   the check worker (src/workers/f-check-service.js);
    - [MessageHandler] the gossip dispatcher (src/monitor/lib/MessageHandler.js).

    JavaScript values are embedded in [Js]; asynchronous functions are
    state-passing functions that end in a completion (a value or a thrown
    error), in the monad of [Effects]. *)

From Stdlib Require Import String List ZArith QArith Qround Bool Lia Lqa.
From Stdlib Require Import DecimalString.
From Stdlib Require Import Orders Mergesort Sorted Permutation.
Import ListNotations.

Local Open Scope string_scope.
Local Open Scope list_scope.
Set Warnings "-register-all".

(* ===================================================================== *)
(** * JavaScript values *)
(* ===================================================================== *)

Module Js.

(** The values a JSON document denotes, and [undefined], which reading an
    absent property gives.  A number is a rational: every finite double is
    one, and the comparisons of the program are exact on them; where the
    program subtracts, the result is rounded (see [Coercion]). *)
Inductive JsVal : Type :=
| JUndefined
| JNull
| JBool (b : bool)
| JNum (q : Q)
| JStr (s : string)
| JArr (items : list JsVal)
| JObj (fields : list (string * JsVal)).

(** An Error object as the runtime and the libraries throw it (a TypeError
    on a read of [null], the SyntaxError of [JSON.parse], the errors of the
    resolver and of the datastore), reduced to its name and its message.
    The program passes these on or logs them.  What a check function
    rejects with is read by the worker, and is any value (see
    [CheckService.Settled]). *)
Record Error : Type := { name : string; message : string }.

Definition TypeError (msg : string) : Error :=
  {| name := "TypeError"; message := msg |}.
Definition SyntaxError (msg : string) : Error :=
  {| name := "SyntaxError"; message := msg |}.

(** How an evaluation ends. *)
Inductive Completion (A : Type) : Type :=
| Normal (a : A)
| Throw (e : Error).
Arguments Normal {A} a.
Arguments Throw {A} e.

(** Numbers with the one non-value arithmetic can produce here. *)
Inductive number : Type :=
| NaN
| Fin (q : Q).

(** [!!v] *)
Definition truthy (v : JsVal) : bool :=
  match v with
  | JUndefined | JNull => false
  | JBool b => b
  | JNum q => negb (Qeq_bool q 0)
  | JStr s => negb (s =? EmptyString)
  | JArr _ | JObj _ => true
  end.

(** [a || b] *)
Definition or_else (a b : JsVal) : JsVal := if truthy a then a else b.

Fixpoint lookup (k : string) (fields : list (string * JsVal)) : option JsVal :=
  match fields with
  | [] => None
  | (k', v) :: rest => if k' =? k then Some v else lookup k rest
  end.

Definition of_nat (n : nat) : JsVal := JNum (inject_Z (Z.of_nat n)).

(** [v.k] for a data property [k]: a TypeError on [undefined] and [null],
    the own property of an object, [length] of an array or a string, and
    [undefined] everywhere else. *)
Definition get (v : JsVal) (k : string) : Completion JsVal :=
  match v with
  | JUndefined => Throw (TypeError ("Cannot read properties of undefined (reading '" ++ k ++ "')"))
  | JNull => Throw (TypeError ("Cannot read properties of null (reading '" ++ k ++ "')"))
  | JObj fields => Normal (match lookup k fields with Some x => x | None => JUndefined end)
  | JArr items => Normal (if k =? "length" then of_nat (List.length items) else JUndefined)
  | JStr s => Normal (if k =? "length" then of_nat (String.length s) else JUndefined)
  | JBool _ | JNum _ => Normal JUndefined
  end.

(** The value of [v.k] where reading it does not throw. *)
Definition prop (v : JsVal) (k : string) : JsVal :=
  match get v k with
  | Normal x => x
  | Throw _ => JUndefined
  end.

Definition is_object (v : JsVal) : Prop := exists fields, v = JObj fields.

Definition index_key (i : nat) : string := NilZero.string_of_uint (Nat.to_uint i).

(** [v[i]] for a non-negative integer [i]. *)
Definition get_index (v : JsVal) (i : nat) : Completion JsVal :=
  match v with
  | JArr items => Normal (nth i items JUndefined)
  | JStr s => Normal (match String.get i s with
                      | Some c => JStr (String c EmptyString)
                      | None => JUndefined
                      end)
  | _ => get v (index_key i)
  end.

(** [a === b].  Two arrays or two objects are equal only when they are the
    same object; the operands compared in this program come from different
    rows, so they never are. *)
Definition strict_eq (a b : JsVal) : bool :=
  match a, b with
  | JUndefined, JUndefined => true
  | JNull, JNull => true
  | JBool x, JBool y => Bool.eqb x y
  | JNum x, JNum y => Qeq_bool x y
  | JStr x, JStr y => x =? y
  | _, _ => false
  end.

Section Coercion.
(** Three things belong to the language runtime.  The conversion of a
    string to a number.  The conversion of an array or an object to a
    primitive value: for a value of a JSON document this ends in its
    [toString], whether a number or a string is wanted, and gives the
    string or throws a TypeError (an object with a property [toString] of
    its own, which is not a function).  The rounding of the exact result
    of an operation to a number of the language. *)
Variable StringToNumber : string -> number.
Variable ObjectToString : JsVal -> Completion string.
Variable round : Q -> Q.

Definition ToNumber (v : JsVal) : Completion number :=
  match v with
  | JUndefined => Normal NaN
  | JNull => Normal (Fin 0)
  | JBool b => Normal (Fin (if b then 1 else 0))
  | JNum q => Normal (Fin q)
  | JStr s => Normal (StringToNumber s)
  | JArr _ | JObj _ =>
    match ObjectToString v with
    | Normal s => Normal (StringToNumber s)
    | Throw e => Throw e
    end
  end.

(** [a - b]: both operands are converted, the left one first. *)
Definition sub (a b : JsVal) : Completion number :=
  match ToNumber a with
  | Throw e => Throw e
  | Normal x =>
    match ToNumber b with
    | Throw e => Throw e
    | Normal y =>
      Normal (match x, y with
              | Fin x, Fin y => Fin (round (x - y))
              | _, _ => NaN
              end)
    end
  end.

(** [a > n] for a number [n]: the comparison is numeric. *)
Definition gt_num (a : JsVal) (n : Q) : Completion bool :=
  match ToNumber a with
  | Throw e => Throw e
  | Normal (Fin x) => Normal (negb (Qle_bool x n))
  | Normal NaN => Normal false
  end.

(** [`${v}`]: the conversion of [v] to a string, which throws where that
    of an array or an object to a primitive value does. *)
Definition interpolate (v : JsVal) : Completion unit :=
  match v with
  | JArr _ | JObj _ =>
    match ObjectToString v with
    | Normal _ => Normal tt
    | Throw e => Throw e
    end
  | _ => Normal tt
  end.
End Coercion.

(** A value that is converted without a call of its [toString]. *)
Definition primitive (v : JsVal) : Prop :=
  match v with
  | JArr _ | JObj _ => False
  | _ => True
  end.

(** [x >= n] on numbers *)
Definition ge (x : number) (n : Q) : bool :=
  match x with
  | Fin q => Qle_bool n q
  | NaN => false
  end.

(** The number of [i = 0, 1, 2, ...] with [i < x]. *)
Definition below (x : number) : nat :=
  match x with
  | Fin q => Z.to_nat (Qceiling q)
  | NaN => 0
  end.

(** A template literal, kept as its parts. *)
Inductive part : Type :=
| Lit (s : string)
| Subst (v : JsVal)
| SubstNum (n : number).

End Js.

(* ===================================================================== *)
(** * Effects *)
(* ===================================================================== *)

Module Effects.
Import Js.

(** An asynchronous function over a state [S]: it ends normally or throws,
    and what it did to the state before it threw stays done. *)
Definition M (S A : Type) : Type := S -> Completion A * S.

Definition ret {S A} (a : A) : M S A := fun s => (Normal a, s).

Definition bind {S A B} (m : M S A) (k : A -> M S B) : M S B :=
  fun s => match m s with
           | (Normal a, s') => k a s'
           | (Throw e, s') => (Throw e, s')
           end.

Definition lift {S A} (c : Completion A) : M S A := fun s => (c, s).

Definition modify {S} (f : S -> S) : M S unit := fun s => (Normal tt, f s).

(** [try { m } catch (error) { h error }] *)
Definition try_catch {S A} (m : M S A) (h : Error -> M S A) : M S A :=
  fun s => match m s with
           | (Normal a, s') => (Normal a, s')
           | (Throw e, s') => h e s'
           end.

(** [a && b] on conditions that may throw *)
Definition and_then {S} (a b : M S bool) : M S bool :=
  bind a (fun x => if x then b else ret false).

Declare Scope js_scope.
Delimit Scope js_scope with js.
Notation "x <- m ;; k" := (bind m (fun x => k))
  (at level 100, m at next level, right associativity) : js_scope.
Notation "m ;; k" := (bind m (fun _ => k))
  (at level 100, right associativity) : js_scope.
Notation "a &&& b" := (and_then a b)
  (at level 40, left associativity) : js_scope.

End Effects.

(* ===================================================================== *)
(** * Configuration (src/config/config.js) *)
(* ===================================================================== *)

Module Config.

Record Thresholds : Type := { blockDrift : Q }.

Record AlertsEngineConfig : Type := {
  enabled : bool;
  queueName : string;
  webhook : string;
  apiKey : string;
  thresholds : Thresholds
}.

Record Performance : Type := { sla : Q }.

(** The keys of the configuration the pipeline reads. *)
Record Cfg : Type := {
  performance : Performance;
  alertsEngine : AlertsEngineConfig
}.

Definition config : Cfg := {|
  performance := {| sla := 500 |};
  alertsEngine := {|
    enabled := false;
    queueName := "alerts";
    webhook := "http://ibp-abot:5001/api/v1/alerts";
    apiKey := "alerts-bot-api-key";
    thresholds := {| blockDrift := 20 |}
  |}
|}.

End Config.

(* ===================================================================== *)
(** * The alerts engine (AlertsEngine.run) *)
(* ===================================================================== *)

Module AlertsEngine.
Import Js Effects Config.
Local Open Scope js_scope.

(** A row of the HealthCheck table, with the columns the engine reads.
    [status] is nullable, [createdAt] is in milliseconds, and [record] is
    the free-form JSON column. *)
Record HealthCheck : Type := {
  id : Z;
  memberId : string;
  serviceId : string;
  status : option string;
  createdAt : Z;
  record : JsVal
}.

(** [order: [['createdAt', 'DESC']]] *)
Module RecentFirst <: TotalLeBool.
Definition t := HealthCheck.
Definition leb (a b : t) : bool := (createdAt b <=? createdAt a)%Z.
Theorem leb_total : forall a b, leb a b = true \/ leb b a = true.
Proof. intros a b; unfold leb; rewrite !Z.leb_le; lia. Qed.
End RecentFirst.

Module ByCreatedAtDesc := Mergesort.Sort RecentFirst.

(** [findOne({ where, order })]: the first row of the ordered selection, or
    [null]. *)
Definition findOne (where_ : HealthCheck -> bool) (rows : list HealthCheck)
  : option HealthCheck :=
  hd_error (ByCreatedAtDesc.sort (filter where_ rows)).

Definition status_is (h : HealthCheck) (s : string) : bool :=
  match status h with
  | Some x => x =? s
  | None => false
  end.

(** The [where] clause of the first query; [now] is the reading of the
    clock taken while the clause is built. *)
Definition where_previous (current : HealthCheck) (now : Z) (r : HealthCheck) : bool :=
  (memberId r =? memberId current)
  && (serviceId r =? serviceId current)
  && status_is r "success"
  && (createdAt r <? now - 60 * 1000)%Z.

(** The [where] clause of the second query, which reads the clock twice. *)
Definition where_otherMember (current : HealthCheck) (now_lt now_gt : Z)
                             (r : HealthCheck) : bool :=
  negb (memberId r =? memberId current)
  && (serviceId r =? serviceId current)
  && status_is r "success"
  && (createdAt r <? now_lt - 60 * 1000)%Z
  && (now_gt - 10 * 60 * 1000 <? createdAt r)%Z.

(** The three readings of the clock one evaluation takes, in order. *)
Record Clock : Type := { now1 : Z; now2 : Z; now3 : Z }.

Record RemoveOn : Type := { age : Z; count : option Z }.

Record Retention : Type := {
  timeout : Z;
  removeOnComplete : RemoveOn;
  removeOnFail : RemoveOn
}.

Definition jobRetention : Retention := {|
  timeout := 60 * 1000;
  removeOnComplete := {| age := 5 * 24 * 60 * 60; count := Some 10000%Z |};
  removeOnFail := {| age := 5 * 24 * 60 * 60; count := None |}
|}.

(** [{ repeat: false, ...jobRetention }] *)
Record JobOptions : Type := { repeat : bool; retention : Retention }.

Definition job_options : JobOptions :=
  {| repeat := false; retention := jobRetention |}.

Definition ALERT_CODE_100 : Z := 100.
Definition ALERT_CODE_101 : Z := 101.
Definition ALERT_CODE_102 : Z := 102.
Definition ALERT_CODE_103 : Z := 103.

Definition SEVERITY_HIGH := "high".
Definition SEVERITY_MEDIUM := "medium".
Definition SEVERITY_LOW := "low".

Record AlertJob : Type := {
  code : Z;
  severity : string;
  alert_message : list part;
  alert_memberId : string;
  alert_serviceId : string;
  healthCheckId : Z;
  healthChecks : list HealthCheck
}.

(** The queue, as the calls of [queue.add(name, data, opts)] in order. *)
Definition Queue : Type := list (string * AlertJob * JobOptions).

Definition queue_add (name_ : string) (job : AlertJob) (opts : JobOptions)
  : M Queue unit :=
  modify (fun q => q ++ [(name_, job, opts)]).

Definition alert (code_ : Z) (severity_ : string) (message_ : list part)
                 (current : HealthCheck) (evidence : list HealthCheck) : AlertJob := {|
  code := code_;
  severity := severity_;
  alert_message := message_;
  alert_memberId := memberId current;
  alert_serviceId := serviceId current;
  healthCheckId := id current;
  healthChecks := evidence
|}.

Section Rules.
Variable StringToNumber : string -> number.
Variable ObjectToString : JsVal -> Completion string.
Variable round : Q -> Q.
Variable cfg : Cfg.

(** [this.queue.add(cfg.alertsEngine.queueName, job, { repeat: false, ...jobRetention })] *)
Definition enqueue (job : AlertJob) : M Queue unit :=
  queue_add (queueName (alertsEngine cfg)) job job_options.

(** [h.record.syncState] *)
Definition syncState (h : HealthCheck) : M Queue JsVal :=
  lift (get (record h) "syncState").

(** [h.record.syncState.currentBlock] *)
Definition currentBlock (h : HealthCheck) : M Queue JsVal :=
  s <- syncState h ;; lift (get s "currentBlock").

Definition defined (m : M Queue JsVal) : M Queue bool :=
  v <- m ;; ret (negb (strict_eq v JUndefined)).

(* ALERT_CODE_100 *)
Definition error_message (current : HealthCheck) : M Queue (list part) :=
  if truthy (record current) then
    e <- lift (get (record current) "error") ;;
    if truthy e then
      m <- lift (get e "message") ;;
      lift (interpolate ObjectToString m) ;;
      ret [Subst m]
    else ret [Lit "Error message not available"]
  else ret [Lit "Error message not available"].

Definition rule100 (current : HealthCheck) : M Queue unit :=
  if status_is current "error" then
    message_ <- error_message current ;;
    enqueue (alert ALERT_CODE_100 SEVERITY_HIGH message_ current [current])
  else ret tt.

(* ALERT_CODE_101 *)
Definition rule101 (current : HealthCheck)
                   (previousHealthCheck otherMemberHealthCheck : option HealthCheck)
  : M Queue unit :=
  match status current, previousHealthCheck, otherMemberHealthCheck with
  | Some _, Some previous, Some otherMember =>
    if status_is previous "success" && status_is current "success"
       && status_is otherMember "success" then
      all_defined <- defined (syncState previous)
                     &&& defined (syncState current)
                     &&& defined (syncState otherMember) ;;
      if all_defined : bool then
        halted <- (p <- currentBlock previous ;;
                   c <- currentBlock current ;;
                   ret (strict_eq p c))
                  &&& (o <- currentBlock otherMember ;;
                       c <- currentBlock current ;;
                       ret (negb (strict_eq o c))) ;;
        if halted : bool then
          c <- currentBlock current ;;
          lift (interpolate ObjectToString c) ;;
          enqueue (alert ALERT_CODE_101 SEVERITY_HIGH
                     [Lit "Best block is halted at block #"; Subst c;
                      Lit " since the last Health Check #";
                      Subst (JNum (inject_Z (id previous)))]
                     current [current; previous])
        else ret tt
      else ret tt
    else ret tt
  | _, _, _ => ret tt
  end.

(* ALERT_CODE_102 *)
Definition rule102 (current : HealthCheck) : M Queue unit :=
  if status_is current "success" then
    has_syncState <- defined (syncState current) ;;
    if has_syncState : bool then
      c <- currentBlock current ;;
      f <- lift (get (record current) "finalizedBlock") ;;
      blockDrift_ <- lift (sub StringToNumber ObjectToString round c f) ;;
      if ge blockDrift_ (blockDrift (thresholds (alertsEngine cfg))) then
        f' <- lift (get (record current) "finalizedBlock") ;;
        lift (interpolate ObjectToString f') ;;
        enqueue (alert ALERT_CODE_102 SEVERITY_MEDIUM
                   [Lit "Finalized block #"; Subst f';
                    Lit " drifting by more than "; SubstNum blockDrift_;
                    Lit " blocks"]
                   current [current])
      else ret tt
    else ret tt
  else ret tt.

(* ALERT_CODE_103 *)
Definition rule103 (current : HealthCheck) : M Queue unit :=
  if status_is current "success" then
    p <- lift (get (record current) "performance") ;;
    slow <- lift (gt_num StringToNumber ObjectToString p (sla (performance cfg))) ;;
    if slow : bool then
      p' <- lift (get (record current) "performance") ;;
      lift (interpolate ObjectToString p') ;;
      enqueue (alert ALERT_CODE_103 SEVERITY_LOW
                 [Lit "Service response time "; Subst p';
                  Lit "ms is higher than expected"]
                 current [current])
    else ret tt
  else ret tt.

(** [run(currentHealthCheck)] against the rows [rows] of the datastore. *)
Definition run (rows : list HealthCheck) (clock : Clock)
               (currentHealthCheck : HealthCheck) : M Queue unit :=
  if negb (enabled (alertsEngine cfg)) then ret tt
  else
    let previousHealthCheck :=
      findOne (where_previous currentHealthCheck (now1 clock)) rows in
    let otherMemberHealthCheck :=
      findOne (where_otherMember currentHealthCheck (now2 clock) (now3 clock)) rows in
    rule100 currentHealthCheck ;;
    rule101 currentHealthCheck previousHealthCheck otherMemberHealthCheck ;;
    rule102 currentHealthCheck ;;
    rule103 currentHealthCheck.
End Rules.

(** ** The conditions of the rules, as the specification words them *)

(** Rule 101: both rows of history exist, the three rows are successes,
    each has a defined [record.syncState], the best block of [current] is
    that of [previous] and is not that of [otherMember]. *)
Definition fires101 (current : HealthCheck)
                    (previousHealthCheck otherMemberHealthCheck : option HealthCheck)
                    (previous : HealthCheck) (block : JsVal) : Prop :=
  exists otherMember ps cs os pb ob,
    previousHealthCheck = Some previous /\
    otherMemberHealthCheck = Some otherMember /\
    status previous = Some "success" /\
    status current = Some "success" /\
    status otherMember = Some "success" /\
    get (record previous) "syncState" = Normal ps /\ ps <> JUndefined /\
    get (record current) "syncState" = Normal cs /\ cs <> JUndefined /\
    get (record otherMember) "syncState" = Normal os /\ os <> JUndefined /\
    get ps "currentBlock" = Normal pb /\
    get cs "currentBlock" = Normal block /\
    get os "currentBlock" = Normal ob /\
    strict_eq pb block = true /\
    strict_eq ob block = false.

(** Rule 102: a success with a defined [record.syncState] whose best block
    is ahead of its finalized block by [drift], the threshold or more. *)
Definition fires102 (StringToNumber : string -> number)
                    (ObjectToString : JsVal -> Completion string)
                    (round : Q -> Q) (cfg : Cfg)
                    (current : HealthCheck) (finalized : JsVal) (drift : Q) : Prop :=
  status current = Some "success" /\
  exists ss cb,
    get (record current) "syncState" = Normal ss /\ ss <> JUndefined /\
    get ss "currentBlock" = Normal cb /\
    get (record current) "finalizedBlock" = Normal finalized /\
    sub StringToNumber ObjectToString round cb finalized = Normal (Fin drift) /\
    (blockDrift (thresholds (alertsEngine cfg)) <= drift)%Q.

(** Rule 103: a success whose [record.performance] is above the SLA. *)
Definition fires103 (StringToNumber : string -> number)
                    (ObjectToString : JsVal -> Completion string) (cfg : Cfg)
                    (current : HealthCheck) (perf : JsVal) : Prop :=
  status current = Some "success" /\
  exists ms,
    get (record current) "performance" = Normal perf /\
    ToNumber StringToNumber ObjectToString perf = Normal (Fin ms) /\
    (sla (performance cfg) < ms)%Q.

(** What the two queries select, and what it is to be the row a query
    returns: a selected row of the table that no selected row is more
    recent than, or nothing when no row is selected. *)
Definition is_previous (current : HealthCheck) (now : Z) (r : HealthCheck) : Prop :=
  memberId r = memberId current /\ serviceId r = serviceId current /\
  status r = Some "success" /\ (createdAt r < now - 60 * 1000)%Z.

Definition is_otherMember (current : HealthCheck) (now_lt now_gt : Z)
                          (r : HealthCheck) : Prop :=
  memberId r <> memberId current /\ serviceId r = serviceId current /\
  status r = Some "success" /\
  (createdAt r < now_lt - 60 * 1000)%Z /\
  (now_gt - 10 * 60 * 1000 < createdAt r)%Z.

Definition most_recent (selected : HealthCheck -> Prop) (rows : list HealthCheck)
                       (found : option HealthCheck) : Prop :=
  match found with
  | Some r =>
    In r rows /\ selected r /\
    forall r', In r' rows -> selected r' -> (createdAt r' <= createdAt r)%Z
  | None => forall r, In r rows -> ~ selected r
  end.

(** The jobs the rules enqueue. *)
Definition alert101 (current previous : HealthCheck) (block : JsVal) : AlertJob :=
  alert ALERT_CODE_101 SEVERITY_HIGH
        [Lit "Best block is halted at block #"; Subst block;
         Lit " since the last Health Check #";
         Subst (JNum (inject_Z (id previous)))]
        current [current; previous].

Definition alert102 (current : HealthCheck) (finalized : JsVal) (drift : Q) : AlertJob :=
  alert ALERT_CODE_102 SEVERITY_MEDIUM
        [Lit "Finalized block #"; Subst finalized;
         Lit " drifting by more than "; SubstNum (Fin drift); Lit " blocks"]
        current [current].

Definition alert103 (current : HealthCheck) (perf : JsVal) : AlertJob :=
  alert ALERT_CODE_103 SEVERITY_LOW
        [Lit "Service response time "; Subst perf;
         Lit "ms is higher than expected"]
        current [current].

(** A rule, or the whole evaluation, ends without throwing. *)
Definition completes (m : M Queue unit) : Prop :=
  forall q, fst (m q) = Normal tt.

(** A row whose record can be read as far as the rules read it: the record
    is there, and its [syncState] is not [null]. *)
Definition readable (h : HealthCheck) : Prop :=
  exists ss, get (record h) "syncState" = Normal ss /\ ss <> JNull.

(** A row whose record holds plain values where the rules convert one to
    a string or to a number: no array and no object for the message of its
    error, its best block, its finalized block and its response time. *)
Definition plain (h : HealthCheck) : Prop :=
  primitive (prop (prop (record h) "error") "message") /\
  primitive (prop (prop (record h) "syncState") "currentBlock") /\
  primitive (prop (record h) "finalizedBlock") /\
  primitive (prop (record h) "performance").

Definition readable_if_found (found : option HealthCheck) : Prop :=
  match found with
  | Some h => readable h
  | None => True
  end.

(** The jobs with a given alert code among the calls made to the queue. *)
Definition jobs_with_code (c : Z) (q : Queue) : list AlertJob :=
  filter (fun j => (code j =? c)%Z) (map (fun e => snd (fst e)) q).

(** A call of [queue.add] as the engine makes it. *)
Definition queued (cfg : Cfg) (job : AlertJob) : string * AlertJob * JobOptions :=
  (queueName (alertsEngine cfg), job, job_options).

(** All that was added to the queue carries the code [k]. *)
Definition adds_only (k : Z) (added : Queue) : Prop :=
  forall c, c <> k -> jobs_with_code c added = [].

(** ** What every job of one evaluation has in common *)

(** The job of rule 100. *)
Definition alert100 (current : HealthCheck) (message_ : list part) : AlertJob :=
  alert ALERT_CODE_100 SEVERITY_HIGH message_ current [current].

(** A call of [queue.add] for [current] by the rule with code [k]: under
    the configured queue name, with the options of the engine, carrying
    the identifiers of [current], and with [current] first among its
    [healthChecks]. *)
Definition entry_of (cfg : Cfg) (current : HealthCheck) (k : Z)
                    (e : string * AlertJob * JobOptions) : Prop :=
  exists severity_ message_ evidence,
    e = queued cfg (alert k severity_ message_ current (current :: evidence)).

Definition codes (added : Queue) : list Z :=
  map (fun e => code (snd (fst e))) added.

(** The text rule 100 puts in its job: the message of the error in the
    record, or the fallback. *)
Definition message100 (current : HealthCheck) : list part :=
  if truthy (record current) && truthy (prop (record current) "error")
  then [Subst (prop (prop (record current) "error") "message")]
  else [Lit "Error message not available"].

(** Nothing, or the one entry of the rule with code [k]. *)
Definition at_most_one (cfg : Cfg) (current : HealthCheck) (k : Z)
                       (added : Queue) : Prop :=
  added = [] \/ exists e, added = [e] /\ entry_of cfg current k e.

(** The row a result is stored as: its status and its record. *)
Definition stored_as (result : JsVal) (row : HealthCheck) : Prop :=
  (exists s, get result "status" = Normal (JStr s) /\ status row = Some s) /\
  record row = prop result "record".

End AlertsEngine.

(* ===================================================================== *)
(** * The check worker (src/workers/f-check-service.js) *)
(* ===================================================================== *)

Module CheckService.
Import Js Effects Config.
Local Open Scope js_scope.

Record Member : Type := { member_id : string; serviceIpAddress : string }.

Record Service : Type := {
  service_id : string;
  chainId : option string;
  serviceUrl : string
}.

(** [job.data]; an absent [subdomain] or [chainId] is [None]. *)
Record JobData : Type := {
  subdomain : option string;
  member : Member;
  service : Service;
  monitorId : string
}.

Record Job : Type := { data : JobData }.

(** A parameter with a default value. *)
Definition default (d : string) (x : option string) : string :=
  match x with
  | Some s => s
  | None => d
  end.

Definition getDomain (subdomain_ : option string) : string :=
  default "rpc" subdomain_ ++ ".dotters.network".

Definition getEndpoint (subdomain_ chain_ : option string) : string :=
  "wss://" ++ getDomain subdomain_ ++ "/" ++ default "polkadot" chain_.

(** What one conversation with the node under check brings back (lines
    52 to 110 of the worker): the answers of the RPC calls, the block
    picked for the archive probe, and the two readings of the timer around
    the health call. *)
Record Facts : Type := {
  peerId : string;
  chain : JsVal;
  chainType : JsVal;
  health : JsVal;
  networkState : JsVal;
  syncState : JsVal;
  finalizedBlock : JsVal;
  version : JsVal;
  randBlockNumber : JsVal;
  specVersion : string;
  start : Q;
  end_ : Q
}.

(** [cfg.performance?.sla || 500] *)
Definition sla_or_500 (cfg : Cfg) : Q :=
  let s := sla (performance cfg) in
  if Qeq_bool s 0 then 500 else s.

(** The object [performCheck] returns once the conversation is over.
    [timing] is a difference of two numbers, rounded as the language rounds
    it. *)
Definition check_result (round : Q -> Q) (cfg : Cfg) (job : Job) (facts : Facts)
  : JsVal :=
  let d := data job in
  let endpoint := getEndpoint (subdomain d) (chainId (service d)) in
  let archiveState := JObj [("randomBlock", randBlockNumber facts);
                            ("specVersion", JStr (specVersion facts))] in
  let timing := round (end_ facts - start facts)%Q in
  JObj [("monitorId", JStr (monitorId d));
        ("serviceId", JStr (service_id (service d)));
        ("memberId", JStr (member_id (member d)));
        ("peerId", JStr (peerId facts));
        ("source", JStr "check");
        ("type", JStr "service_check");
        ("status", JStr (if negb (Qle_bool timing (sla_or_500 cfg))
                         then "warning" else "success"));
        ("responseTimeMs", JNum timing);
        ("record", JObj [("monitorId", JStr (monitorId d));
                         ("memberId", JStr (member_id (member d)));
                         ("serviceId", JStr (service_id (service d)));
                         ("endpoint", JStr endpoint);
                         ("ipAddress", JStr (serviceIpAddress (member d)));
                         ("chain", chain facts);
                         ("chainType", chainType facts);
                         ("health", health facts);
                         ("networkState", networkState facts);
                         ("syncState", syncState facts);
                         ("finalizedBlock", finalizedBlock facts);
                         ("archiveState", archiveState);
                         ("version", version facts);
                         ("performance", JNum timing)])].

(** What a promise is settled with.  A rejection carries any value, an
    error object or not: the worker reads the properties of what it
    catches.  An error object is the object of its properties, [name] and
    [message] among them. *)
Inductive Settled (A : Type) : Type :=
| Fulfilled (a : A)
| Rejected (reason : JsVal).
Arguments Fulfilled {A} a.
Arguments Rejected {A} reason.

(** [serializeError(value)] of the package serialize-error, on a plain
    object of two values: a copy of the object. *)
Definition serializeError (value : JsVal) : JsVal := value.

(** [performCheckError(error, job)].  Its first line takes [name] and
    [message] out of [error], which throws when [error] is [null] or
    [undefined]. *)
Definition performCheckError (error : JsVal) (job : Job) : Completion JsVal :=
  match error with
  | JUndefined | JNull =>
    Throw (TypeError "Cannot destructure property 'name' of 'error'")
  | _ =>
    let name_ := prop error "name" in
    let message_ := prop error "message" in
    let d := data job in
    Normal
      (JObj [("monitorId", JStr (monitorId d));
             ("serviceId", JStr (service_id (service d)));
             ("memberId", JStr (member_id (member d)));
             ("peerId", JNull);
             ("source", JStr "check");
             ("type", JStr "service_check");
             ("status", JStr "error");
             ("record", JObj [("monitorId", JStr (monitorId d));
                              ("memberId", JStr (member_id (member d)));
                              ("serviceId", JStr (service_id (service d)));
                              ("endpoint", JStr (getEndpoint (subdomain d)
                                                             (chainId (service d))));
                              ("ip_address", JStr (serviceIpAddress (member d)));
                              ("error", serializeError (JObj [("name", name_);
                                                              ("message", message_)]));
                              ("performance", JNum (-1))])])
  end.

(** What [edns.remove(domain, ip)] leaves of the table of overrides: the
    entries added under another name or, unless [ip] is empty, with another
    address. *)
Definition without (domain ip : string) (table : list (string * string))
  : list (string * string) :=
  filter (fun e => negb ((fst e =? domain)
                         && ((ip =? EmptyString) || (snd e =? ip))))
         table.

(** What the worker does to the process and its surroundings, in order. *)
Inductive Event : Type :=
| EdnsAdd (domain ip : string)
| EdnsRemove (domain ip : string)
| DnsLookup (domain : string)
| Call (job : Job)
| SetTimeout (ms : Z)
| JobLog (line : list part)
| JobLogError (error : JsVal)
| ConsoleLog (line : list part)
| ConsoleLogError (error : JsVal).

Section Worker.
(** The network, seen from the process. *)
Variable World : Type.

(** The process: the network, the table of DNS overrides (process-wide),
    and what has happened so far. *)
Record Process : Type := {
  world : World;
  overrides : list (string * string);
  trace : list Event
}.

Definition emit (e : Event) : M Process unit :=
  modify (fun p => {| world := world p; overrides := overrides p;
                      trace := trace p ++ [e] |}).

(** A check function: it talks to the network, under the overrides in
    force, and its promise is fulfilled with a result object or rejected. *)
Definition CheckFn : Type :=
  Job -> list (string * string) -> World -> Settled JsVal * World.

(** [fn(job)], awaited. *)
Definition call (fn : CheckFn) (job : Job) : M Process (Settled JsVal) :=
  fun p =>
    let '(c, w) := fn job (overrides p) (world p) in
    (Normal c, {| world := w; overrides := overrides p;
                  trace := trace p ++ [Call job] |}).

(** [try { return await m } catch (error) { h error }] *)
Definition try_await (m : M Process (Settled JsVal)) (h : JsVal -> M Process JsVal)
  : M Process JsVal :=
  settled <- m ;;
  match settled with
  | Fulfilled r => ret r
  | Rejected error => h error
  end.

(** The resolver of the system, for names without an override. *)
Variable resolve : string -> World -> Completion string * World.

(** [net.isIPv4(ip) || net.isIPv6(ip)] *)
Variable isIP : string -> bool.

(** [edns.add(domain, ip)] of the package evil-dns: the entry goes to the
    end of the table, and an [ip] that is no IP address is refused with an
    error, the table left as it is. *)
Definition edns_add (domain ip : string) : M Process unit :=
  fun p =>
    if isIP ip then
      (Normal tt, {| world := world p;
                     overrides := overrides p ++ [(domain, ip)];
                     trace := trace p ++ [EdnsAdd domain ip] |})
    else (Throw {| name := "Error"; message := "Invalid ip: " ++ ip |}, p).

(** [edns.remove(domain, ip)] *)
Definition edns_remove (domain ip : string) : M Process unit :=
  fun p => (Normal tt,
            {| world := world p;
               overrides := without domain ip (overrides p);
               trace := trace p ++ [EdnsRemove domain ip] |}).

(** [domain.match(entry.domain)]: whether [domain] matches the pattern
    evil-dns makes of the name an entry was added under, which is that name
    with [*] for any run of characters and with letters in either case. *)
Variable matches : string -> string -> bool.

(** An entry answers for the names its pattern matches; the name it was
    added under is one of them. *)
Definition answers (domain : string) (entry : string * string) : bool :=
  (fst entry =? domain) || matches (fst entry) domain.

(** [lookupAsync(domain)], through the patched [dns.lookup]: the first
    override that answers for [domain] gives the address, and the resolver
    is asked when there is none. *)
Definition lookupAsync (domain : string) : M Process string :=
  fun p =>
    let p' := {| world := world p; overrides := overrides p;
                 trace := trace p ++ [DnsLookup domain] |} in
    match find (answers domain) (overrides p) with
    | Some (_, ip) => (Normal ip, p')
    | None =>
      let '(c, w) := resolve domain (world p) in
      (c, {| world := w; overrides := overrides p'; trace := trace p' |})
    end.

Definition setDNS (domain ip : string) : M Process unit :=
  edns_add domain ip ;;
  address <- lookupAsync domain ;;
  emit (ConsoleLog [Lit domain; Lit " now resolves to "; Lit address;
                    Lit ", and should be "; Lit ip]).

Definition clearDNS (domain ip : string) : M Process unit :=
  emit (ConsoleLog [Lit "removing eDns for "; Lit domain]) ;;
  edns_remove domain ip ;;
  address <- lookupAsync domain ;;
  emit (ConsoleLog [Lit domain; Lit " now resolves to "; Lit address;
                    Lit (String (Ascii.ascii_of_nat 10) EmptyString)]).

Variable round : Q -> Q.
Variable cfg : Cfg.

(** The conversation of [performCheck] with the node. *)
Variable gather : Job -> list (string * string) -> World -> Settled Facts * World.

(** [performCheck]: the conversation, then the result object.  The lines it
    writes to the job log on the way are not recorded. *)
Definition performCheck : CheckFn :=
  fun job dns w =>
    match gather job dns w with
    | (Fulfilled facts, w') => (Fulfilled (check_result round cfg job facts), w')
    | (Rejected error, w') => (Rejected error, w')
    end.

(** [retriesLeft] is a count; the one caller passes 3. *)
Fixpoint retryFn (fn : CheckFn) (job : Job) (retriesLeft : nat) (interval : Z)
  : M Process JsVal :=
  emit (JobLog [Lit "retryAttempt "; Subst (of_nat retriesLeft)]) ;;
  try_await (call fn job)
    (fun error =>
       emit (JobLogError error) ;;
       emit (ConsoleLogError error) ;;
       name_ <- lift (get error "name") ;;
       if strict_eq name_ (JStr "RpcError") then
         lift (performCheckError error job)
       else
         match retriesLeft with
         | S n =>
           emit (SetTimeout interval) ;;
           retryFn fn job n interval
         | O => lift (performCheckError error job)
         end).

(** [checkService], for any check function in the place of [performCheck]. *)
Definition checkService_with (fn : CheckFn) (job : Job) : M Process JsVal :=
  let d := data job in
  setDNS (getDomain (subdomain d)) (serviceIpAddress (member d)) ;;
  result <- retryFn fn job 3 (1 * 1000) ;;
  clearDNS (getDomain (subdomain d)) (serviceIpAddress (member d)) ;;
  emit (ConsoleLog [Lit "[worker] checkService done..."; Lit (member_id (member d));
                    Lit (service_id (service d))]) ;;
  emit (JobLog [Lit "checkService done..."; Lit (member_id (member d));
                Lit (service_id (service d))]) ;;
  ret result.

Definition checkService (job : Job) : M Process JsVal :=
  checkService_with performCheck job.

End Worker.

Arguments world {World} p.
Arguments overrides {World} p.
Arguments trace {World} p.

(** The attempts and the delays in a stretch of the trace. *)
Definition is_call (e : Event) : bool :=
  match e with Call _ => true | _ => false end.
Definition is_delay (e : Event) : bool :=
  match e with SetTimeout _ => true | _ => false end.
Definition is_edns (e : Event) : bool :=
  match e with EdnsAdd _ _ | EdnsRemove _ _ => true | _ => false end.

Definition attempts (t : list Event) : nat := List.length (filter is_call t).
Definition delays (t : list Event) : nat := List.length (filter is_delay t).

(** The trace, reduced to the operations on the override table and the
    calls of the check function. *)
Definition edns_and_calls (t : list Event) : list Event :=
  filter (fun e => is_edns e || is_call e) t.

(** One run [m] of the entry point for [job], started in [p]: the override
    of the job is added once, then the check function is called, between
    once and four times, then the override is removed once, and the table
    is left as that removal leaves the table [m] found. *)
Definition override_paired {World : Type} (m : M (Process World) JsVal)
                           (job : Job) (p : Process World) : Prop :=
  let d := getDomain (subdomain (data job)) in
  let ip := serviceIpAddress (member (data job)) in
  exists c p' added k,
    m p = (c, p') /\
    trace p' = trace p ++ added /\
    edns_and_calls added = EdnsAdd d ip :: repeat (Call job) k ++ [EdnsRemove d ip] /\
    (1 <= k <= 4)%nat /\
    overrides p' = without d ip (overrides p).

(** What the worker catches has properties to read: it is not [null] and
    not [undefined]. *)
Definition readable_error (error : JsVal) : Prop :=
  error <> JNull /\ error <> JUndefined.

(** A check function, or the conversation of [performCheck], that rejects
    with such values only. *)
Definition rejects_with_errors {World A : Type}
    (fn : Job -> list (string * string) -> World -> Settled A * World) : Prop :=
  forall job dns w error w',
    fn job dns w = (Rejected error, w') -> readable_error error.

(** An error the worker does not retry after, and one it does. *)
Definition is_RpcError (error : JsVal) : Prop :=
  get error "name" = Normal (JStr "RpcError").

Definition transient (error : JsVal) : Prop :=
  exists name_,
    get error "name" = Normal name_ /\ strict_eq name_ (JStr "RpcError") = false.

(** A check function that fails every time with an error that is retried. *)
Definition always_transient {World : Type} (fn : CheckFn World) : Prop :=
  forall job dns w, exists e w',
    fn job dns w = (Rejected e, w') /\ transient e.

(** The process after a call of the check function that left the network
    in [w], and after the [catch] block has logged the error [e]. *)
Definition after_call {World : Type} (job : Job) (retriesLeft : nat) (w : World)
                      (p : Process World) : Process World :=
  {| world := w; overrides := overrides p;
     trace := (trace p ++ [JobLog [Lit "retryAttempt "; Subst (of_nat retriesLeft)]])
              ++ [Call job] |}.

Definition after_catch {World : Type} (job : Job) (retriesLeft : nat) (w : World)
                       (e : JsVal) (p : Process World) : Process World :=
  {| world := w; overrides := overrides p;
     trace := (trace (after_call job retriesLeft w p) ++ [JobLogError e])
              ++ [ConsoleLogError e] |}.

(** ** Runs of the check function *)

(** From the network [w], the check function fails [k] times with errors
    that are retried and then ends: with a result, or with an error named
    "RpcError", which gives the error result.  [w'] is the network it
    leaves. *)
Inductive ends_after {World : Type} (fn : CheckFn World) (job : Job)
                     (dns : list (string * string))
  : World -> nat -> JsVal -> World -> Prop :=
| ends_result (w w' : World) (r : JsVal) :
    fn job dns w = (Fulfilled r, w') ->
    ends_after fn job dns w 0 r w'
| ends_rejected (w w' : World) (e r : JsVal) :
    fn job dns w = (Rejected e, w') ->
    is_RpcError e ->
    performCheckError e job = Normal r ->
    ends_after fn job dns w 0 r w'
| ends_later (w w1 w' : World) (e : JsVal) (k : nat) (r : JsVal) :
    fn job dns w = (Rejected e, w1) ->
    transient e ->
    ends_after fn job dns w1 k r w' ->
    ends_after fn job dns w (S k) r w'.

(** Where a result of [retryFn] comes from. *)
Definition result_of {World : Type} (fn : CheckFn World) (job : Job) (r : JsVal)
  : Prop :=
  (exists dns w w', fn job dns w = (Fulfilled r, w')) \/
  (exists dns w w' e,
      fn job dns w = (Rejected e, w') /\ performCheckError e job = Normal r).

End CheckService.

(* ===================================================================== *)
(** * The gossip dispatcher (src/monitor/lib/MessageHandler.js) *)
(* ===================================================================== *)

Module MessageHandler.
Import Js Effects.
Local Open Scope js_scope.

(** The bytes of a message: their text ([uint8ArrayToString]) and what
    [JSON.parse] makes of that text, [None] when it throws. *)
Record Payload : Type := { text : string; json : option JsVal }.

Definition JSON_parse (p : Payload) : Completion JsVal :=
  match json p with
  | Some v => Normal v
  | None => Throw (SyntaxError "Unexpected token in JSON")
  end.

(** [evt.detail], with [from] already a string. *)
Record Message : Type := { topic : string; from : string; data : Payload }.

Inductive Table : Type := Monitor | Service | Peer | HealthCheck.

(** The calls made to the datastore. *)
Inductive DbCall : Type :=
| Upsert (table : Table) (model : JsVal)
| Create (table : Table) (model : JsVal).

(** The node: the calls its datastore has received and the lines written
    to its console, both in order. *)
Record Node : Type := { db : list DbCall; console : list (list part) }.

Definition datastore (c : DbCall) : M Node unit :=
  modify (fun n => {| db := db n ++ [c]; console := console n |}).

Definition console_log (line : list part) : M Node unit :=
  modify (fun n => {| db := db n; console := console n ++ [line] |}).

(** A loop that takes the values of [indices] in turn and stops at the
    first turn that throws. *)
Fixpoint for_each {A} (indices : list A) (body : A -> M Node unit) : M Node unit :=
  match indices with
  | [] => ret tt
  | i :: rest => body i ;; for_each rest body
  end.

Section Handler.
Variable StringToNumber : string -> number.
Variable ObjectToString : JsVal -> Completion string.

(** One turn of the loop over the announced services. *)
Definition announce (sender : string) (services : JsVal) (i : nat) : M Node unit :=
  model <- lift (get_index services i) ;;
  console_log [Subst model] ;;
  datastore (Upsert Service model) ;;
  serviceUrl <- lift (get model "serviceUrl") ;;
  datastore (Upsert Peer (JObj [("peerId", JStr sender); ("serviceUrl", serviceUrl)])).

Definition handleMessage (evt : Message) : M Node unit :=
  if topic evt =? "/ibp/services" then
    (* a peer has published their services *)
    parsed <- lift (JSON_parse (data evt)) ;;
    let services := or_else parsed (JArr []) in
    console_log [Lit "/ibp/services from"; Lit (from evt)] ;;
    datastore (Upsert Monitor (JObj [("monitorId", JStr (from evt));
                                     ("services", services)])) ;;
    length_ <- lift (get services "length") ;;
    bound <- lift (ToNumber StringToNumber ObjectToString length_) ;;
    for_each (seq 0 (below bound)) (announce (from evt) services)
  else if topic evt =? "/ibp/healthCheck" then
    (* a peer has published some results *)
    record <- lift (JSON_parse (data evt)) ;;
    serviceUrl <- lift (get record "serviceUrl") ;;
    level <- lift (get record "level") ;;
    let model := JObj [("monitorId", JStr (from evt));
                       ("serviceUrl", serviceUrl);
                       ("level", or_else level (JStr "info"));
                       ("source", JStr "gossip");
                       ("record", record)] in
    serviceUrl' <- lift (get record "serviceUrl") ;;
    console_log [Lit "/ibp/healthCheck from"; Lit (from evt); Lit "for";
                 Subst serviceUrl'] ;;
    datastore (Create HealthCheck model)
  else
    console_log [Lit "received: "; Lit (text (data evt)); Lit " from ";
                 Lit (from evt); Lit " on topic "; Lit (topic evt)].
End Handler.

(** The rows a run of calls has created in a table. *)
Definition created (t : Table) (calls : list DbCall) : list JsVal :=
  flat_map (fun c => match c with
                     | Create t' m =>
                       match t, t' with
                       | Monitor, Monitor | Service, Service
                       | Peer, Peer | HealthCheck, HealthCheck => [m]
                       | _, _ => []
                       end
                     | Upsert _ _ => []
                     end) calls.

(** What the handler passes to the datastore for one announced service,
    and the row it creates for a gossiped result. *)
Definition service_upserts (sender : string) (descriptor : JsVal) : list DbCall :=
  [Upsert Service descriptor;
   Upsert Peer (JObj [("peerId", JStr sender);
                      ("serviceUrl", prop descriptor "serviceUrl")])].

Definition gossip_row (sender : string) (record : JsVal) : JsVal :=
  JObj [("monitorId", JStr sender);
        ("serviceUrl", prop record "serviceUrl");
        ("level", if truthy (prop record "level")
                  then prop record "level" else JStr "info");
        ("source", JStr "gossip");
        ("record", record)].

(** ** Discovery and publication *)

Definition is_upsert (c : DbCall) : Prop :=
  match c with
  | Upsert _ _ => True
  | Create _ _ => False
  end.

Section Discovery.
(** The fault, if any, with which the datastore answers a call, given the
    calls it has taken so far. *)
Variable storage : DbCall -> list DbCall -> option Error.

Definition datastore_call (c : DbCall) : M Node unit :=
  fun n => match storage c (db n) with
           | Some e => (Throw e, n)
           | None => datastore c n
           end.

(** [handleDiscovery(peerId)], with [peerId.detail.id] already a string.
    The model is passed a second time as the options of the upsert. *)
Definition handleDiscovery (peerId : string) : M Node unit :=
  console_log [Lit "peer:discover "; Lit peerId] ;;
  try_catch
    (datastore_call (Upsert Monitor (JObj [("monitorId", JStr peerId)])))
    (fun err =>
       console_log [Lit "Error trying to upsert discovered monitor"; Lit peerId] ;;
       console_log [Subst (JObj [("name", JStr (name err));
                                 ("message", JStr (message err))])]).
End Discovery.

(** A call of [libp2p.pubsub.publish(topic, bytes)], with the value whose
    JSON text the bytes are. *)
Inductive Published : Type :=
| Publish (topic_ : string) (value : JsVal).

(** [publishServices(services)]: one message for each service, with the
    service alone in an array.  An absent argument is the empty array. *)
Definition publishServices (services : option (list JsVal)) : list Published :=
  map (fun service => Publish "/ibp/services" (JArr [service]))
      (match services with
       | Some l => l
       | None => []
       end).

Section Delivery.
(** [JSON.stringify] *)
Variable JSON_stringify : JsVal -> string.

(** A published message as a peer receives it from [sender].  The values
    published are JSON values, which [JSON.parse] reads back from the
    text [JSON.stringify] wrote. *)
Definition received (sender : string) (m : Published) : Message :=
  match m with
  | Publish topic_ value =>
    {| topic := topic_; from := sender;
       data := {| text := JSON_stringify value; json := Some value |} |}
  end.
End Delivery.

(** What the handler passes to the datastore for one published service. *)
Definition single_announcement (sender : string) (service : JsVal) : list DbCall :=
  Upsert Monitor (JObj [("monitorId", JStr sender); ("services", JArr [service])])
  :: service_upserts sender service.

End MessageHandler.

(* ===================================================================== *)
(** * Worked inputs *)
(* ===================================================================== *)

Module Scenario.
Import Js Effects Config.

(** The inputs below hold numbers where the rules do arithmetic, so the
    conversion of a string to a number is never consulted on them. *)
Definition not_a_number_s : string -> number := fun _ => NaN.

(** The conversion of an object to a primitive value: its [toString] is
    that of every object unless it has a property of that name of its own,
    which in a JSON document is no function.  No array is converted in the
    inputs below. *)
Definition toString_of (v : JsVal) : Completion string :=
  match v with
  | JObj fields =>
    match lookup "toString" fields with
    | Some _ => Throw (TypeError "Cannot convert object to primitive value")
    | None => Normal "[object Object]"
    end
  | _ => Normal EmptyString
  end.

(** The differences taken in the inputs below are integers, which rounding
    leaves as they are. *)
Definition exact : Q -> Q := fun q => q.

(** [net.isIP] on the addresses that occur below: 10.0.0.5 is an IP
    address, a host name is not. *)
Definition known_ip (ip : string) : bool := ip =? "10.0.0.5".

(** The names below are in lower case and hold no [*]: the pattern of one
    matches no other. *)
Definition same_name (name_ domain : string) : bool := name_ =? domain.

(** The configuration of the repository, with alerting switched on. *)
Definition cfg_enabled : Cfg := {|
  performance := performance config;
  alertsEngine := {|
    enabled := true;
    queueName := queueName (alertsEngine config);
    webhook := webhook (alertsEngine config);
    apiKey := apiKey (alertsEngine config);
    thresholds := thresholds (alertsEngine config)
  |}
|}.

Definition chain_record (best finalized ms : Q) : JsVal :=
  JObj [("syncState", JObj [("startingBlock", JNum 1);
                            ("currentBlock", JNum best);
                            ("highestBlock", JNum best)]);
        ("finalizedBlock", JNum finalized);
        ("performance", JNum ms)].

(** Member m1 reported block 100 five minutes ago and reports it again
    now, 20 blocks ahead of its finalized block and in 650 ms; member m2
    reported block 112 of the same service in between. *)
Definition previous_row : AlertsEngine.HealthCheck := {|
  AlertsEngine.id := 1; AlertsEngine.memberId := "m1";
  AlertsEngine.serviceId := "s1"; AlertsEngine.status := Some "success";
  AlertsEngine.createdAt := 700000;
  AlertsEngine.record := chain_record 100 98 120
|}.

Definition other_row : AlertsEngine.HealthCheck := {|
  AlertsEngine.id := 2; AlertsEngine.memberId := "m2";
  AlertsEngine.serviceId := "s1"; AlertsEngine.status := Some "success";
  AlertsEngine.createdAt := 800000;
  AlertsEngine.record := chain_record 112 110 95
|}.

Definition current_row : AlertsEngine.HealthCheck := {|
  AlertsEngine.id := 3; AlertsEngine.memberId := "m1";
  AlertsEngine.serviceId := "s1"; AlertsEngine.status := Some "success";
  AlertsEngine.createdAt := 1000000;
  AlertsEngine.record := chain_record 100 80 650
|}.

Definition warning_row : AlertsEngine.HealthCheck := {|
  AlertsEngine.id := 4; AlertsEngine.memberId := "m1";
  AlertsEngine.serviceId := "s1"; AlertsEngine.status := Some "warning";
  AlertsEngine.createdAt := 1000000;
  AlertsEngine.record := chain_record 100 80 650
|}.

Definition history : list AlertsEngine.HealthCheck := [previous_row; other_row].

Definition clock : AlertsEngine.Clock :=
  {| AlertsEngine.now1 := 1000000; AlertsEngine.now2 := 1000001;
     AlertsEngine.now3 := 1000001 |}.

(** The check job of the specification's scenario. *)
Definition job_rpc_test : CheckService.Job := {|
  CheckService.data := {|
    CheckService.subdomain := Some "rpc-test";
    CheckService.member := {| CheckService.member_id := "member-1";
                              CheckService.serviceIpAddress := "10.0.0.5" |};
    CheckService.service := {| CheckService.service_id := "polkadot-rpc";
                               CheckService.chainId := Some "polkadot";
                               CheckService.serviceUrl
                               := "wss://rpc-test.dotters.network/polkadot" |};
    CheckService.monitorId := "monitor-1"
  |}
|}.

(** The same job for a member registered under a host name. *)
Definition job_host_name : CheckService.Job := {|
  CheckService.data := {|
    CheckService.subdomain := Some "rpc-test";
    CheckService.member := {| CheckService.member_id := "member-2";
                              CheckService.serviceIpAddress := "rpc.example.org" |};
    CheckService.service := CheckService.service (CheckService.data job_rpc_test);
    CheckService.monitorId := "monitor-1"
  |}
|}.

Definition error_object (name_ message_ : string) : JsVal :=
  JObj [("name", JStr name_); ("message", JStr message_)].

(** A network that is never reached, a network that rejects the call, and
    a client that rejects with [null]. *)
Definition fn_timeout : CheckService.CheckFn unit :=
  fun _ _ w => (CheckService.Rejected
                  (error_object "Error" "connect ETIMEDOUT 10.0.0.5:443"), w).

Definition fn_rejected : CheckService.CheckFn unit :=
  fun _ _ w => (CheckService.Rejected
                  (error_object "RpcError" "-32601: Method not found"), w).

Definition fn_null : CheckService.CheckFn unit :=
  fun _ _ w => (CheckService.Rejected JNull, w).

Definition idle : CheckService.Process unit :=
  {| CheckService.world := tt; CheckService.overrides := [];
     CheckService.trace := [] |}.

(** A slow answer: 650 ms between the two readings of the timer. *)
Definition slow_facts : CheckService.Facts := {|
  CheckService.peerId := "12D3KooWnode";
  CheckService.chain := JStr "Polkadot";
  CheckService.chainType := JStr "Live";
  CheckService.health := JObj [("peers", JNum 40); ("isSyncing", JBool false)];
  CheckService.networkState := JUndefined;
  CheckService.syncState := JObj [("currentBlock", JNum 100)];
  CheckService.finalizedBlock := JNum 98;
  CheckService.version := JStr "1.0.0";
  CheckService.randBlockNumber := JNum 17;
  CheckService.specVersion := "9430";
  CheckService.start := 1000;
  CheckService.end_ := 1650
|}.

(** A string between double quotes, for the text of a payload. *)
Definition quoted (s : string) : string :=
  String (Ascii.ascii_of_nat 34) (s ++ String (Ascii.ascii_of_nat 34) EmptyString).

(** Messages from peer P1. *)
Definition services_message : MessageHandler.Message := {|
  MessageHandler.topic := "/ibp/services";
  MessageHandler.from := "P1";
  MessageHandler.data := {|
    MessageHandler.text := "[{" ++ quoted "serviceUrl" ++ ":" ++ quoted "wss://a" ++ ","
                           ++ quoted "chainId" ++ ":" ++ quoted "polkadot" ++ "}]";
    MessageHandler.json := Some (JArr [JObj [("serviceUrl", JStr "wss://a");
                                             ("chainId", JStr "polkadot")]])
  |}
|}.

Definition healthCheck_message (text_ : string) (json_ : option JsVal)
  : MessageHandler.Message := {|
  MessageHandler.topic := "/ibp/healthCheck";
  MessageHandler.from := "P1";
  MessageHandler.data := {| MessageHandler.text := text_;
                            MessageHandler.json := json_ |}
|}.

(** Four payloads: an empty object, which has none of the fields of a
    result; text that is not JSON; the JSON text [null]; and a record whose
    level is the empty string. *)
Definition empty_object_message : MessageHandler.Message :=
  healthCheck_message "{}" (Some (JObj [])).

Definition not_json_message : MessageHandler.Message :=
  healthCheck_message "not json" None.

Definition null_message : MessageHandler.Message :=
  healthCheck_message "null" (Some JNull).

Definition empty_level_message : MessageHandler.Message :=
  healthCheck_message ("{" ++ quoted "level" ++ ":" ++ quoted EmptyString ++ "}")
                      (Some (JObj [("level", JStr EmptyString)])).

(** A result without a serviceUrl. *)
Definition no_url_message : MessageHandler.Message :=
  healthCheck_message ("{" ++ quoted "status" ++ ":" ++ quoted "success" ++ ","
                       ++ quoted "level" ++ ":" ++ quoted "warning" ++ "}")
                      (Some (JObj [("status", JStr "success");
                                   ("level", JStr "warning")])).

Definition fresh : MessageHandler.Node :=
  {| MessageHandler.db := []; MessageHandler.console := [] |}.

(** ** More inputs *)

Definition timeout_error : JsVal :=
  error_object "Error" "connect ETIMEDOUT 10.0.0.5:443".

Definition not_found_error : Error :=
  {| name := "Error"; message := "getaddrinfo ENOTFOUND rpc-test.dotters.network" |}.

(** The row a result of the worker is stored as. *)
Definition row_of (id_ : Z) (created : Z) (result : JsVal) : AlertsEngine.HealthCheck := {|
  AlertsEngine.id := id_;
  AlertsEngine.memberId := "m1";
  AlertsEngine.serviceId := "s1";
  AlertsEngine.status := match prop result "status" with
                         | JStr s => Some s
                         | _ => None
                         end;
  AlertsEngine.createdAt := created;
  AlertsEngine.record := prop result "record"
|}.

Definition value_of (c : Completion JsVal) : JsVal :=
  match c with
  | Normal v => v
  | Throw _ => JUndefined
  end.

Definition error_row : AlertsEngine.HealthCheck :=
  row_of 5 1000000
         (value_of (CheckService.performCheckError timeout_error job_rpc_test)).

(** A row of history that was stored without a record. *)
Definition bare_row : AlertsEngine.HealthCheck := {|
  AlertsEngine.id := 6; AlertsEngine.memberId := "m1";
  AlertsEngine.serviceId := "s1"; AlertsEngine.status := Some "success";
  AlertsEngine.createdAt := 700000;
  AlertsEngine.record := JNull
|}.

Definition bare_history : list AlertsEngine.HealthCheck := [bare_row; other_row].

(** Rows whose records hold a [syncState] and nothing else. *)
Definition sparse_row (id_ : Z) (member_ : string) (created : Z) (ss : JsVal)
  : AlertsEngine.HealthCheck := {|
  AlertsEngine.id := id_; AlertsEngine.memberId := member_;
  AlertsEngine.serviceId := "s1"; AlertsEngine.status := Some "success";
  AlertsEngine.createdAt := created;
  AlertsEngine.record := JObj [("syncState", ss)]
|}.

(** The configuration with the SLA set to 0. *)
Definition cfg_zero_sla : Cfg := {|
  performance := {| sla := 0 |};
  alertsEngine := alertsEngine cfg_enabled
|}.

(** An answer in 100 ms. *)
Definition fast_facts : CheckService.Facts := {|
  CheckService.peerId := CheckService.peerId slow_facts;
  CheckService.chain := CheckService.chain slow_facts;
  CheckService.chainType := CheckService.chainType slow_facts;
  CheckService.health := CheckService.health slow_facts;
  CheckService.networkState := CheckService.networkState slow_facts;
  CheckService.syncState := CheckService.syncState slow_facts;
  CheckService.finalizedBlock := CheckService.finalizedBlock slow_facts;
  CheckService.version := CheckService.version slow_facts;
  CheckService.randBlockNumber := CheckService.randBlockNumber slow_facts;
  CheckService.specVersion := CheckService.specVersion slow_facts;
  CheckService.start := 1000;
  CheckService.end_ := 1100
|}.

(** A node that is reached at the third call; the network counts the
    calls. *)
Definition fn_third_time : CheckService.CheckFn nat :=
  fun job _ calls =>
    if (calls <? 2)%nat then (CheckService.Rejected timeout_error, S calls)
    else (CheckService.Fulfilled
            (CheckService.check_result exact cfg_enabled job fast_facts), S calls).

Definition idle_counting : CheckService.Process nat :=
  {| CheckService.world := 0%nat; CheckService.overrides := [];
     CheckService.trace := [] |}.

(** A resolver that knows no name. *)
Definition resolver_down : string -> unit -> Completion string * unit :=
  fun _ w => (Throw not_found_error, w).

(** A datastore that is down. *)
Definition storage_down : MessageHandler.DbCall -> list MessageHandler.DbCall
                          -> option Error :=
  fun _ _ => Some {| name := "SequelizeConnectionError"; message := "connect ECONNREFUSED" |}.

Definition message_on (topic_ text_ : string) (json_ : option JsVal)
  : MessageHandler.Message := {|
  MessageHandler.topic := topic_;
  MessageHandler.from := "P1";
  MessageHandler.data := {| MessageHandler.text := text_;
                            MessageHandler.json := json_ |}
|}.

Definition service_a : JsVal :=
  JObj [("serviceUrl", JStr "wss://a"); ("chainId", JStr "polkadot")].

Definition service_b : JsVal :=
  JObj [("serviceUrl", JStr "wss://b"); ("chainId", JStr "kusama")].

(** A success that answered in 650 ms and whose [syncState] is [null],
    alone in its table. *)
Definition null_sync_row : AlertsEngine.HealthCheck := {|
  AlertsEngine.id := 7; AlertsEngine.memberId := "m1";
  AlertsEngine.serviceId := "s1"; AlertsEngine.status := Some "success";
  AlertsEngine.createdAt := 1000000;
  AlertsEngine.record := JObj [("syncState", JNull); ("performance", JNum 650)]
|}.

(** An object that cannot be converted to a primitive value. *)
Definition no_text : JsVal := JObj [("toString", JNum 1)].

(** A conversation that is rejected with [null]. *)
Definition gather_null : CheckService.Job -> list (string * string) -> unit
                         -> CheckService.Settled CheckService.Facts * unit :=
  fun _ _ w => (CheckService.Rejected JNull, w).

(** An error row whose message is such an object. *)
Definition no_text_row : AlertsEngine.HealthCheck := {|
  AlertsEngine.id := 13; AlertsEngine.memberId := "m1";
  AlertsEngine.serviceId := "s1"; AlertsEngine.status := Some "error";
  AlertsEngine.createdAt := 1000000;
  AlertsEngine.record := JObj [("error", JObj [("name", JStr "Error");
                                               ("message", no_text)])]
|}.

(** A conversation that ends well in 100 ms, whatever the network. *)
Definition gather_fast : CheckService.Job -> list (string * string) -> unit
                         -> CheckService.Settled CheckService.Facts * unit :=
  fun _ _ w => (CheckService.Fulfilled fast_facts, w).

End Scenario.

(* ===================================================================== *)
(** * Proofs: the alerts engine *)
(* ===================================================================== *)

Section EffectsProofs.
Import Js Effects.
Context {S A B : Type}.

Lemma bind_normal (m : M S A) (k : A -> M S B) (s s' : S) (a : A) :
  m s = (Normal a, s') -> bind m k s = k a s'.
Proof. intro H; unfold bind; now rewrite H. Qed.

Lemma bind_throw (m : M S A) (k : A -> M S B) (s s' : S) (e : Error) :
  m s = (Throw e, s') -> bind m k s = (Throw e, s').
Proof. intro H; unfold bind; now rewrite H. Qed.

End EffectsProofs.

Section AlertsEngineProofs.
Import Js Effects Config AlertsEngine.

Lemma status_is_spec (h : HealthCheck) (s : string) :
  status_is h s = true <-> status h = Some s.
Proof.
  unfold status_is; destruct (status h) as [x|]; split; intro H;
    try discriminate.
  - apply String.eqb_eq in H; now subst.
  - injection H as ->; apply String.eqb_refl.
Qed.

Lemma strict_eq_undefined (v : JsVal) :
  strict_eq v JUndefined = false <-> v <> JUndefined.
Proof. destruct v; simpl; split; intro H; congruence. Qed.

#[local] Instance RecentFirst_trans :
  Transitive (fun a b : HealthCheck => is_true (RecentFirst.leb a b)).
Proof.
  intros a b c; unfold RecentFirst.leb, is_true; rewrite !Z.leb_le; lia.
Qed.

(** The row a query returns passes its filter, and no row that passes it is
    more recent. *)
Lemma findOne_Some (w : HealthCheck -> bool) (rows : list HealthCheck) (r : HealthCheck) :
  findOne w rows = Some r ->
  In r rows /\ w r = true /\
  forall r', In r' rows -> w r' = true -> (createdAt r' <= createdAt r)%Z.
Proof.
  unfold findOne; intro H.
  pose proof (ByCreatedAtDesc.Permuted_sort (filter w rows)) as P.
  pose proof (ByCreatedAtDesc.StronglySorted_sort (filter w rows) RecentFirst_trans) as SS.
  destruct (ByCreatedAtDesc.sort (filter w rows)) as [|x tl] eqn:E; [discriminate|].
  injection H as ->.
  assert (Hin : In r (filter w rows))
    by (eapply Permutation_in; [symmetry; exact P | now left]).
  apply filter_In in Hin as [Hin Hw]; repeat split; trivial.
  intros r' Hr' Hw'.
  assert (In r' (r :: tl)) as [<- | Htl]
    by (eapply Permutation_in; [exact P | now apply filter_In]); [lia|].
  apply StronglySorted_inv in SS as [_ HF].
  rewrite Forall_forall in HF; specialize (HF _ Htl).
  unfold RecentFirst.leb, is_true in HF; now rewrite Z.leb_le in HF.
Qed.

(** A query returns no row exactly when no row passes its filter. *)
Lemma findOne_None (w : HealthCheck -> bool) (rows : list HealthCheck) :
  findOne w rows = None <-> forall r, In r rows -> w r = false.
Proof.
  unfold findOne.
  pose proof (ByCreatedAtDesc.Permuted_sort (filter w rows)) as P.
  split.
  - intros H r Hr; destruct (w r) eqn:Hw; trivial.
    destruct (ByCreatedAtDesc.sort (filter w rows)) as [|x tl]; [|discriminate].
    apply Permutation_sym, Permutation_nil in P.
    assert (In r (filter w rows)) as Hin by now apply filter_In.
    rewrite P in Hin; destruct Hin.
  - intro H.
    assert (filter w rows = []) as E.
    { destruct (filter w rows) as [|x tl] eqn:E; trivial.
      assert (In x (filter w rows)) as Hin by (rewrite E; now left).
      apply filter_In in Hin as [Hin Hw]; rewrite (H _ Hin) in Hw; discriminate. }
    rewrite E; reflexivity.
Qed.

Lemma where_previous_spec (current : HealthCheck) (now : Z) (r : HealthCheck) :
  where_previous current now r = true <-> is_previous current now r.
Proof.
  unfold where_previous, is_previous.
  rewrite !andb_true_iff, !String.eqb_eq, status_is_spec, Z.ltb_lt; tauto.
Qed.

Lemma where_otherMember_spec (current : HealthCheck) (now_lt now_gt : Z)
                             (r : HealthCheck) :
  where_otherMember current now_lt now_gt r = true
  <-> is_otherMember current now_lt now_gt r.
Proof.
  unfold where_otherMember, is_otherMember.
  rewrite !andb_true_iff, negb_true_iff, <- not_true_iff_false, !String.eqb_eq,
    status_is_spec, !Z.ltb_lt; tauto.
Qed.

Lemma findOne_most_recent (w : HealthCheck -> bool) (sel : HealthCheck -> Prop)
                          (rows : list HealthCheck) :
  (forall r, w r = true <-> sel r) ->
  most_recent sel rows (findOne w rows).
Proof.
  intro Hw; unfold most_recent.
  destruct (findOne w rows) as [r|] eqn:E.
  - apply findOne_Some in E as (Hin & Hr & Hmax); repeat split; trivial.
    + now apply Hw.
    + intros r' Hr' Hs; apply Hmax; trivial; now apply Hw.
  - intros r Hr Hs; apply Hw in Hs.
    rewrite (proj1 (findOne_None w rows) E r Hr) in Hs; discriminate.
Qed.

Lemma jobs_with_code_app (c : Z) (a b : Queue) :
  jobs_with_code c (a ++ b) = jobs_with_code c a ++ jobs_with_code c b.
Proof. unfold jobs_with_code; now rewrite map_app, filter_app. Qed.

Variable StringToNumber : string -> number.
Variable ObjectToString : JsVal -> Completion string.
Variable round : Q -> Q.
Variable cfg : Cfg.

Ltac js_unfold :=
  unfold rule100, rule101, rule102, rule103, error_message, defined,
    syncState, currentBlock, enqueue, queue_add, and_then, bind, lift, modify, ret.

Lemma get_truthy (v : JsVal) (k : string) :
  truthy v = true -> exists x, get v k = Normal x.
Proof. destruct v; simpl; intro H; try discriminate; eexists; reflexivity. Qed.

(** ** Conversions *)

Lemma interpolate_primitive (v : JsVal) :
  primitive v -> interpolate ObjectToString v = Normal tt.
Proof. destruct v; simpl; intro H; trivial; contradiction. Qed.

Lemma strict_eq_primitive (a b : JsVal) : strict_eq a b = true -> primitive b.
Proof. destruct a, b; simpl; intro H; trivial; discriminate. Qed.

Lemma ToNumber_primitive (v : JsVal) :
  primitive v -> exists x, ToNumber StringToNumber ObjectToString v = Normal x.
Proof. destruct v; simpl; intro H; eauto; contradiction. Qed.

(** A value that was converted to a number is converted to a string
    without an error: both conversions go through the same [toString]. *)
Lemma ToNumber_interpolate (v : JsVal) (x : number) :
  ToNumber StringToNumber ObjectToString v = Normal x ->
  interpolate ObjectToString v = Normal tt.
Proof.
  destruct v; simpl; trivial; destruct (ObjectToString _); trivial; discriminate.
Qed.

Lemma sub_operands (a b : JsVal) (x : number) :
  sub StringToNumber ObjectToString round a b = Normal x ->
  exists na nb,
    ToNumber StringToNumber ObjectToString a = Normal na /\
    ToNumber StringToNumber ObjectToString b = Normal nb.
Proof.
  unfold sub.
  destruct (ToNumber _ _ a) as [na|]; [|discriminate].
  destruct (ToNumber _ _ b) as [nb|]; [|discriminate]; eauto.
Qed.

Lemma gt_num_operand (a : JsVal) (n : Q) (b : bool) :
  gt_num StringToNumber ObjectToString a n = Normal b ->
  exists na, ToNumber StringToNumber ObjectToString a = Normal na.
Proof.
  unfold gt_num; destruct (ToNumber _ _ a) as [na|]; [eauto | discriminate].
Qed.

(** ** The rules, one by one *)

Lemma adds_only_nil (k : Z) : adds_only k [].
Proof. intros c _; reflexivity. Qed.

Lemma adds_only_one (k : Z) (job : AlertJob) :
  code job = k -> adds_only k [queued cfg job].
Proof.
  intros <- c Hc; unfold jobs_with_code; simpl.
  destruct (Z.eqb_spec (code job) c); [congruence | reflexivity].
Qed.

(** Reading the message of rule 100 leaves the queue alone; where the
    record or its error is missing the text is the fallback, and where the
    message is there it is converted to a string. *)
Lemma error_message_effect (current : HealthCheck) (q : Queue) :
  error_message ObjectToString current q
  = (match interpolate ObjectToString
             (prop (prop (record current) "error") "message") with
     | Throw e =>
       if truthy (record current) && truthy (prop (record current) "error")
       then Throw e else Normal (message100 current)
     | Normal _ => Normal (message100 current)
     end, q).
Proof.
  unfold error_message, message100, prop, bind, lift, ret.
  destruct (truthy (record current)) eqn:Ht; simpl.
  - destruct (get_truthy _ "error" Ht) as [e ->]; simpl.
    destruct (truthy e) eqn:He.
    + destruct (get_truthy _ "message" He) as [m ->]; simpl.
      destruct (interpolate ObjectToString m) as [[]|]; reflexivity.
    + destruct (interpolate _ _); reflexivity.
  - destruct (interpolate _ _); reflexivity.
Qed.

Lemma rule100_not_error (current : HealthCheck) (q : Queue) :
  status current <> Some "error" ->
  rule100 ObjectToString cfg current q = (Normal tt, q).
Proof.
  intro Hs; unfold rule100.
  destruct (status_is current "error") eqn:E; [|reflexivity].
  apply status_is_spec in E; contradiction.
Qed.

(** Rule 100 adds the one job with its code, or nothing when reading the
    message throws. *)
Lemma rule100_shape (current : HealthCheck) (q : Queue) :
  exists c added,
    rule100 ObjectToString cfg current q = (c, q ++ added) /\
    adds_only 100 added /\
    (added = [] \/
     c = Normal tt /\
     added = [queued cfg (alert100 current (message100 current))]).
Proof.
  unfold rule100.
  destruct (status_is current "error").
  - unfold bind; rewrite error_message_effect.
    destruct (interpolate _ _) as [[]|e];
      [|destruct (_ && _)];
      try (eexists; eexists; split; [reflexivity|];
           split; [now apply adds_only_one | right; split; reflexivity]).
    exists (Throw e), []; rewrite app_nil_r.
    split; [reflexivity|]; split; [apply adds_only_nil | now left].
  - exists (Normal tt), []; rewrite app_nil_r.
    split; [reflexivity|]; split; [apply adds_only_nil | now left].
Qed.

Ltac js_step :=
  match goal with
  | |- context [get ?v ?k] => destruct (get v k) eqn:?; simpl
  | |- context [strict_eq ?a ?b] => destruct (strict_eq a b) eqn:?; simpl
  | |- context [sub StringToNumber ObjectToString round ?a ?b] =>
      destruct (sub StringToNumber ObjectToString round a b) eqn:?; simpl
  | |- context [gt_num StringToNumber ObjectToString ?a ?n] =>
      destruct (gt_num StringToNumber ObjectToString a n) eqn:?; simpl
  | |- context [ge ?x ?t] => destruct (ge x t) eqn:?; simpl
  | |- context [interpolate ObjectToString ?v] =>
      destruct (interpolate ObjectToString v) eqn:?; simpl
  end.

(** Rule 101 adds its job when its condition holds, and leaves the queue
    as it is when it does not (also when it throws). *)
Lemma rule101_effect (current : HealthCheck) (P O : option HealthCheck) (q : Queue) :
  (forall previous block,
      fires101 current P O previous block ->
      rule101 ObjectToString cfg current P O q
      = (Normal tt, q ++ [queued cfg (alert101 current previous block)])) /\
  ((forall previous block, ~ fires101 current P O previous block) ->
   exists c, rule101 ObjectToString cfg current P O q = (c, q)).
Proof.
  split.
  - intros previous block
      (other & ps & cs & os & pb & ob & -> & -> & Hp & Hc & Ho
       & Hps & Dps & Hcs & Dcs & Hos & Dos & Hpb & Hcb & Hob & Heq & Hne).
    apply strict_eq_undefined in Dps, Dcs, Dos.
    pose proof (interpolate_primitive block (strict_eq_primitive pb block Heq)) as Hi.
    unfold rule101; rewrite Hc.
    rewrite (proj2 (status_is_spec previous _) Hp),
            (proj2 (status_is_spec current _) Hc),
            (proj2 (status_is_spec other _) Ho).
    js_unfold.
    repeat (progress (rewrite ?Hps, ?Hcs, ?Hos, ?Dps, ?Dcs, ?Dos,
                              ?Hpb, ?Hcb, ?Hob, ?Heq, ?Hne, ?Hi; simpl)).
    reflexivity.
  - intro H; unfold rule101.
    destruct (status current) as [sc|] eqn:Hc; [|eexists; reflexivity].
    destruct P as [previous|]; [|eexists; reflexivity].
    destruct O as [other|]; [|eexists; reflexivity].
    destruct (status_is previous "success") eqn:Hp; [|eexists; reflexivity].
    destruct (status_is current "success") eqn:Hc'; [|eexists; reflexivity].
    destruct (status_is other "success") eqn:Ho; [|eexists; reflexivity].
    apply status_is_spec in Hp, Hc', Ho.
    js_unfold; simpl.
    repeat (js_step; try (eexists; reflexivity)).
    exfalso.
    repeat match goal with
           | E : strict_eq _ JUndefined = false |- _ => apply strict_eq_undefined in E
           end.
    eapply H; unfold fires101; repeat eexists; eauto.
Qed.

(** Rule 102, in the same way. *)
Lemma rule102_effect (current : HealthCheck) (q : Queue) :
  (forall finalized drift,
      fires102 StringToNumber ObjectToString round cfg current finalized drift ->
      rule102 StringToNumber ObjectToString round cfg current q
      = (Normal tt, q ++ [queued cfg (alert102 current finalized drift)])) /\
  ((forall finalized drift,
       ~ fires102 StringToNumber ObjectToString round cfg current finalized drift) ->
   exists c, rule102 StringToNumber ObjectToString round cfg current q = (c, q)).
Proof.
  split.
  - intros finalized drift (Hc & ss & cb & Hss & Dss & Hcb & Hf & Hd & Hle).
    apply strict_eq_undefined in Dss. apply Qle_bool_iff in Hle.
    destruct (sub_operands _ _ _ Hd) as (na & nb & _ & Hnb).
    pose proof (ToNumber_interpolate _ _ Hnb) as Hi.
    unfold rule102; rewrite (proj2 (status_is_spec current _) Hc).
    js_unfold.
    repeat (progress (rewrite ?Hss, ?Dss, ?Hcb, ?Hf, ?Hd; simpl)).
    rewrite Hle, Hi; reflexivity.
  - intro H; unfold rule102.
    destruct (status_is current "success") eqn:Hc; [|eexists; reflexivity].
    apply status_is_spec in Hc.
    js_unfold; simpl.
    repeat (js_step; try (eexists; reflexivity)).
    exfalso.
    repeat match goal with
           | E : strict_eq _ JUndefined = false |- _ => apply strict_eq_undefined in E
           | E : ge ?x _ = true |- _ => destruct x; simpl in E; [discriminate|]
           | E : Qle_bool _ _ = true |- _ => apply Qle_bool_iff in E
           end.
    eapply H; unfold fires102; split; [eassumption|]; repeat eexists; eauto.
Qed.

(** Rule 103, in the same way. *)
Lemma rule103_effect (current : HealthCheck) (q : Queue) :
  (forall perf,
      fires103 StringToNumber ObjectToString cfg current perf ->
      rule103 StringToNumber ObjectToString cfg current q
      = (Normal tt, q ++ [queued cfg (alert103 current perf)])) /\
  ((forall perf, ~ fires103 StringToNumber ObjectToString cfg current perf) ->
   exists c, rule103 StringToNumber ObjectToString cfg current q = (c, q)).
Proof.
  split.
  - intros perf (Hc & ms & Hp & Hn & Hlt).
    pose proof (ToNumber_interpolate _ _ Hn) as Hi.
    unfold rule103; rewrite (proj2 (status_is_spec current _) Hc).
    js_unfold; rewrite Hp; simpl; unfold gt_num; rewrite Hn.
    destruct (Qle_bool ms (sla (performance cfg))) eqn:Hle; simpl.
    + apply Qle_bool_iff in Hle; lra.
    + rewrite Hi; reflexivity.
  - intro H; unfold rule103.
    destruct (status_is current "success") eqn:Hc; [|eexists; reflexivity].
    apply status_is_spec in Hc.
    js_unfold; simpl.
    destruct (get (record current) "performance") as [p|e] eqn:Hp;
      [|eexists; reflexivity].
    unfold gt_num.
    destruct (ToNumber StringToNumber ObjectToString p) as [[|ms]|e] eqn:Hn;
      try (eexists; reflexivity).
    destruct (Qle_bool ms (sla (performance cfg))) eqn:Hle; simpl;
      [eexists; reflexivity|].
    exfalso; apply (H p); split; [assumption|]; exists ms; repeat split; trivial.
    apply Qnot_le_lt; intro Hq; apply Qle_bool_iff in Hq; congruence.
Qed.

Ltac none_added :=
  eexists; exists []; rewrite app_nil_r; split; [reflexivity | apply adds_only_nil].

Lemma rule101_shape (current : HealthCheck) (P O : option HealthCheck) (q : Queue) :
  exists c added,
    rule101 ObjectToString cfg current P O q = (c, q ++ added) /\ adds_only 101 added.
Proof.
  unfold rule101.
  repeat match goal with
         | |- context [match ?x with Some _ => _ | None => _ end] => destruct x
         | |- context [if ?b then _ else _] => destruct b
         end;
    try none_added.
  js_unfold; simpl.
  repeat (js_step; try none_added).
  eexists; eexists; split; [reflexivity | now apply adds_only_one].
Qed.

Lemma rule102_shape (current : HealthCheck) (q : Queue) :
  exists c added,
    rule102 StringToNumber ObjectToString round cfg current q = (c, q ++ added)
    /\ adds_only 102 added.
Proof.
  unfold rule102.
  destruct (status_is current "success"); [|none_added].
  js_unfold; simpl.
  repeat (js_step; try none_added).
  eexists; eexists; split; [reflexivity | now apply adds_only_one].
Qed.

Lemma rule103_shape (current : HealthCheck) (q : Queue) :
  exists c added,
    rule103 StringToNumber ObjectToString cfg current q = (c, q ++ added)
    /\ adds_only 103 added.
Proof.
  unfold rule103.
  destruct (status_is current "success"); [|none_added].
  js_unfold; simpl.
  destruct (get (record current) "performance") as [p|e]; simpl; [|none_added].
  destruct (gt_num StringToNumber ObjectToString p (sla (performance cfg)))
    as [[|]|e]; simpl; try none_added.
  destruct (interpolate ObjectToString p); simpl; [|none_added].
  eexists; eexists; split; [reflexivity | now apply adds_only_one].
Qed.

Lemma currentBlock_readable (h : HealthCheck) (ss : JsVal) (q : Queue) :
  get (record h) "syncState" = Normal ss -> ss <> JNull -> ss <> JUndefined ->
  currentBlock h q = (Normal (prop ss "currentBlock"), q).
Proof.
  intros Hss Hn Hu; unfold currentBlock, syncState, bind, lift, prop; rewrite Hss.
  destruct ss; simpl; trivial; congruence.
Qed.

(** On readable rows rule 101 does not throw. *)
Lemma rule101_completes (current : HealthCheck) (P O : option HealthCheck) :
  readable current -> readable_if_found P -> readable_if_found O ->
  completes (rule101 ObjectToString cfg current P O).
Proof.
  intros (cs & Hcs & Ncs) HP HO q; unfold rule101.
  destruct (status current); [|reflexivity].
  destruct P as [previous|]; [|reflexivity].
  destruct O as [other|]; [|reflexivity].
  destruct HP as (ps & Hps & Nps), HO as (os & Hos & Nos).
  destruct (_ && _); [|reflexivity].
  unfold and_then, defined, syncState, bind, lift, ret; rewrite Hps, Hcs, Hos.
  destruct (strict_eq ps JUndefined) eqn:Dps; [reflexivity|].
  destruct (strict_eq cs JUndefined) eqn:Dcs; [reflexivity|].
  destruct (strict_eq os JUndefined) eqn:Dos; [reflexivity|].
  apply strict_eq_undefined in Dps, Dcs, Dos; simpl.
  rewrite (currentBlock_readable previous ps q Hps Nps Dps).
  rewrite (currentBlock_readable current cs q Hcs Ncs Dcs).
  destruct (strict_eq _ (prop cs "currentBlock")) eqn:Heq; [|reflexivity].
  rewrite (currentBlock_readable other os q Hos Nos Dos).
  rewrite (currentBlock_readable current cs q Hcs Ncs Dcs).
  destruct (strict_eq (prop os _) _); simpl; [reflexivity|].
  rewrite (currentBlock_readable current cs q Hcs Ncs Dcs).
  rewrite (interpolate_primitive _ (strict_eq_primitive _ _ Heq)); reflexivity.
Qed.

(** On a readable row with plain values rule 102 does not throw. *)
Lemma rule102_completes (current : HealthCheck) :
  readable current -> plain current ->
  completes (rule102 StringToNumber ObjectToString round cfg current).
Proof.
  intros (cs & Hcs & Ncs) (_ & Hb & Hf & _) q; unfold rule102.
  destruct (status_is current "success"); [|reflexivity].
  unfold defined, syncState, bind, lift, ret; rewrite Hcs.
  destruct (strict_eq cs JUndefined) eqn:Dcs; [reflexivity|].
  apply strict_eq_undefined in Dcs; simpl.
  rewrite (currentBlock_readable current cs q Hcs Ncs Dcs).
  assert (get (record current) "finalizedBlock"
          = Normal (prop (record current) "finalizedBlock")) as Ef
    by (unfold prop; destruct (record current); simpl in *; trivial; discriminate).
  rewrite Ef.
  unfold prop in Hb at 2; rewrite Hcs in Hb.
  destruct (ToNumber_primitive _ Hb) as [nb Enb], (ToNumber_primitive _ Hf) as [nf Enf].
  unfold sub; rewrite Enb, Enf.
  destruct (ge _ _); [|reflexivity].
  rewrite (interpolate_primitive _ Hf); reflexivity.
Qed.

Lemma rule103_completes (current : HealthCheck) :
  readable current -> plain current ->
  completes (rule103 StringToNumber ObjectToString cfg current).
Proof.
  intros (cs & Hcs & _) (_ & _ & _ & Hp) q; unfold rule103.
  destruct (status_is current "success"); [|reflexivity].
  assert (get (record current) "performance"
          = Normal (prop (record current) "performance")) as Ep
    by (unfold prop; destruct (record current); simpl in *; trivial; discriminate).
  unfold bind, lift; rewrite Ep.
  destruct (ToNumber_primitive _ Hp) as [np Enp].
  unfold gt_num; rewrite Enp.
  destruct np as [|ms]; [reflexivity|].
  destruct (negb _); [|reflexivity].
  rewrite (interpolate_primitive _ Hp); reflexivity.
Qed.

Lemma run_enabled (rows : list HealthCheck) (clock : Clock)
                   (current : HealthCheck) (q : Queue) :
  enabled (alertsEngine cfg) = true ->
  run StringToNumber ObjectToString round cfg rows clock current q
  = bind (rule100 ObjectToString cfg current)
      (fun _ => bind (rule101 ObjectToString cfg current
                        (findOne (where_previous current (now1 clock)) rows)
                        (findOne (where_otherMember current (now2 clock) (now3 clock)) rows))
      (fun _ => bind (rule102 StringToNumber ObjectToString round cfg current)
      (fun _ => rule103 StringToNumber ObjectToString cfg current))) q.
Proof. intro H; unfold run; rewrite H; reflexivity. Qed.

(** Rules 102 and 103, one after the other. *)
Lemma rules_102_103_shape (current : HealthCheck) (q : Queue) :
  exists c a2 a3,
    bind (rule102 StringToNumber ObjectToString round cfg current)
         (fun _ => rule103 StringToNumber ObjectToString cfg current) q
    = (c, q ++ a2 ++ a3)
    /\ adds_only 102 a2 /\ adds_only 103 a3.
Proof.
  destruct (rule102_shape current q) as (c2 & a2 & E2 & H2).
  unfold bind; rewrite E2; destruct c2 as [[]|e].
  - destruct (rule103_shape current (q ++ a2)) as (c3 & a3 & E3 & H3).
    rewrite E3, <- app_assoc; eauto 6.
  - exists (Throw e), a2, []; rewrite app_nil_r; auto using adds_only_nil.
Qed.

Lemma status_is_exclusive (current : HealthCheck) (s s' : string) :
  status current = Some s -> s <> s' -> status_is current s' = false.
Proof.
  intros Hs Hne; unfold status_is; rewrite Hs; now apply String.eqb_neq.
Qed.

(** Rules 101, 102 and 103 do nothing for a row that is not a success. *)
Lemma rules_need_success (current : HealthCheck) (P O : option HealthCheck)
                         (q : Queue) :
  status_is current "success" = false ->
  rule101 ObjectToString cfg current P O q = (Normal tt, q) /\
  rule102 StringToNumber ObjectToString round cfg current q = (Normal tt, q) /\
  rule103 StringToNumber ObjectToString cfg current q = (Normal tt, q).
Proof.
  intro Hs; unfold rule101, rule102, rule103; rewrite Hs.
  repeat split.
  destruct (status current); [|reflexivity].
  destruct P; [|reflexivity]; destruct O; [|reflexivity].
  now rewrite andb_false_r.
Qed.

(** A success goes past rule 100 untouched. *)
Lemma run_success (rows : list HealthCheck) (clock : Clock)
                  (current : HealthCheck) (q : Queue) :
  enabled (alertsEngine cfg) = true ->
  status current = Some "success" ->
  run StringToNumber ObjectToString round cfg rows clock current q
  = bind (rule101 ObjectToString cfg current
            (findOne (where_previous current (now1 clock)) rows)
            (findOne (where_otherMember current (now2 clock) (now3 clock)) rows))
      (fun _ => bind (rule102 StringToNumber ObjectToString round cfg current)
      (fun _ => rule103 StringToNumber ObjectToString cfg current)) q.
Proof.
  intros Hen Hs; rewrite run_enabled by assumption.
  assert (Hn : status current <> Some "error") by (rewrite Hs; discriminate).
  now rewrite (bind_normal _ _ _ _ _ (rule100_not_error current q Hn)).
Qed.

(** An evaluation of a row that is no success adds nothing but, on an
    error, the job of rule 100. *)
Lemma run_not_success (rows : list HealthCheck) (clock : Clock)
                      (current : HealthCheck) (q : Queue) :
  status current <> Some "success" ->
  exists c added,
    run StringToNumber ObjectToString round cfg rows clock current q = (c, q ++ added) /\
    adds_only 100 added /\
    (added = [] \/
     c = Normal tt /\
     added = [queued cfg (alert100 current (message100 current))]).
Proof.
  intro Hs.
  destruct (enabled (alertsEngine cfg)) eqn:Hen.
  2: { unfold run; rewrite Hen; exists (Normal tt), []; rewrite app_nil_r.
       split; [reflexivity|]; split; [apply adds_only_nil | now left]. }
  rewrite run_enabled by assumption.
  assert (Hn : status_is current "success" = false).
  { destruct (status_is current "success") eqn:E; trivial.
    apply status_is_spec in E; contradiction. }
  destruct (rule100_shape current q) as (c0 & a0 & E0 & H0 & Ha).
  destruct c0 as [[]|e].
  - rewrite (bind_normal _ _ _ _ _ E0).
    destruct (rules_need_success current
                (findOne (where_previous current (now1 clock)) rows)
                (findOne (where_otherMember current (now2 clock) (now3 clock)) rows)
                (q ++ a0) Hn) as (E1 & E2 & E3).
    rewrite (bind_normal _ _ _ _ _ E1), (bind_normal _ _ _ _ _ E2), E3.
    exists (Normal tt), a0; auto.
  - rewrite (bind_throw _ _ _ _ _ E0).
    exists (Throw e), a0; split; [reflexivity|]; split; [assumption|].
    destruct Ha as [->|[Hc _]]; [now left | discriminate].
Qed.

(** C1. With alerting enabled, the two queries return the most recent row
    among those they select (same member and service, success, older than
    60 seconds; another member of the same service, success, between 60
    seconds and 10 minutes old), and rule 101 adds exactly one job to the
    queue, with [healthChecks = [current, previous]], when both rows exist,
    the three rows are successes with a defined [record.syncState], the
    block of [previous] is that of [current] and the block of [otherMember]
    is not; when any of this fails it adds none. *)
Theorem rule101_fires_iff (rows : list HealthCheck) (clock : Clock)
                          (current : HealthCheck) (q : Queue) :
  enabled (alertsEngine cfg) = true ->
  let P := findOne (where_previous current (now1 clock)) rows in
  let O := findOne (where_otherMember current (now2 clock) (now3 clock)) rows in
  let q' := snd (run StringToNumber ObjectToString round cfg rows clock current q) in
  most_recent (is_previous current (now1 clock)) rows P /\
  most_recent (is_otherMember current (now2 clock) (now3 clock)) rows O /\
  (forall previous block,
      fires101 current P O previous block ->
      jobs_with_code 101 q' = jobs_with_code 101 q ++ [alert101 current previous block]
      /\ code (alert101 current previous block) = 101%Z
      /\ healthChecks (alert101 current previous block) = [current; previous]) /\
  ((forall previous block, ~ fires101 current P O previous block) ->
   jobs_with_code 101 q' = jobs_with_code 101 q).
Proof.
  intros Hen P O q'.
  split; [apply findOne_most_recent, where_previous_spec|].
  split; [apply findOne_most_recent, where_otherMember_spec|].
  subst q'.
  destruct (rule101_effect current P O q) as [Hyes Hno].
  split.
  - intros previous block Hf; split; [|split; reflexivity].
    pose proof Hf as (o & ps & cs & os & pb & ob & _ & _ & _ & Hs & _).
    rewrite run_success by assumption; fold P O.
    rewrite (bind_normal _ _ _ _ _ (Hyes _ _ Hf)).
    destruct (rules_102_103_shape current (q ++ [queued cfg (alert101 current previous block)]))
      as (c & a2 & a3 & E & H2 & H3).
    rewrite E; simpl.
    rewrite !jobs_with_code_app, (H2 101%Z), (H3 101%Z) by discriminate.
    now rewrite !app_nil_r.
  - intro Hf.
    destruct (status_is current "success") eqn:Hs.
    + apply status_is_spec in Hs.
      rewrite run_success by assumption; fold P O.
      destruct (Hno Hf) as [c E]; destruct c as [[]|e].
      * rewrite (bind_normal _ _ _ _ _ E).
        destruct (rules_102_103_shape current q) as (c & a2 & a3 & E' & H2 & H3).
        rewrite E'; simpl.
        rewrite !jobs_with_code_app, (H2 101%Z), (H3 101%Z) by discriminate.
        now rewrite !app_nil_r.
      * now rewrite (bind_throw _ _ _ _ _ E).
    + assert (Hn : status current <> Some "success")
        by (intro H; apply status_is_spec in H; congruence).
      destruct (run_not_success rows clock current q Hn) as (c & a0 & E & H0 & _).
      rewrite E; simpl.
      rewrite jobs_with_code_app, (H0 101%Z) by discriminate.
      now rewrite app_nil_r.
Qed.

(** X21. Rule 102 adds a job with code 102 and severity medium exactly when
    [current] is a success with a defined [record.syncState] and
    [syncState.currentBlock - record.finalizedBlock] is the configured
    threshold or more, the threshold itself included.  That holds of the
    rule on its own; of the whole evaluation, with alerting enabled, the
    job is added provided the evaluation gets as far as the rule, which is
    when rule 101 did not throw on a row of history. *)
Theorem rule102_fires_iff (rows : list HealthCheck) (clock : Clock)
                          (current : HealthCheck) (q : Queue) :
  let P := findOne (where_previous current (now1 clock)) rows in
  let O := findOne (where_otherMember current (now2 clock) (now3 clock)) rows in
  let q' := snd (run StringToNumber ObjectToString round cfg rows clock current q) in
  (forall finalized drift,
      fires102 StringToNumber ObjectToString round cfg current finalized drift ->
      rule102 StringToNumber ObjectToString round cfg current q
      = (Normal tt, q ++ [(queueName (alertsEngine cfg),
                           alert102 current finalized drift, job_options)])
      /\ code (alert102 current finalized drift) = 102%Z
      /\ severity (alert102 current finalized drift) = "medium") /\
  ((forall finalized drift,
       ~ fires102 StringToNumber ObjectToString round cfg current finalized drift) ->
   snd (rule102 StringToNumber ObjectToString round cfg current q) = q) /\
  (enabled (alertsEngine cfg) = true ->
   (completes (rule101 ObjectToString cfg current P O) ->
    forall finalized drift,
      fires102 StringToNumber ObjectToString round cfg current finalized drift ->
      jobs_with_code 102 q'
      = jobs_with_code 102 q ++ [alert102 current finalized drift]) /\
   ((forall finalized drift,
        ~ fires102 StringToNumber ObjectToString round cfg current finalized drift) ->
    jobs_with_code 102 q' = jobs_with_code 102 q)) /\
  (forall ss best finalized,
      status current = Some "success" ->
      get (record current) "syncState" = Normal ss -> ss <> JUndefined ->
      get ss "currentBlock" = Normal (JNum best) ->
      get (record current) "finalizedBlock" = Normal (JNum finalized) ->
      (round (best - finalized) == blockDrift (thresholds (alertsEngine cfg)))%Q ->
      fires102 StringToNumber ObjectToString round cfg current (JNum finalized)
               (round (best - finalized))).
Proof.
  intros P O q'.
  destruct (rule102_effect current q) as [Hyes Hno].
  split; [intros f d Hf; rewrite (Hyes _ _ Hf); repeat split|].
  split; [intro Hf; destruct (Hno Hf) as [c ->]; reflexivity|].
  split.
  - intro Hen; subst q'.
    split.
    + intros Hc f d Hf.
      pose proof Hf as (Hs & _).
      rewrite run_success by assumption; fold P O.
      destruct (rule101_shape current P O q) as (c1 & a1 & E1 & H1).
      specialize (Hc q); rewrite E1 in Hc; simpl in Hc; subst c1.
      rewrite (bind_normal _ _ _ _ _ E1).
      destruct (rule102_effect current (q ++ a1)) as [Hyes' _].
      rewrite (bind_normal _ _ _ _ _ (Hyes' _ _ Hf)).
      destruct (rule103_shape current ((q ++ a1) ++ [queued cfg (alert102 current f d)]))
        as (c3 & a3 & E3 & H3).
      rewrite E3; simpl.
      rewrite !jobs_with_code_app, (H1 102%Z), (H3 102%Z) by discriminate.
      now rewrite !app_nil_r.
    + intro Hf.
      destruct (status_is current "success") eqn:Hs.
      * apply status_is_spec in Hs.
        rewrite run_success by assumption; fold P O.
        destruct (rule101_shape current P O q) as (c1 & a1 & E1 & H1).
        destruct c1 as [[]|e].
        -- rewrite (bind_normal _ _ _ _ _ E1).
           destruct (rule102_effect current (q ++ a1)) as [_ Hno'].
           destruct (Hno' Hf) as [c2 E2]; destruct c2 as [[]|e].
           ++ rewrite (bind_normal _ _ _ _ _ E2).
              destruct (rule103_shape current (q ++ a1)) as (c3 & a3 & E3 & H3).
              rewrite E3; simpl.
              rewrite !jobs_with_code_app, (H1 102%Z), (H3 102%Z) by discriminate.
              now rewrite !app_nil_r.
           ++ rewrite (bind_throw _ _ _ _ _ E2); simpl.
              rewrite !jobs_with_code_app, (H1 102%Z) by discriminate.
              now rewrite !app_nil_r.
        -- rewrite (bind_throw _ _ _ _ _ E1); simpl.
           rewrite !jobs_with_code_app, (H1 102%Z) by discriminate.
           now rewrite !app_nil_r.
      * assert (Hn : status current <> Some "success")
          by (intro H; apply status_is_spec in H; congruence).
        destruct (run_not_success rows clock current q Hn) as (c & a0 & E & H0 & _).
        rewrite E; simpl.
        rewrite jobs_with_code_app, (H0 102%Z) by discriminate.
        now rewrite app_nil_r.
  - intros ss best finalized Hs Hss Dss Hb Hf Heq.
    split; [assumption|]; exists ss, (JNum best); repeat split; trivial.
    rewrite Heq; apply Qle_refl.
Qed.

(** X22. Rule 103 adds a job with code 103 and severity low exactly when
    [current] is a success and [record.performance] is strictly above the
    configured SLA; at the SLA itself it adds none.  That holds of the rule
    on its own; of the whole evaluation, with alerting enabled, the job is
    added provided the evaluation gets as far as the rule, which is when
    rules 101 and 102 did not throw. *)
Theorem rule103_fires_iff (rows : list HealthCheck) (clock : Clock)
                          (current : HealthCheck) (q : Queue) :
  let P := findOne (where_previous current (now1 clock)) rows in
  let O := findOne (where_otherMember current (now2 clock) (now3 clock)) rows in
  let q' := snd (run StringToNumber ObjectToString round cfg rows clock current q) in
  (forall perf,
      fires103 StringToNumber ObjectToString cfg current perf ->
      rule103 StringToNumber ObjectToString cfg current q
      = (Normal tt, q ++ [(queueName (alertsEngine cfg),
                           alert103 current perf, job_options)])
      /\ code (alert103 current perf) = 103%Z
      /\ severity (alert103 current perf) = "low") /\
  ((forall perf, ~ fires103 StringToNumber ObjectToString cfg current perf) ->
   snd (rule103 StringToNumber ObjectToString cfg current q) = q) /\
  (enabled (alertsEngine cfg) = true ->
   (completes (rule101 ObjectToString cfg current P O) ->
    completes (rule102 StringToNumber ObjectToString round cfg current) ->
    forall perf,
      fires103 StringToNumber ObjectToString cfg current perf ->
      jobs_with_code 103 q' = jobs_with_code 103 q ++ [alert103 current perf]) /\
   ((forall perf, ~ fires103 StringToNumber ObjectToString cfg current perf) ->
    jobs_with_code 103 q' = jobs_with_code 103 q)) /\
  (forall ms,
      get (record current) "performance" = Normal (JNum ms) ->
      (ms == sla (performance cfg))%Q ->
      forall perf, ~ fires103 StringToNumber ObjectToString cfg current perf).
Proof.
  intros P O q'.
  destruct (rule103_effect current q) as [Hyes Hno].
  split; [intros p Hf; rewrite (Hyes _ Hf); repeat split|].
  split; [intro Hf; destruct (Hno Hf) as [c ->]; reflexivity|].
  split.
  - intro Hen; subst q'.
    split.
    + intros Hc1 Hc2 p Hf.
      pose proof Hf as (Hs & _).
      rewrite run_success by assumption; fold P O.
      destruct (rule101_shape current P O q) as (c1 & a1 & E1 & H1).
      destruct (rule102_shape current (q ++ a1)) as (c2 & a2 & E2 & H2).
      specialize (Hc1 q); rewrite E1 in Hc1; simpl in Hc1; subst c1.
      specialize (Hc2 (q ++ a1)); rewrite E2 in Hc2; simpl in Hc2; subst c2.
      rewrite (bind_normal _ _ _ _ _ E1), (bind_normal _ _ _ _ _ E2).
      destruct (rule103_effect current ((q ++ a1) ++ a2)) as [Hyes' _].
      rewrite (Hyes' _ Hf); simpl.
      rewrite !jobs_with_code_app, (H1 103%Z), (H2 103%Z) by discriminate.
      now rewrite !app_nil_r.
    + intro Hf.
      destruct (status_is current "success") eqn:Hs.
      * apply status_is_spec in Hs.
        rewrite run_success by assumption; fold P O.
        destruct (rule101_shape current P O q) as (c1 & a1 & E1 & H1).
        destruct (rule102_shape current (q ++ a1)) as (c2 & a2 & E2 & H2).
        destruct c1 as [[]|e].
        -- rewrite (bind_normal _ _ _ _ _ E1); destruct c2 as [[]|e].
           ++ rewrite (bind_normal _ _ _ _ _ E2).
              destruct (rule103_effect current ((q ++ a1) ++ a2)) as [_ Hno'].
              destruct (Hno' Hf) as [c3 ->]; simpl.
              rewrite !jobs_with_code_app, (H1 103%Z), (H2 103%Z) by discriminate.
              now rewrite !app_nil_r.
           ++ rewrite (bind_throw _ _ _ _ _ E2); simpl.
              rewrite !jobs_with_code_app, (H1 103%Z), (H2 103%Z) by discriminate.
              now rewrite !app_nil_r.
        -- rewrite (bind_throw _ _ _ _ _ E1); simpl.
           rewrite !jobs_with_code_app, (H1 103%Z) by discriminate.
           now rewrite !app_nil_r.
      * assert (Hn : status current <> Some "success")
          by (intro H; apply status_is_spec in H; congruence).
        destruct (run_not_success rows clock current q Hn) as (c & a0 & E & H0 & _).
        rewrite E; simpl.
        rewrite jobs_with_code_app, (H0 103%Z) by discriminate.
        now rewrite app_nil_r.
  - intros ms Hp Heq perf (_ & x & Hp' & Hn & Hlt).
    rewrite Hp in Hp'; injection Hp' as <-; simpl in Hn; injection Hn as <-.
    rewrite Heq in Hlt; now apply Qlt_irrefl in Hlt.
Qed.

(** A warning: no rule reads past its status. *)
Lemma run_warning (rows : list HealthCheck) (clock : Clock)
                  (current : HealthCheck) (q : Queue) :
  status current = Some "warning" ->
  run StringToNumber ObjectToString round cfg rows clock current q = (Normal tt, q).
Proof.
  intro Hs; unfold run.
  destruct (negb (enabled (alertsEngine cfg))); [reflexivity|].
  unfold rule100, rule101, rule102, rule103, status_is; rewrite Hs; simpl.
  unfold bind, ret.
  destruct (findOne _ rows) as [p|]; [|reflexivity].
  destruct (findOne _ rows) as [o|]; [|reflexivity].
  now rewrite andb_false_r.
Qed.

(** ** Further properties of the engine *)

Lemma rule100_error (current : HealthCheck) (q : Queue) :
  status current = Some "error" ->
  interpolate ObjectToString (prop (prop (record current) "error") "message")
  = Normal tt ->
  rule100 ObjectToString cfg current q
  = (Normal tt, q ++ [queued cfg (alert100 current (message100 current))]).
Proof.
  intros Hs Hi; unfold rule100; rewrite (proj2 (status_is_spec current _) Hs).
  unfold bind; rewrite error_message_effect, Hi; reflexivity.
Qed.

(** Where the message of the error is there and its conversion throws,
    rule 100 throws and adds nothing. *)
Lemma rule100_throws (current : HealthCheck) (q : Queue) (e : Error) :
  status current = Some "error" ->
  truthy (record current) = true ->
  truthy (prop (record current) "error") = true ->
  interpolate ObjectToString (prop (prop (record current) "error") "message")
  = Throw e ->
  rule100 ObjectToString cfg current q = (Throw e, q).
Proof.
  intros Hs Hr He Hi; unfold rule100; rewrite (proj2 (status_is_spec current _) Hs).
  unfold bind; rewrite error_message_effect, Hi, Hr, He; reflexivity.
Qed.

Ltac no_entry :=
  eexists; exists []; rewrite app_nil_r; split; [reflexivity | now left].

Ltac one_entry :=
  eexists; eexists; split;
  [reflexivity
  |right; split; [reflexivity|]; eexists; split; [reflexivity|];
   unfold entry_of; repeat eexists].

(** Each rule adds no entry or one, and adds none when it throws. *)
Lemma rule101_adds (current : HealthCheck) (P O : option HealthCheck) (q : Queue) :
  exists c added,
    rule101 ObjectToString cfg current P O q = (c, q ++ added) /\
    (added = [] \/
     c = Normal tt /\ exists e, added = [e] /\ entry_of cfg current 101 e).
Proof.
  unfold rule101.
  repeat match goal with
         | |- context [match ?x with Some _ => _ | None => _ end] => destruct x
         | |- context [if ?b then _ else _] => destruct b
         end;
    try no_entry.
  js_unfold; simpl.
  repeat (js_step; try no_entry).
  one_entry.
Qed.

Lemma rule102_adds (current : HealthCheck) (q : Queue) :
  exists c added,
    rule102 StringToNumber ObjectToString round cfg current q = (c, q ++ added) /\
    (added = [] \/
     c = Normal tt /\ exists e, added = [e] /\ entry_of cfg current 102 e).
Proof.
  unfold rule102.
  destruct (status_is current "success"); [|no_entry].
  js_unfold; simpl.
  repeat (js_step; try no_entry).
  one_entry.
Qed.

Lemma rule103_adds (current : HealthCheck) (q : Queue) :
  exists c added,
    rule103 StringToNumber ObjectToString cfg current q = (c, q ++ added) /\
    (added = [] \/
     c = Normal tt /\ exists e, added = [e] /\ entry_of cfg current 103 e).
Proof.
  unfold rule103.
  destruct (status_is current "success"); [|no_entry].
  js_unfold; simpl.
  destruct (get (record current) "performance") as [p|e]; simpl; [|no_entry].
  destruct (gt_num StringToNumber ObjectToString p (sla (performance cfg)))
    as [[|]|e]; simpl; try no_entry.
  destruct (interpolate ObjectToString p); simpl; [one_entry | no_entry].
Qed.

Lemma rules_101_103_add (current : HealthCheck) (P O : option HealthCheck)
                        (q : Queue) :
  exists c a1 a2 a3,
    bind (rule101 ObjectToString cfg current P O)
      (fun _ => bind (rule102 StringToNumber ObjectToString round cfg current)
      (fun _ => rule103 StringToNumber ObjectToString cfg current)) q
    = (c, q ++ a1 ++ a2 ++ a3) /\
    at_most_one cfg current 101 a1 /\
    at_most_one cfg current 102 a2 /\
    at_most_one cfg current 103 a3.
Proof.
  destruct (rule101_adds current P O q) as (c1 & a1 & E1 & H1).
  assert (A1 : at_most_one cfg current 101 a1)
    by (destruct H1 as [->|(_ & e & -> & He)]; [now left | right; eauto]).
  destruct c1 as [[]|e1].
  - rewrite (bind_normal _ _ _ _ _ E1).
    destruct (rule102_adds current (q ++ a1)) as (c2 & a2 & E2 & H2).
    assert (A2 : at_most_one cfg current 102 a2)
      by (destruct H2 as [->|(_ & e & -> & He)]; [now left | right; eauto]).
    destruct c2 as [[]|e2].
    + rewrite (bind_normal _ _ _ _ _ E2).
      destruct (rule103_adds current ((q ++ a1) ++ a2)) as (c3 & a3 & E3 & H3).
      assert (A3 : at_most_one cfg current 103 a3)
        by (destruct H3 as [->|(_ & e & -> & He)]; [now left | right; eauto]).
      exists c3, a1, a2, a3; rewrite E3, <- !app_assoc; auto.
    + rewrite (bind_throw _ _ _ _ _ E2).
      exists (Throw e2), a1, a2, []; rewrite app_nil_r, <- app_assoc.
      repeat split; trivial; now left.
  - rewrite (bind_throw _ _ _ _ _ E1).
    exists (Throw e1), a1, [], []; rewrite !app_nil_r.
    repeat split; trivial; now left.
Qed.

(** X1. One evaluation only appends to the queue, at most three entries,
    each one a call for [current] under the configured queue name and with
    the options of the engine, in the order of their codes and no code
    twice; with alerting disabled it appends nothing. *)
Theorem run_only_appends (rows : list HealthCheck) (clock : Clock)
                         (current : HealthCheck) (q : Queue) :
  exists added,
    snd (run StringToNumber ObjectToString round cfg rows clock current q) = q ++ added /\
    (List.length added <= 3)%nat /\
    Forall (fun e => exists k, (100 <= k <= 103)%Z /\ entry_of cfg current k e)
           added /\
    StronglySorted Z.lt (codes added) /\
    (enabled (alertsEngine cfg) = false -> added = []).
Proof.
  destruct (enabled (alertsEngine cfg)) eqn:Hen.
  2: { exists []; unfold run; rewrite Hen; simpl; rewrite app_nil_r.
       repeat split; auto; constructor. }
  destruct (status_is current "success") eqn:Hs.
  - apply status_is_spec in Hs.
    rewrite run_success by assumption.
    set (P := findOne _ rows); set (O := findOne _ rows).
    destruct (rules_101_103_add current P O q) as (c & a1 & a2 & a3 & E & H1 & H2 & H3).
    rewrite E; exists (a1 ++ a2 ++ a3); split; [reflexivity|].
    destruct H1 as [->|(e1 & -> & s1 & m1 & v1 & ->)],
             H2 as [->|(e2 & -> & s2 & m2 & v2 & ->)],
             H3 as [->|(e3 & -> & s3 & m3 & v3 & ->)]; simpl;
      (split; [lia|]); (split; [|split; [|discriminate]]);
      repeat (constructor; try lia);
      eexists; (split; [|unfold entry_of; repeat eexists]); lia.
  - assert (Hn : status current <> Some "success")
      by (intro H; apply status_is_spec in H; congruence).
    destruct (run_not_success rows clock current q Hn) as (c & a0 & E & _ & Ha).
    rewrite E; exists a0; split; [reflexivity|].
    destruct Ha as [->|(_ & ->)]; simpl.
    + split; [lia|]; split; [constructor|]; split; [constructor | discriminate].
    + split; [lia|]; split; [|split; [repeat constructor | discriminate]].
      constructor; [|constructor].
      exists 100%Z; split; [lia|]; unfold entry_of; repeat eexists.
Qed.

Lemma run_error_row (rows : list HealthCheck) (clock : Clock)
                     (current : HealthCheck) (q : Queue) :
  enabled (alertsEngine cfg) = true ->
  status current = Some "error" ->
  interpolate ObjectToString (prop (prop (record current) "error") "message")
  = Normal tt ->
  run StringToNumber ObjectToString round cfg rows clock current q
  = (Normal tt, q ++ [queued cfg (alert100 current (message100 current))]).
Proof.
  intros Hen Hs Hi; rewrite run_enabled by assumption.
  rewrite (bind_normal _ _ _ _ _ (rule100_error current q Hs Hi)).
  assert (Hn : status_is current "success" = false)
    by (apply (status_is_exclusive current "error"); [assumption | discriminate]).
  destruct (rules_need_success current
              (findOne (where_previous current (now1 clock)) rows)
              (findOne (where_otherMember current (now2 clock) (now3 clock)) rows)
              (q ++ [queued cfg (alert100 current (message100 current))]) Hn)
    as (E1 & E2 & E3).
  now rewrite (bind_normal _ _ _ _ _ E1), (bind_normal _ _ _ _ _ E2), E3.
Qed.

(** Without the condition of rule 103 an evaluation adds no job with its
    code, whether it runs to its end or not. *)
Lemma run_adds_no_103 (rows : list HealthCheck) (clock : Clock)
                      (current : HealthCheck) (q : Queue) :
  (forall perf, ~ fires103 StringToNumber ObjectToString cfg current perf) ->
  jobs_with_code 103
    (snd (run StringToNumber ObjectToString round cfg rows clock current q))
  = jobs_with_code 103 q.
Proof.
  intro Hf.
  destruct (enabled (alertsEngine cfg)) eqn:Hen;
    [|unfold run; rewrite Hen; reflexivity].
  destruct (status_is current "success") eqn:Hs.
  - apply status_is_spec in Hs.
    rewrite run_success by assumption.
    destruct (rule101_shape current
                (findOne (where_previous current (now1 clock)) rows)
                (findOne (where_otherMember current (now2 clock) (now3 clock)) rows)
                q) as (c1 & a1 & E1 & H1).
    destruct c1 as [[]|e].
    + rewrite (bind_normal _ _ _ _ _ E1).
      destruct (rule102_shape current (q ++ a1)) as (c2 & a2 & E2 & H2).
      destruct c2 as [[]|e].
      * rewrite (bind_normal _ _ _ _ _ E2).
        destruct (rule103_effect current ((q ++ a1) ++ a2)) as [_ Hno].
        destruct (Hno Hf) as [c3 ->]; simpl.
        rewrite !jobs_with_code_app, (H1 103%Z), (H2 103%Z) by discriminate.
        now rewrite !app_nil_r.
      * rewrite (bind_throw _ _ _ _ _ E2); simpl.
        rewrite !jobs_with_code_app, (H1 103%Z), (H2 103%Z) by discriminate.
        now rewrite !app_nil_r.
    + rewrite (bind_throw _ _ _ _ _ E1); simpl.
      rewrite !jobs_with_code_app, (H1 103%Z) by discriminate.
      now rewrite !app_nil_r.
  - assert (Hn : status current <> Some "success")
      by (intro H; apply status_is_spec in H; congruence).
    destruct (run_not_success rows clock current q Hn) as (c & a0 & E & H0 & _).
    rewrite E; simpl.
    rewrite jobs_with_code_app, (H0 103%Z) by discriminate.
    now rewrite app_nil_r.
Qed.

(** X2. Rule 100 decides on the status alone.  On a row whose status is
    "error" the whole evaluation adds one entry, the job of rule 100 with
    the message of the error in the record or, without one, the fallback
    text, and returns normally, provided the message is converted to a
    string without an error; where the message is there and its conversion
    throws, the evaluation throws that error and adds nothing.  On any
    other row it adds no job with code 100. *)
Theorem rule100_fires_on_error (rows : list HealthCheck) (clock : Clock)
                               (current : HealthCheck) (q : Queue) :
  enabled (alertsEngine cfg) = true ->
  let text := interpolate ObjectToString
                (prop (prop (record current) "error") "message") in
  (status current = Some "error" ->
   text = Normal tt ->
   run StringToNumber ObjectToString round cfg rows clock current q
   = (Normal tt, q ++ [(queueName (alertsEngine cfg),
                        alert100 current (message100 current), job_options)])) /\
  (status current = Some "error" ->
   forall e,
     truthy (record current) = true ->
     truthy (prop (record current) "error") = true ->
     text = Throw e ->
     run StringToNumber ObjectToString round cfg rows clock current q
     = (Throw e, q)) /\
  (status current <> Some "error" ->
   jobs_with_code 100
     (snd (run StringToNumber ObjectToString round cfg rows clock current q))
   = jobs_with_code 100 q).
Proof.
  intros Hen text; subst text.
  split; [intros Hs Hi; now apply run_error_row|].
  split.
  - intros Hs e Hr He Hi; rewrite run_enabled by assumption.
    now rewrite (bind_throw _ _ _ _ _ (rule100_throws current q e Hs Hr He Hi)).
  - intro Hs; rewrite run_enabled by assumption.
    set (P := findOne _ rows); set (O := findOne _ rows).
    rewrite (bind_normal _ _ _ _ _ (rule100_not_error current q Hs)).
    destruct (rule101_shape current P O q) as (c1 & a1 & E1 & H1).
    destruct c1 as [[]|e1].
    + rewrite (bind_normal _ _ _ _ _ E1).
      destruct (rules_102_103_shape current (q ++ a1)) as (c & a2 & a3 & E & H2 & H3).
      rewrite E; simpl.
      rewrite !jobs_with_code_app, (H1 100%Z), (H2 100%Z), (H3 100%Z) by discriminate.
      now rewrite !app_nil_r.
    + rewrite (bind_throw _ _ _ _ _ E1); simpl.
      rewrite jobs_with_code_app, (H1 100%Z) by discriminate.
      now rewrite app_nil_r.
Qed.

(** X3. When the record of [current] and of the rows the two queries
    return is there and holds no [null] for [syncState], and the values of
    [current] that are converted to a string or a number are no arrays and
    no objects, the evaluation returns normally. *)
Theorem run_completes_on_readable_rows (rows : list HealthCheck) (clock : Clock)
                                       (current : HealthCheck) (q : Queue) :
  readable current -> plain current ->
  readable_if_found (findOne (where_previous current (now1 clock)) rows) ->
  readable_if_found (findOne (where_otherMember current (now2 clock) (now3 clock)) rows) ->
  fst (run StringToNumber ObjectToString round cfg rows clock current q) = Normal tt.
Proof.
  intros Hc Hv HP HO.
  destruct (enabled (alertsEngine cfg)) eqn:Hen;
    [|unfold run; rewrite Hen; reflexivity].
  rewrite run_enabled by assumption.
  assert (E0 : exists a0, rule100 ObjectToString cfg current q = (Normal tt, q ++ a0)).
  { destruct (status_is current "error") eqn:Hs.
    - apply status_is_spec in Hs; eexists.
      apply rule100_error; [assumption|].
      apply interpolate_primitive, Hv.
    - exists []; rewrite app_nil_r; apply rule100_not_error.
      intro H; apply status_is_spec in H; congruence. }
  destruct E0 as [a0 E0].
  rewrite (bind_normal _ _ _ _ _ E0).
  pose proof (rule101_completes current _ _ Hc HP HO (q ++ a0)) as C1.
  destruct (rule101 _ cfg current _ _ (q ++ a0)) as [c1 q1] eqn:E1.
  simpl in C1; subst c1; rewrite (bind_normal _ _ _ _ _ E1).
  pose proof (rule102_completes current Hc Hv q1) as C2.
  destruct (rule102 _ _ _ cfg current q1) as [c2 q2] eqn:E2.
  simpl in C2; subst c2; rewrite (bind_normal _ _ _ _ _ E2).
  apply rule103_completes; assumption.
Qed.

(** X4. When rule 101 throws, on a row of history without a record or with
    a [null] for [syncState], the evaluation ends there with that error and
    the queue as it found it: rules 102 and 103 are not evaluated. *)
Theorem rule101_throw_ends_run (rows : list HealthCheck) (clock : Clock)
                               (current : HealthCheck) (q : Queue) (e : Error) :
  enabled (alertsEngine cfg) = true ->
  fst (rule101 ObjectToString cfg current
         (findOne (where_previous current (now1 clock)) rows)
         (findOne (where_otherMember current (now2 clock) (now3 clock)) rows) q)
  = Throw e ->
  run StringToNumber ObjectToString round cfg rows clock current q = (Throw e, q).
Proof.
  intros Hen Ht; rewrite run_enabled by assumption.
  remember (findOne (where_previous current (now1 clock)) rows) as P.
  remember (findOne (where_otherMember current (now2 clock) (now3 clock)) rows) as O.
  assert (Hs : status_is current "success" = true).
  { destruct (status_is current "success") eqn:Hs; trivial.
    destruct (rules_need_success current P O q Hs) as (E & _).
    rewrite E in Ht; discriminate. }
  assert (Hn : status current <> Some "error").
  { apply status_is_spec in Hs; rewrite Hs; discriminate. }
  rewrite (bind_normal _ _ _ _ _ (rule100_not_error current q Hn)).
  destruct (rule101_adds current P O q) as (c & added & E & H).
  rewrite E in Ht; simpl in Ht; subst c.
  destruct H as [->|(Hc & _)]; [|discriminate].
  rewrite app_nil_r in E; now rewrite (bind_throw _ _ _ _ _ E).
Qed.

(** X5. The rows the queries return are rows of history: the row of the
    other member is of another member, so it is neither [current] nor the
    row of the first query, and the row of the first query is older than
    60 seconds, so it is not [current] when that was created since. *)
Theorem queries_return_history (rows : list HealthCheck) (clock : Clock)
                               (current previous otherMember : HealthCheck) :
  findOne (where_previous current (now1 clock)) rows = Some previous ->
  findOne (where_otherMember current (now2 clock) (now3 clock)) rows
  = Some otherMember ->
  otherMember <> current /\ otherMember <> previous /\
  ((now1 clock - 60 * 1000 <= createdAt current)%Z -> previous <> current).
Proof.
  intros HP HO.
  apply findOne_Some in HP as (_ & Hp & _), HO as (_ & Ho & _).
  apply where_previous_spec in Hp as (Hm & _ & _ & Ht).
  apply where_otherMember_spec in Ho as (Hm' & _).
  repeat split.
  - intros ->; now apply Hm'.
  - intros ->; congruence.
  - intros Hc ->; lia.
Qed.

(** X6. A success whose record lacks [finalizedBlock], or whose
    [syncState] lacks [currentBlock], raises no alert of rule 102 when the
    one of the two that is there is no array and no object, and one whose
    record lacks [performance] none of rule 103: the comparison with the
    threshold is false, and nothing is thrown. *)
Theorem missing_numbers_raise_nothing (current : HealthCheck) (q : Queue)
                                      (ss best finalized : JsVal) :
  get (record current) "syncState" = Normal ss ->
  get ss "currentBlock" = Normal best ->
  get (record current) "finalizedBlock" = Normal finalized ->
  (best = JUndefined \/ finalized = JUndefined ->
   primitive best -> primitive finalized ->
   rule102 StringToNumber ObjectToString round cfg current q = (Normal tt, q)) /\
  (get (record current) "performance" = Normal JUndefined ->
   rule103 StringToNumber ObjectToString cfg current q = (Normal tt, q)).
Proof.
  intros Hss Hb Hf; split.
  - intros Hm Pb Pf; unfold rule102.
    destruct (status_is current "success"); [|reflexivity].
    js_unfold; rewrite Hss; simpl.
    destruct (strict_eq ss JUndefined); [reflexivity|]; simpl.
    rewrite Hss; simpl; rewrite Hb, Hf; simpl.
    assert (sub StringToNumber ObjectToString round best finalized = Normal NaN) as ->.
    { destruct (ToNumber_primitive _ Pb) as [nb Eb], (ToNumber_primitive _ Pf) as [nf Ef].
      unfold sub; rewrite Eb, Ef.
      destruct Hm as [-> | ->]; simpl in *.
      - injection Eb as <-; reflexivity.
      - injection Ef as <-; destruct nb; reflexivity. }
    reflexivity.
  - intro Hp; unfold rule103.
    destruct (status_is current "success"); [|reflexivity].
    js_unfold; rewrite Hp; reflexivity.
Qed.

(** X7. Rule 101 compares the blocks with [===], and two blocks that are
    both missing are equal: when the [syncState] of [previous] and of
    [current] have no [currentBlock] and that of [otherMember] has one,
    the rule raises its alert, with [undefined] for the block. *)
Theorem rule101_fires_on_missing_blocks (current previous otherMember : HealthCheck)
                                        (ps cs os ob : JsVal) (q : Queue) :
  status previous = Some "success" ->
  status current = Some "success" ->
  status otherMember = Some "success" ->
  get (record previous) "syncState" = Normal ps -> ps <> JUndefined ->
  get (record current) "syncState" = Normal cs -> cs <> JUndefined ->
  get (record otherMember) "syncState" = Normal os -> os <> JUndefined ->
  get ps "currentBlock" = Normal JUndefined ->
  get cs "currentBlock" = Normal JUndefined ->
  get os "currentBlock" = Normal ob -> ob <> JUndefined ->
  rule101 ObjectToString cfg current (Some previous) (Some otherMember) q
  = (Normal tt, q ++ [(queueName (alertsEngine cfg),
                       alert101 current previous JUndefined, job_options)]).
Proof.
  intros Hp Hc Ho Hps Dps Hcs Dcs Hos Dos Hpb Hcb Hob Dob.
  destruct (rule101_effect current (Some previous) (Some otherMember) q) as [Hyes _].
  apply Hyes.
  exists otherMember, ps, cs, os, JUndefined, ob; repeat split; trivial.
  now apply strict_eq_undefined.
Qed.

End AlertsEngineProofs.

(* ===================================================================== *)
(** * Proofs: the check worker *)
(* ===================================================================== *)

Section CheckServiceProofs.
Import Js Effects Config CheckService.
Variable World : Type.
Variable resolve : string -> World -> Completion string * World.
Variable isIP : string -> bool.
Variable matches : string -> string -> bool.

(** One turn of [retryFn]. *)
Lemma retryFn_turn (fn : CheckFn World) (job : Job) (n : nat) (interval : Z)
                   (p : Process World) :
  retryFn World fn job n interval p =
  match fn job (overrides p) (world p) with
  | (Fulfilled r, w) => (Normal r, after_call job n w p)
  | (Rejected e, w) =>
    match get e "name" with
    | Throw err => (Throw err, after_catch job n w e p)
    | Normal name_ =>
      if strict_eq name_ (JStr "RpcError") then
        (performCheckError e job, after_catch job n w e p)
      else
        match n with
        | S n' =>
          retryFn World fn job n' interval
            {| world := w; overrides := overrides p;
               trace := trace (after_catch job n w e p) ++ [SetTimeout interval] |}
        | O => (performCheckError e job, after_catch job n w e p)
        end
    end
  end.
Proof.
  destruct n; simpl; unfold try_await, bind, lift, call, emit, modify, ret; simpl;
    destruct (fn job (overrides p) (world p)) as [[r|e] w]; simpl; trivial;
    destruct (get e "name") as [name_|err]; simpl; trivial;
    destruct (strict_eq name_ (JStr "RpcError")); reflexivity.
Qed.

Lemma attempts_app (a b : list Event) : attempts (a ++ b) = (attempts a + attempts b)%nat.
Proof. unfold attempts; now rewrite filter_app, length_app. Qed.

Lemma delays_app (a b : list Event) : delays (a ++ b) = (delays a + delays b)%nat.
Proof. unfold delays; now rewrite filter_app, length_app. Qed.

Lemma edns_and_calls_app (a b : list Event) :
  edns_and_calls (a ++ b) = edns_and_calls a ++ edns_and_calls b.
Proof. unfold edns_and_calls; now rewrite filter_app. Qed.

(** ** What the worker catches *)

Lemma get_readable (e : JsVal) (k : string) (v : JsVal) :
  get e k = Normal v -> readable_error e.
Proof. destruct e; simpl; intro H; split; discriminate. Qed.

Lemma readable_error_name (e : JsVal) :
  readable_error e -> get e "name" = Normal (prop e "name").
Proof. intros [Hn Hu]; unfold prop; destruct e; simpl; trivial; congruence. Qed.

(** The error result of an error that can be read: status "error", no
    response time, and the name and the message of the error. *)
Lemma performCheckError_result (e : JsVal) (job : Job) :
  readable_error e ->
  exists r,
    performCheckError e job = Normal r /\
    get r "status" = Normal (JStr "error") /\
    exists record,
      get r "record" = Normal record /\
      get record "performance" = Normal (JNum (-1)) /\
      get record "error"
      = Normal (JObj [("name", prop e "name"); ("message", prop e "message")]).
Proof.
  intros [Hn Hu]; destruct e; try congruence;
    (eexists; split; [reflexivity|]; split; [reflexivity|];
     eexists; split; [reflexivity|]; split; reflexivity).
Qed.

Lemma nullish_name_throws (e : JsVal) :
  e = JNull \/ e = JUndefined ->
  exists err, get e "name" = Throw err /\ name err = "TypeError".
Proof. intros [-> | ->]; simpl; eexists; split; reflexivity. Qed.

(** With a check function that always fails with a retried error,
    [retryFn] calls it once more than [retriesLeft], waits between the
    calls, and returns the error result made from the last error. *)
Lemma retryFn_always_transient (fn : CheckFn World) (job : Job) (interval : Z) :
  always_transient fn ->
  forall (n : nat) (p : Process World),
  exists e w mid p',
    retryFn World fn job n interval p = (performCheckError e job, p') /\
    fn job (overrides p) w = (Rejected e, world p') /\
    transient e /\
    trace p' = trace p ++ mid /\
    attempts mid = S n /\ delays mid = n.
Proof.
  intros Hfn n; induction n as [|n IH]; intro p; rewrite retryFn_turn;
    destruct (Hfn job (overrides p) (world p)) as (e & w' & E & name_ & Hname & Hne);
    rewrite E, Hname, Hne.
  - exists e, (world p); eexists; eexists; split; [reflexivity|].
    split; [exact E|]; split; [now exists name_|]; simpl.
    split; [rewrite <- !app_assoc; reflexivity|]; split; reflexivity.
  - match goal with
    | |- context [retryFn _ _ _ _ _ ?p1] =>
        destruct (IH p1) as (e1 & w1 & mid & p' & R & F & N & T & A & D)
    end.
    exists e1, w1,
      ([JobLog [Lit "retryAttempt "; Subst (of_nat (S n))]; Call job;
        JobLogError e; ConsoleLogError e; SetTimeout interval] ++ mid), p'.
    split; [exact R|]; split; [exact F|]; split; [assumption|]; simpl in T.
    split; [rewrite T, <- !app_assoc; reflexivity|].
    rewrite attempts_app, delays_app, A, D; split; reflexivity.
Qed.

(** C2 (as the code has it). With a check function that throws a retried
    error at every attempt, [retryFn] with 3 retries left calls it 4 times,
    the first call and 3 retries, with 3 delays in between, and returns
    the error result of the last error: status "error",
    [record.performance = -1], [record.error] the serialized name and
    message. *)
Theorem retryFn_exhausts_retries (fn : CheckFn World) (job : Job) (interval : Z)
                                 (p : Process World) :
  always_transient fn ->
  exists e w mid p' r,
    retryFn World fn job 3 interval p = (Normal r, p') /\
    performCheckError e job = Normal r /\
    fn job (overrides p) w = (Rejected e, world p') /\
    trace p' = trace p ++ mid /\
    attempts mid = 4%nat /\ delays mid = 3%nat /\
    get r "status" = Normal (JStr "error") /\
    exists record,
      get r "record" = Normal record /\
      get record "performance" = Normal (JNum (-1)) /\
      get record "error"
      = Normal (JObj [("name", prop e "name"); ("message", prop e "message")]).
Proof.
  intro Hfn.
  destruct (retryFn_always_transient fn job interval Hfn 3 p)
    as (e & w & mid & p' & R & F & (name_ & Hname & _) & T & A & D).
  destruct (performCheckError_result e job (get_readable _ _ _ Hname))
    as (r & Er & Hr).
  exists e, w, mid, p', r; rewrite R, Er; auto 8.
Qed.

(** C6. When the check function throws an error named "RpcError",
    [retryFn] returns the error result of that error after this one call,
    without a delay, whatever [retriesLeft] is. *)
Theorem retryFn_RpcError_no_retry (fn : CheckFn World) (job : Job)
                                  (retriesLeft : nat) (interval : Z)
                                  (p : Process World) (e : JsVal) (w : World) :
  fn job (overrides p) (world p) = (Rejected e, w) ->
  is_RpcError e ->
  exists mid p' r,
    retryFn World fn job retriesLeft interval p = (Normal r, p') /\
    performCheckError e job = Normal r /\
    trace p' = trace p ++ mid /\
    attempts mid = 1%nat /\ delays mid = 0%nat /\
    get r "status" = Normal (JStr "error").
Proof.
  intros E Hname.
  destruct (performCheckError_result e job (get_readable _ _ _ Hname))
    as (r & Er & Hs & _).
  exists [JobLog [Lit "retryAttempt "; Subst (of_nat retriesLeft)]; Call job;
          JobLogError e; ConsoleLogError e],
         (after_catch job retriesLeft w e p), r.
  rewrite retryFn_turn, E, Hname, Er; simpl.
  split; [reflexivity|]; split; [reflexivity|]; split; [now rewrite <- !app_assoc|].
  repeat split; assumption.
Qed.

(** When the check function rejects with errors, [retryFn] returns a
    result, leaves the override table alone, and calls the function between
    once and [retriesLeft + 1] times, with a delay between two calls. *)
Lemma retryFn_returns (fn : CheckFn World) (job : Job) (interval : Z) :
  rejects_with_errors fn ->
  forall (n : nat) (p : Process World),
  exists r p' mid k,
    retryFn World fn job n interval p = (Normal r, p') /\
    result_of fn job r /\
    overrides p' = overrides p /\
    trace p' = trace p ++ mid /\
    edns_and_calls mid = repeat (Call job) k /\
    attempts mid = k /\ S (delays mid) = k /\
    (1 <= k <= S n)%nat.
Proof.
  intros Hfn n; induction n as [|n IH]; intro p; rewrite retryFn_turn;
    destruct (fn job (overrides p) (world p)) as [[r|e] w] eqn:E.
  - exists r, (after_call job 0 w p),
      [JobLog [Lit "retryAttempt "; Subst (of_nat 0)]; Call job], 1%nat.
    split; [reflexivity|]; split; [left; eauto|]; split; [reflexivity|]; simpl.
    split; [now rewrite <- !app_assoc|]; repeat split; lia.
  - pose proof (Hfn _ _ _ _ _ E) as He.
    destruct (performCheckError_result e job He) as (r & Er & _).
    rewrite (readable_error_name e He), Er.
    exists r, (after_catch job 0 w e p),
      [JobLog [Lit "retryAttempt "; Subst (of_nat 0)]; Call job;
       JobLogError e; ConsoleLogError e], 1%nat.
    split; [destruct (strict_eq _ _); reflexivity|].
    split; [right; eauto 6|]; split; [reflexivity|]; simpl.
    split; [now rewrite <- !app_assoc|]; repeat split; lia.
  - exists r, (after_call job (S n) w p),
      [JobLog [Lit "retryAttempt "; Subst (of_nat (S n))]; Call job], 1%nat.
    split; [reflexivity|]; split; [left; eauto|]; split; [reflexivity|]; simpl.
    split; [now rewrite <- !app_assoc|]; repeat split; lia.
  - pose proof (Hfn _ _ _ _ _ E) as He.
    destruct (performCheckError_result e job He) as (r & Er & _).
    rewrite (readable_error_name e He), Er.
    destruct (strict_eq _ _).
    + exists r, (after_catch job (S n) w e p),
        [JobLog [Lit "retryAttempt "; Subst (of_nat (S n))]; Call job;
         JobLogError e; ConsoleLogError e], 1%nat.
      split; [reflexivity|]; split; [right; eauto 6|]; split; [reflexivity|]; simpl.
      split; [now rewrite <- !app_assoc|]; repeat split; lia.
    + match goal with
      | |- context [retryFn _ _ _ _ _ ?p1] =>
          destruct (IH p1) as (r' & p' & mid & k & R & Ho & Ov & T & C & A & D & K)
      end.
      exists r', p',
        ([JobLog [Lit "retryAttempt "; Subst (of_nat (S n))]; Call job;
          JobLogError e; ConsoleLogError e; SetTimeout interval] ++ mid), (S k).
      split; [exact R|]; split; [exact Ho|]; split; [exact Ov|]; simpl in T.
      split; [rewrite T, <- !app_assoc; reflexivity|].
      rewrite edns_and_calls_app, attempts_app, delays_app, C, A.
      change (attempts [_; _; _; _; _]) with 1%nat.
      change (delays [_; _; _; _; _]) with 1%nat.
      repeat split; simpl; lia.
Qed.

Lemma find_override_last (d ip : string) (l : list (string * string)) :
  exists x, find (answers matches d) (l ++ [(d, ip)]) = Some x.
Proof.
  induction l as [|a l IH]; simpl.
  - unfold answers; simpl; rewrite String.eqb_refl; simpl; eauto.
  - destruct (answers matches d a); eauto.
Qed.

(** The entry of a job is among those its removal takes away. *)
Lemma without_own (d ip : string) (l : list (string * string)) :
  without d ip (l ++ [(d, ip)]) = without d ip l.
Proof.
  unfold without; rewrite filter_app; simpl.
  rewrite !String.eqb_refl, orb_true_r; simpl; apply app_nil_r.
Qed.

(** [setDNS] with an IP address, and with anything else. *)
Lemma setDNS_effect (d ip : string) (p : Process World) :
  isIP ip = true ->
  exists line,
    setDNS World resolve isIP matches d ip p
    = (Normal tt,
       {| world := world p; overrides := overrides p ++ [(d, ip)];
          trace := trace p ++ [EdnsAdd d ip; DnsLookup d; ConsoleLog line] |}).
Proof.
  intro Hip; unfold setDNS, bind, edns_add, lookupAsync, emit, modify; rewrite Hip; simpl.
  destruct (find_override_last d ip (overrides p)) as [[d' a] ->]; simpl.
  eexists; rewrite <- !app_assoc; reflexivity.
Qed.

Lemma setDNS_refused (d ip : string) (p : Process World) :
  isIP ip = false ->
  setDNS World resolve isIP matches d ip p
  = (Throw {| name := "Error"; message := "Invalid ip: " ++ ip |}, p).
Proof. intro Hip; unfold setDNS, bind, edns_add; rewrite Hip; reflexivity. Qed.

Lemma clearDNS_effect (d ip : string) (p : Process World) :
  exists c p' rest,
    clearDNS World resolve matches d ip p = (c, p') /\
    overrides p' = without d ip (overrides p) /\
    trace p' = trace p ++ [ConsoleLog [Lit "removing eDns for "; Lit d];
                           EdnsRemove d ip; DnsLookup d] ++ rest /\
    edns_and_calls rest = [] /\
    (forall e, c = Throw e -> rest = []).
Proof.
  unfold clearDNS, bind, edns_remove, lookupAsync, emit, modify; simpl.
  destruct (find _ _) as [[d' a]|]; simpl.
  - eexists; eexists; exists [ConsoleLog [Lit d; Lit " now resolves to "; Lit a;
                                             Lit (String (Ascii.ascii_of_nat 10) EmptyString)]].
    split; [reflexivity|]; simpl; split; [reflexivity|].
    split; [now rewrite <- !app_assoc|]; split; [reflexivity | discriminate].
  - destruct (resolve d (world p)) as [[a|e] w]; simpl.
    + eexists; eexists; exists [ConsoleLog [Lit d; Lit " now resolves to "; Lit a;
                                             Lit (String (Ascii.ascii_of_nat 10) EmptyString)]].
      split; [reflexivity|]; simpl; split; [reflexivity|].
      split; [now rewrite <- !app_assoc|]; split; [reflexivity | discriminate].
    + eexists; eexists; exists [].
      split; [reflexivity|]; simpl; split; [reflexivity|].
      split; [now rewrite <- !app_assoc|]; split; reflexivity.
Qed.

Lemma checkService_with_paired (fn : CheckFn World) (job : Job) (p : Process World) :
  isIP (serviceIpAddress (member (data job))) = true ->
  rejects_with_errors fn ->
  override_paired (checkService_with World resolve isIP matches fn job) job p.
Proof.
  intros Hip Hfn; unfold override_paired, checkService_with.
  set (d := getDomain (subdomain (data job))).
  set (ip := serviceIpAddress (member (data job))) in *.
  destruct (setDNS_effect d ip p Hip) as [line E1].
  rewrite (bind_normal _ _ _ _ _ E1).
  match type of E1 with _ = (_, ?p1) =>
    destruct (retryFn_returns fn job (1 * 1000) Hfn 3 p1)
      as (r & p2 & mid & k & R & _ & Ov & T & C & _ & _ & K)
  end.
  rewrite (bind_normal _ _ _ _ _ R).
  destruct (clearDNS_effect d ip p2) as (c & p3 & rest & E3 & Ov3 & T3 & C3 & Hthrow).
  simpl in Ov, T.
  assert (Hov : overrides p3 = without d ip (overrides p))
    by (rewrite Ov3, Ov; apply without_own).
  destruct c as [[]|e].
  - rewrite (bind_normal _ _ _ _ _ E3).
    unfold bind, emit, modify, ret; simpl.
    eexists; eexists;
      exists ([EdnsAdd d ip; DnsLookup d; ConsoleLog line] ++ mid
              ++ [ConsoleLog [Lit "removing eDns for "; Lit d];
                  EdnsRemove d ip; DnsLookup d] ++ rest
              ++ [ConsoleLog [Lit "[worker] checkService done...";
                              Lit (member_id (member (data job)));
                              Lit (service_id (service (data job)))];
                  JobLog [Lit "checkService done...";
                          Lit (member_id (member (data job)));
                          Lit (service_id (service (data job)))]]), k.
    split; [reflexivity|]; simpl.
    split; [rewrite T3, T, <- !app_assoc; reflexivity|].
    split; [|split; [lia | exact Hov]].
    change (EdnsAdd d ip :: DnsLookup d :: ConsoleLog line :: mid ++ ?l)
      with ([EdnsAdd d ip; DnsLookup d; ConsoleLog line] ++ mid ++ l).
    rewrite !edns_and_calls_app, C; simpl.
    rewrite !edns_and_calls_app, C3; reflexivity.
  - rewrite (bind_throw _ _ _ _ _ E3).
    rewrite (Hthrow e eq_refl) in T3.
    eexists; eexists;
      exists ([EdnsAdd d ip; DnsLookup d; ConsoleLog line] ++ mid
              ++ [ConsoleLog [Lit "removing eDns for "; Lit d];
                  EdnsRemove d ip; DnsLookup d]), k.
    split; [reflexivity|].
    split; [rewrite T3, T, <- !app_assoc; reflexivity|].
    split; [|split; [lia | exact Hov]].
    rewrite !edns_and_calls_app, C; reflexivity.
Qed.

Lemma performCheck_rejects_with_errors
    (round : Q -> Q) (cfg : Cfg)
    (gather : Job -> list (string * string) -> World -> Settled Facts * World) :
  rejects_with_errors gather ->
  rejects_with_errors (performCheck World round cfg gather).
Proof.
  intros Hg job dns w e w'; unfold performCheck.
  destruct (gather job dns w) as [[facts|e'] w''] eqn:E; intro H; [discriminate|].
  injection H as <- <-; exact (Hg _ _ _ _ _ E).
Qed.

(** C7 (as the code has it). In a run of [checkService] for a member whose
    address is an IP address, with attempts that reject with errors, the
    override of the job's subdomain is added once, before the first
    attempt, and removed once, after the last: once for the run, not once
    for each attempt, and also when every attempt throws.  The same holds
    with any check function in the place of [performCheck]. *)
Theorem checkService_override_once (job : Job) (p : Process World) :
  isIP (serviceIpAddress (member (data job))) = true ->
  (forall (round : Q -> Q) (cfg : Cfg)
          (gather : Job -> list (string * string) -> World -> Settled Facts * World),
      rejects_with_errors gather ->
      override_paired (checkService World resolve isIP matches round cfg gather job) job p) /\
  (forall fn : CheckFn World,
      rejects_with_errors fn ->
      override_paired (checkService_with World resolve isIP matches fn job) job p).
Proof.
  intro Hip; split.
  - intros round cfg gather Hg; apply checkService_with_paired; trivial.
    now apply performCheck_rejects_with_errors.
  - intros fn Hfn; now apply checkService_with_paired.
Qed.

(** ** Further properties of the worker *)

Lemma transient_not_RpcError (e : JsVal) (name_ : JsVal) :
  transient e -> get e "name" = Normal name_ ->
  strict_eq name_ (JStr "RpcError") = false.
Proof. intros (n & Hn & Hne) H; rewrite Hn in H; now injection H as <-. Qed.

Lemma retryFn_ends (fn : CheckFn World) (job : Job) (interval : Z)
                   (dns : list (string * string)) (w w' : World) (k : nat) (r : JsVal) :
  ends_after fn job dns w k r w' ->
  forall (n : nat) (p : Process World),
    overrides p = dns -> world p = w -> (k <= n)%nat ->
    exists mid p',
      retryFn World fn job n interval p = (Normal r, p') /\
      world p' = w' /\
      trace p' = trace p ++ mid /\
      attempts mid = S k /\ delays mid = k.
Proof.
  induction 1 as [w w' r E | w w' e r E Hname Hr | w w1 w' e k r E Hname _ IH];
    intros n p Hd Hw Hk; subst dns w; rewrite retryFn_turn, E.
  - exists [JobLog [Lit "retryAttempt "; Subst (of_nat n)]; Call job],
           (after_call job n w' p).
    split; [reflexivity|]; split; [reflexivity|]; simpl.
    split; [now rewrite <- !app_assoc|]; split; reflexivity.
  - rewrite Hname, Hr; simpl.
    exists [JobLog [Lit "retryAttempt "; Subst (of_nat n)]; Call job;
            JobLogError e; ConsoleLogError e],
           (after_catch job n w' e p).
    split; [reflexivity|]; split; [reflexivity|]; simpl.
    split; [now rewrite <- !app_assoc|]; split; reflexivity.
  - destruct Hname as (name_ & -> & ->).
    destruct n as [|n]; [lia|].
    match goal with
    | |- context [retryFn _ _ _ _ _ ?p1] =>
        destruct (IH n p1 eq_refl eq_refl ltac:(lia)) as (mid & p' & R & W & T & A & D)
    end.
    exists ([JobLog [Lit "retryAttempt "; Subst (of_nat (S n))]; Call job;
             JobLogError e; ConsoleLogError e; SetTimeout interval] ++ mid), p'.
    split; [exact R|]; split; [exact W|]; simpl in T.
    split; [rewrite T, <- !app_assoc; reflexivity|].
    rewrite attempts_app, delays_app, A, D; split; reflexivity.
Qed.

(** X11. When the check function fails [k] times with retried errors and
    then returns a result, or throws an error named "RpcError", and [k] is
    at most [retriesLeft], [retryFn] returns that result, or the error
    result of that error, after [k + 1] calls and [k] delays. *)
Theorem retryFn_returns_first_end (fn : CheckFn World) (job : Job)
                                  (retriesLeft : nat) (interval : Z)
                                  (p : Process World) (k : nat) (r : JsVal)
                                  (w' : World) :
  ends_after fn job (overrides p) (world p) k r w' ->
  (k <= retriesLeft)%nat ->
  exists mid p',
    retryFn World fn job retriesLeft interval p = (Normal r, p') /\
    world p' = w' /\
    trace p' = trace p ++ mid /\
    attempts mid = S k /\ delays mid = k.
Proof.
  intros H Hk; now apply (retryFn_ends fn job interval _ _ _ _ _ H).
Qed.

(** X12. With a check function that rejects with errors, [retryFn] does
    not throw: it returns a result of the check function or the error
    result of an error the function threw, after at least one call and at
    most [retriesLeft + 1], with one delay fewer than calls.  When a call
    rejects with [null] or [undefined], the [catch] block itself throws,
    a TypeError, after that call. *)
Theorem retryFn_returns_on_errors (fn : CheckFn World) (job : Job)
                                  (retriesLeft : nat) (interval : Z)
                                  (p : Process World) :
  (rejects_with_errors fn ->
   exists r p' mid,
     retryFn World fn job retriesLeft interval p = (Normal r, p') /\
     result_of fn job r /\
     trace p' = trace p ++ mid /\
     (1 <= attempts mid <= S retriesLeft)%nat /\
     S (delays mid) = attempts mid) /\
  (forall e w,
      fn job (overrides p) (world p) = (Rejected e, w) ->
      e = JNull \/ e = JUndefined ->
      exists err,
        retryFn World fn job retriesLeft interval p
        = (Throw err, after_catch job retriesLeft w e p) /\
        name err = "TypeError").
Proof.
  split.
  - intro Hfn.
    destruct (retryFn_returns fn job interval Hfn retriesLeft p)
      as (r & p' & mid & k & R & Ho & _ & T & _ & A & D & K).
    exists r, p', mid; rewrite A, D; auto.
  - intros e w E He.
    destruct (nullish_name_throws e He) as (err & Hg & Hn).
    exists err; rewrite retryFn_turn, E, Hg; auto.
Qed.

Lemma find_after_remove (d ip : string) (l : list (string * string)) :
  (forall x, In x l -> answers matches d x = false) ->
  find (answers matches d) (without d ip (l ++ [(d, ip)])) = None.
Proof.
  intro H; rewrite without_own; unfold without.
  induction l as [|x l IH]; [reflexivity|]; simpl.
  assert (Hx : answers matches d x = false) by (apply H; now left).
  destruct (negb _); simpl; rewrite ?Hx; apply IH; intros y Hy; apply H; now right.
Qed.

(** X13. For a member whose address is an IP address and a check function
    that rejects with errors, [checkService] ends with the lookup that
    follows the removal of the override.  When no override of the table
    it found answers for the domain and the resolver of the system fails
    on it,
    [checkService] throws that error, though the attempts had returned a
    result; when the resolver answers, [checkService] returns the result
    of the attempts. *)
Theorem checkService_ends_with_lookup (fn : CheckFn World) (job : Job)
                                      (p : Process World) :
  let d := getDomain (subdomain (data job)) in
  isIP (serviceIpAddress (member (data job))) = true ->
  rejects_with_errors fn ->
  ((forall x, In x (overrides p) -> answers matches d x = false) ->
   forall e, (forall w, exists w', resolve d w = (Throw e, w')) ->
   fst (checkService_with World resolve isIP matches fn job p) = Throw e) /\
  ((forall w, exists a w', resolve d w = (Normal a, w')) ->
   exists r,
     fst (checkService_with World resolve isIP matches fn job p) = Normal r /\
     result_of fn job r).
Proof.
  intros d Hip Hfn; unfold checkService_with; fold d.
  set (ip := serviceIpAddress (member (data job))) in *.
  destruct (setDNS_effect d ip p Hip) as [line E1].
  rewrite (bind_normal _ _ _ _ _ E1).
  match type of E1 with _ = (_, ?p1) =>
    destruct (retryFn_returns fn job (1 * 1000) Hfn 3 p1)
      as (r & p2 & mid & k & R & Ho & Ov & T & _)
  end.
  rewrite (bind_normal _ _ _ _ _ R).
  simpl in Ov.
  split.
  - intros Hfree e He.
    unfold clearDNS, bind, edns_remove, lookupAsync, emit, modify; simpl.
    rewrite Ov, (find_after_remove d ip _ Hfree).
    destruct (He (world p2)) as [w' ->]; reflexivity.
  - intro Hr; exists r; split; [|exact Ho].
    unfold clearDNS, bind, edns_remove, lookupAsync, emit, modify, ret; simpl.
    destruct (find _ _) as [[d' a]|]; [reflexivity|].
    destruct (Hr (world p2)) as (a & w' & ->); reflexivity.
Qed.

(** X14. A run of [checkService] that did not find the override of its
    job in the table leaves the table as it found it, when the check
    function rejects with errors.  When the first attempt rejects with
    [null], the run ends in the [catch] block and the override stays in
    the table. *)
Theorem checkService_restores_overrides (fn : CheckFn World) (job : Job)
                                        (p : Process World) :
  let d := getDomain (subdomain (data job)) in
  let ip := serviceIpAddress (member (data job)) in
  ip <> EmptyString ->
  ~ In (d, ip) (overrides p) ->
  (rejects_with_errors fn ->
   overrides (snd (checkService_with World resolve isIP matches fn job p))
   = overrides p) /\
  (isIP ip = true ->
   forall w, fn job (overrides p ++ [(d, ip)]) (world p) = (Rejected JNull, w) ->
   overrides (snd (checkService_with World resolve isIP matches fn job p))
   = overrides p ++ [(d, ip)]).
Proof.
  intros d ip Hip0 Hnew; split.
  - intro Hfn.
    destruct (isIP ip) eqn:Hip.
    + destruct (checkService_with_paired fn job p Hip Hfn)
        as (c & p' & added & k & E & _ & _ & _ & Ov).
      rewrite E; simpl; rewrite Ov.
      apply forallb_filter_id, forallb_forall.
      intros [d' ip'] Hin; simpl.
      apply String.eqb_neq in Hip0; fold ip; rewrite Hip0; simpl.
      destruct (String.eqb_spec d' (getDomain (subdomain (data job))));
        destruct (String.eqb_spec ip' ip);
        subst; trivial; contradiction.
    + unfold checkService_with; fold d ip.
      now rewrite (bind_throw _ _ _ _ _ (setDNS_refused d ip p Hip)).
  - intros Hip w E.
    unfold checkService_with; fold d ip.
    destruct (setDNS_effect d ip p Hip) as [line E1].
    rewrite (bind_normal _ _ _ _ _ E1).
    match type of E1 with _ = (_, ?p1) =>
      assert (R : exists err, retryFn World fn job 3 (1 * 1000) p1
                              = (Throw err, after_catch job 3 w JNull p1))
    end.
    { rewrite retryFn_turn; simpl; rewrite E; simpl; eauto. }
    destruct R as [err R].
    now rewrite (bind_throw _ _ _ _ _ R).
Qed.

End CheckServiceProofs.

(* ===================================================================== *)
(** * Proofs: the gossip dispatcher *)
(* ===================================================================== *)

Section MessageHandlerProofs.
Import Js Effects MessageHandler.
Variable StringToNumber : string -> number.
Variable ObjectToString : JsVal -> Completion string.

(** The loop over an array of descriptors, from any index on. *)
Lemma for_each_announce (sender : string) (rest done : list JsVal) (n : Node) :
  Forall is_object rest ->
  for_each (seq (List.length done) (List.length rest))
           (announce sender (JArr (done ++ rest))) n
  = (Normal tt,
     {| db := db n ++ flat_map (service_upserts sender) rest;
        console := console n ++ map (fun d => [Subst d]) rest |}).
Proof.
  intro H; revert done n; induction H as [|d rest [fields ->] _ IH]; intros done n.
  - simpl; unfold ret; destruct n; simpl; now rewrite !app_nil_r.
  - simpl for_each.
    assert (E : announce sender (JArr (done ++ JObj fields :: rest)) (List.length done) n
                = (Normal tt,
                   {| db := db n ++ service_upserts sender (JObj fields);
                      console := console n ++ [[Subst (JObj fields)]] |})).
    { unfold announce, bind, lift, console_log, datastore, modify; simpl.
      rewrite nth_middle; simpl; now rewrite <- !app_assoc. }
    rewrite (bind_normal _ _ _ _ _ E).
    replace (done ++ JObj fields :: rest) with ((done ++ [JObj fields]) ++ rest)
      by now rewrite <- app_assoc.
    replace (S (List.length done)) with (List.length (done ++ [JObj fields]))
      by (rewrite length_app; simpl; lia).
    rewrite IH; simpl; now rewrite <- !app_assoc.
Qed.

(** C8. A message on /ibp/services whose payload is an array of service
    descriptors makes the handler upsert the Monitor of the sender with
    that array as its services, and then, for each descriptor in order, a
    Service with the descriptor and a Peer that links the sender to the
    serviceUrl of the descriptor. *)
Theorem services_announcement (evt : Message) (descriptors : list JsVal) (n : Node) :
  topic evt = "/ibp/services" ->
  json (data evt) = Some (JArr descriptors) ->
  Forall is_object descriptors ->
  exists n',
    handleMessage StringToNumber ObjectToString evt n = (Normal tt, n') /\
    db n' = db n
            ++ Upsert Monitor (JObj [("monitorId", JStr (from evt));
                                     ("services", JArr descriptors)])
            :: flat_map (service_upserts (from evt)) descriptors.
Proof.
  intros Ht Hj Hd; unfold handleMessage, JSON_parse; rewrite Ht, Hj; simpl.
  unfold bind, lift, console_log, datastore, modify; simpl.
  rewrite Qceiling_Z, Nat2Z.id.
  rewrite (for_each_announce (from evt) descriptors [] _ Hd); simpl.
  eexists; split; [reflexivity|]; simpl; now rewrite <- app_assoc.
Qed.

(** C10 (as the code has it). A message on /ibp/healthCheck whose payload
    parses to a value other than null makes the handler create one
    HealthCheck row, with source "gossip", the sender as monitorId, the
    serviceUrl of the payload (undefined when it has none), the level of
    the payload when that is truthy and "info" otherwise, and the payload
    itself as record; nothing is checked against a schema. *)
Theorem healthCheck_gossip_row (evt : Message) (record : JsVal) (n : Node) :
  topic evt = "/ibp/healthCheck" ->
  json (data evt) = Some record ->
  record <> JNull -> record <> JUndefined ->
  exists n',
    handleMessage StringToNumber ObjectToString evt n = (Normal tt, n') /\
    db n' = db n ++ [Create HealthCheck (gossip_row (from evt) record)] /\
    created HealthCheck (db n')
    = created HealthCheck (db n) ++ [gossip_row (from evt) record].
Proof.
  intros Ht Hj Hnull Hundef; unfold handleMessage, JSON_parse; rewrite Ht, Hj; simpl.
  unfold bind, lift, console_log, datastore, modify, gossip_row, prop, or_else.
  assert (exists x, get record "serviceUrl" = Normal x) as [u ->]
    by (destruct record; simpl; eauto; congruence).
  assert (exists x, get record "level" = Normal x) as [l ->]
    by (destruct record; simpl; eauto; congruence).
  simpl; eexists; split; [reflexivity|]; simpl; split; [reflexivity|].
  unfold created; now rewrite flat_map_app.
Qed.

(** What the handler does with a payload that parses to a value other
    than [null]. *)
Lemma healthCheck_created (evt : Message) (record : JsVal) (n : Node) :
  topic evt = "/ibp/healthCheck" ->
  json (data evt) = Some record ->
  record <> JNull -> record <> JUndefined ->
  handleMessage StringToNumber ObjectToString evt n
  = (Normal tt,
     {| db := db n ++ [Create HealthCheck (gossip_row (from evt) record)];
        console := console n ++ [[Lit "/ibp/healthCheck from"; Lit (from evt);
                                  Lit "for"; Subst (prop record "serviceUrl")]] |}).
Proof.
  intros Ht Hj Hnull Hundef; unfold handleMessage, JSON_parse; rewrite Ht, Hj; simpl.
  unfold bind, lift, console_log, datastore, modify, gossip_row, prop, or_else.
  assert (exists x, get record "serviceUrl" = Normal x) as [u ->]
    by (destruct record; simpl; eauto; congruence).
  assert (exists x, get record "level" = Normal x) as [l ->]
    by (destruct record; simpl; eauto; congruence).
  reflexivity.
Qed.

(** C3 (as the code has it). A message on /ibp/healthCheck whose payload
    is not JSON makes the handler call the datastore not at all: no
    HealthCheck row is created.  A payload that is JSON, and not [null],
    is checked against nothing: the handler returns normally and has
    created the HealthCheck row whose record is the payload. *)
Theorem healthCheck_not_json_no_row (evt : Message) (n : Node) :
  topic evt = "/ibp/healthCheck" ->
  (json (data evt) = None ->
   db (snd (handleMessage StringToNumber ObjectToString evt n)) = db n /\
   created HealthCheck (db (snd (handleMessage StringToNumber ObjectToString evt n)))
   = created HealthCheck (db n)) /\
  (forall record,
      json (data evt) = Some record ->
      record <> JNull -> record <> JUndefined ->
      fst (handleMessage StringToNumber ObjectToString evt n) = Normal tt /\
      db (snd (handleMessage StringToNumber ObjectToString evt n))
      = db n ++ [Create HealthCheck (gossip_row (from evt) record)] /\
      created HealthCheck (db (snd (handleMessage StringToNumber ObjectToString evt n)))
      = created HealthCheck (db n) ++ [gossip_row (from evt) record]).
Proof.
  intro Ht; split.
  - intro Hj; unfold handleMessage, JSON_parse; rewrite Ht, Hj; simpl.
    split; reflexivity.
  - intros record Hj Hnull Hundef.
    rewrite (healthCheck_created evt record n Ht Hj Hnull Hundef); simpl.
    split; [reflexivity|]; split; [reflexivity|].
    unfold created; now rewrite flat_map_app.
Qed.

(** ** Further properties of the dispatcher *)

Lemma node_eta (n : Node) :
  n = {| db := db n ++ []; console := console n ++ [] |}.
Proof. destruct n; simpl; now rewrite !app_nil_r. Qed.

Lemma for_each_app (A : Type) (a b : list A) (body : A -> M Node unit) (n : Node) :
  for_each (a ++ b) body n = bind (for_each a body) (fun _ => for_each b body) n.
Proof.
  revert n; induction a as [|x a IH]; intro n; simpl.
  - reflexivity.
  - unfold bind; destruct (body x n) as [[[]|e] n']; [|reflexivity].
    rewrite IH; reflexivity.
Qed.

(** The loop over the first descriptors of an array, all of them objects. *)
Lemma for_each_announce_prefix (sender : string) (good done rest : list JsVal)
                               (n : Node) :
  Forall is_object good ->
  for_each (seq (List.length done) (List.length good))
           (announce sender (JArr (done ++ good ++ rest))) n
  = (Normal tt,
     {| db := db n ++ flat_map (service_upserts sender) good;
        console := console n ++ map (fun d => [Subst d]) good |}).
Proof.
  intro H; revert done n; induction H as [|d good [fields ->] _ IH]; intros done n.
  - simpl; unfold ret; now rewrite <- node_eta.
  - simpl for_each.
    assert (E : announce sender (JArr (done ++ (JObj fields :: good) ++ rest))
                         (List.length done) n
                = (Normal tt,
                   {| db := db n ++ service_upserts sender (JObj fields);
                      console := console n ++ [[Subst (JObj fields)]] |})).
    { unfold announce, bind, lift, console_log, datastore, modify; simpl.
      rewrite nth_middle; simpl; now rewrite <- !app_assoc. }
    rewrite (bind_normal _ _ _ _ _ E).
    replace (done ++ JObj fields :: good ++ rest)
      with ((done ++ [JObj fields]) ++ good ++ rest)
      by (rewrite <- app_assoc; reflexivity).
    replace (S (List.length done)) with (List.length (done ++ [JObj fields]))
      by (rewrite length_app; simpl; lia).
    rewrite IH; simpl; now rewrite <- !app_assoc.
Qed.

(** X15. Text that is not JSON, on either of the two topics the handler
    decodes, makes it throw the SyntaxError of [JSON.parse] to its caller,
    with the datastore and the console as they were. *)
Theorem handleMessage_not_json_throws (evt : Message) (n : Node) :
  topic evt = "/ibp/services" \/ topic evt = "/ibp/healthCheck" ->
  json (data evt) = None ->
  handleMessage StringToNumber ObjectToString evt n
  = (Throw (SyntaxError "Unexpected token in JSON"), n).
Proof.
  intros [Ht|Ht] Hj; unfold handleMessage, JSON_parse; rewrite Ht, Hj; reflexivity.
Qed.

(** X16. An announcement with nothing in it, a payload that is falsy
    ([null], [false], [0], the empty string) or an object without a
    [length], only touches the Monitor of the sender: with the empty array
    for a falsy payload, with the object itself otherwise. *)
Theorem services_without_elements (evt : Message) (payload : JsVal) (n : Node) :
  topic evt = "/ibp/services" ->
  json (data evt) = Some payload ->
  (truthy payload = false ->
   exists n',
     handleMessage StringToNumber ObjectToString evt n = (Normal tt, n') /\
     db n' = db n ++ [Upsert Monitor (JObj [("monitorId", JStr (from evt));
                                            ("services", JArr [])])]) /\
  (forall fields,
      payload = JObj fields -> lookup "length" fields = None ->
      exists n',
        handleMessage StringToNumber ObjectToString evt n = (Normal tt, n') /\
        db n' = db n ++ [Upsert Monitor (JObj [("monitorId", JStr (from evt));
                                               ("services", payload)])]).
Proof.
  intros Ht Hj; split.
  - intro Hf; unfold handleMessage, JSON_parse, or_else; rewrite Ht, Hj; simpl.
    unfold bind, lift, console_log, datastore, modify; simpl; rewrite Hf; simpl.
    eexists; split; reflexivity.
  - intros fields -> Hl; unfold handleMessage, JSON_parse, or_else; rewrite Ht, Hj; simpl.
    unfold bind, lift, console_log, datastore, modify; simpl; rewrite Hl; simpl.
    eexists; split; reflexivity.
Qed.

(** X17. An announcement is not handled as a whole.  When the array holds
    a [null] after some descriptors, the Monitor and the Service and Peer
    of each descriptor before the [null] are upserted, the [null] itself is
    passed to the Service upsert, and then the handler throws a TypeError;
    what follows the [null] is never looked at. *)
Theorem services_stop_at_null (evt : Message) (good rest : list JsVal) (n : Node) :
  topic evt = "/ibp/services" ->
  json (data evt) = Some (JArr (good ++ JNull :: rest)) ->
  Forall is_object good ->
  exists n',
    handleMessage StringToNumber ObjectToString evt n
    = (Throw (TypeError "Cannot read properties of null (reading 'serviceUrl')"), n') /\
    db n' = db n
            ++ Upsert Monitor (JObj [("monitorId", JStr (from evt));
                                     ("services", JArr (good ++ JNull :: rest))])
            :: flat_map (service_upserts (from evt)) good
            ++ [Upsert Service JNull].
Proof.
  intros Ht Hj Hg; unfold handleMessage, JSON_parse; rewrite Ht, Hj; simpl.
  unfold bind at 1 2 3 4 5, lift, console_log, datastore, modify; simpl.
  rewrite Qceiling_Z, Nat2Z.id, length_app; simpl.
  rewrite seq_app, for_each_app; simpl.
  rewrite (bind_normal _ _ _ _ _
             (for_each_announce_prefix (from evt) good [] (JNull :: rest) _ Hg)).
  simpl; unfold announce, bind, lift, console_log, datastore, modify; simpl.
  rewrite nth_middle; simpl.
  eexists; split; [reflexivity|]; simpl; now rewrite <- !app_assoc.
Qed.

Lemma announce_only_upserts (sender : string) (services : JsVal) (i : nat) (n : Node) :
  exists c added lines,
    announce sender services i n
    = (c, {| db := db n ++ added; console := console n ++ lines |}) /\
    Forall is_upsert added.
Proof.
  unfold announce, bind, lift, console_log, datastore, modify.
  destruct (get_index services i) as [model|e]; simpl.
  - destruct (get model "serviceUrl") as [u|e]; simpl.
    + eexists; eexists; eexists; split;
        [rewrite <- !app_assoc; reflexivity | repeat constructor].
    + eexists; eexists; eexists; split; [reflexivity | repeat constructor].
  - exists (Throw e), [], []; split; [now rewrite <- node_eta | constructor].
Qed.

Lemma for_each_only_upserts (sender : string) (services : JsVal)
                            (indices : list nat) (n : Node) :
  exists c added lines,
    for_each indices (announce sender services) n
    = (c, {| db := db n ++ added; console := console n ++ lines |}) /\
    Forall is_upsert added.
Proof.
  revert n; induction indices as [|i indices IH]; intro n; simpl.
  - exists (Normal tt), [], []; split; [unfold ret; now rewrite <- node_eta | constructor].
  - destruct (announce_only_upserts sender services i n) as (c & a & l & E & H).
    destruct c as [[]|e].
    + rewrite (bind_normal _ _ _ _ _ E).
      destruct (IH {| db := db n ++ a; console := console n ++ l |})
        as (c' & a' & l' & E' & H'); simpl in E'.
      exists c', (a ++ a'), (l ++ l'); rewrite E', !app_assoc.
      split; [reflexivity | now apply Forall_app].
    + rewrite (bind_throw _ _ _ _ _ E); eauto 6.
Qed.

(** X18. The handler only appends to the calls of the datastore, and the
    topic decides which: a message on /ibp/services brings upserts and
    never a HealthCheck row, whatever its payload and whether or not the
    handler throws on the way; a message on /ibp/healthCheck brings one
    created HealthCheck or nothing; a message on any other topic brings
    nothing, and the handler does not throw on it. *)
Theorem handleMessage_calls_by_topic (evt : Message) (n : Node) :
  exists added,
    db (snd (handleMessage StringToNumber ObjectToString evt n)) = db n ++ added /\
    (topic evt = "/ibp/services" -> Forall is_upsert added) /\
    (topic evt = "/ibp/healthCheck" ->
     added = [] \/ exists row, added = [Create HealthCheck row]) /\
    (topic evt <> "/ibp/services" -> topic evt <> "/ibp/healthCheck" ->
     added = [] /\
     fst (handleMessage StringToNumber ObjectToString evt n) = Normal tt).
Proof.
  unfold handleMessage.
  destruct (String.eqb_spec (topic evt) "/ibp/services") as [Hs|Hs].
  - unfold JSON_parse; destruct (json (data evt)) as [v|]; simpl.
    + unfold bind at 1 2 3 4, lift, console_log, datastore, modify; simpl.
      destruct (get (or_else v (JArr [])) "length") as [len|e]; simpl.
      * unfold bind at 1.
        destruct (ToNumber StringToNumber ObjectToString len) as [bound|e]; simpl.
        2: { eexists; split; [reflexivity|].
             split; [repeat constructor|].
             split; [rewrite Hs; discriminate | contradiction]. }
        match goal with
        | |- context [for_each ?idx (announce ?s ?v) ?n0] =>
            destruct (for_each_only_upserts s v idx n0) as (c & a & l & E & H)
        end.
        rewrite E; simpl; eexists; split; [rewrite <- app_assoc; reflexivity|].
        split; [intros _; constructor; [exact I | exact H]|].
        split; [rewrite Hs; discriminate | contradiction].
      * eexists; split; [reflexivity|].
        split; [repeat constructor|].
        split; [rewrite Hs; discriminate | contradiction].
    + exists []; rewrite app_nil_r; split; [reflexivity|].
      split; [constructor|]; split; [rewrite Hs; discriminate | contradiction].
  - destruct (String.eqb_spec (topic evt) "/ibp/healthCheck") as [Hh|Hh].
    + unfold JSON_parse, bind, lift, console_log, datastore, modify.
      destruct (json (data evt)) as [v|]; simpl;
        [|exists []; rewrite app_nil_r; repeat split; try contradiction; auto].
      destruct (get v "serviceUrl"); simpl;
        [|exists []; rewrite app_nil_r; repeat split; try contradiction; auto].
      destruct (get v "level"); simpl;
        [|exists []; rewrite app_nil_r; repeat split; try contradiction; auto].
      eexists; split; [reflexivity|]; repeat split; try contradiction; eauto.
    + unfold console_log, modify; simpl.
      exists []; rewrite app_nil_r; repeat split; try contradiction; auto.
Qed.

(** X19. [handleDiscovery] never throws, whatever the datastore does: when
    the upsert goes through, the datastore has taken one call, the upsert
    of the Monitor of the peer with its identifier alone; when it fails,
    the error is written to the console and the datastore has taken
    nothing. *)
Theorem handleDiscovery_never_throws (storage : DbCall -> list DbCall -> option Error)
                                     (peerId : string) (n : Node) :
  let call := Upsert Monitor (JObj [("monitorId", JStr peerId)]) in
  exists n',
    handleDiscovery storage peerId n = (Normal tt, n') /\
    (storage call (db n) = None -> db n' = db n ++ [call]) /\
    (forall e, storage call (db n) = Some e ->
               db n' = db n /\
               console n'
               = console n
                 ++ [[Lit "peer:discover "; Lit peerId];
                     [Lit "Error trying to upsert discovered monitor"; Lit peerId];
                     [Subst (JObj [("name", JStr (name e));
                                   ("message", JStr (message e))])]]).
Proof.
  intro call; unfold handleDiscovery, bind, try_catch, datastore_call, console_log,
    datastore, modify; simpl; fold call.
  destruct (storage call (db n)) as [e|]; simpl; eexists; (split; [reflexivity|]); simpl.
  - split; [discriminate|].
    intros e' He; injection He as <-; split; [reflexivity | now rewrite <- !app_assoc].
  - split; [reflexivity | discriminate].
Qed.

(** X20. What [publishServices] sends, a peer takes in one message for
    each service: the Monitor of the sender is upserted each time with
    that one service as its services, then the Service and the Peer.  The
    services of the Monitor are thus, at each moment, the one service of
    the last message taken. *)
Theorem published_services_arrive (JSON_stringify : JsVal -> string)
                                  (sender : string) (services : list JsVal)
                                  (n : Node) :
  Forall is_object services ->
  for_each (map (received JSON_stringify sender) (publishServices (Some services)))
           (handleMessage StringToNumber ObjectToString) n
  = (Normal tt,
     {| db := db n ++ flat_map (single_announcement sender) services;
        console := console n
                   ++ flat_map (fun s => [[Lit "/ibp/services from"; Lit sender];
                                          [Subst s]]) services |}).
Proof.
  intro H; revert n; induction H as [|s services [fields ->] _ IH]; intro n.
  - simpl; unfold ret; now rewrite <- node_eta.
  - simpl map; simpl for_each.
    assert (E : handleMessage StringToNumber ObjectToString
                  (received JSON_stringify sender
                     (Publish "/ibp/services" (JArr [JObj fields]))) n
                = (Normal tt,
                   {| db := db n ++ single_announcement sender (JObj fields);
                      console := console n ++ [[Lit "/ibp/services from"; Lit sender];
                                               [Subst (JObj fields)]] |})).
    { unfold handleMessage, JSON_parse; simpl.
      repeat (progress (unfold bind, lift, console_log, datastore, modify,
                          announce, ret, or_else; simpl)).
      now rewrite <- ?app_assoc. }
    rewrite (bind_normal _ _ _ _ _ E).
    unfold publishServices in IH; rewrite IH; simpl.
    now rewrite <- !app_assoc.
Qed.

End MessageHandlerProofs.

(* ===================================================================== *)
(** * Proofs: from the worker to the engine *)
(* ===================================================================== *)

Section PipelineProofs.
Import Js Effects Config AlertsEngine.
Variable StringToNumber : string -> number.
Variable ObjectToString : JsVal -> Completion string.
Variable round : Q -> Q.
Variable cfg : Cfg.

(** C9 (as the code has it). The evaluation of a HealthCheck whose status
    is "warning" adds no job to the queue: rule 100 wants an error, rules
    101, 102 and 103 a success.  With an SLA other than 0 in the
    configuration, a check that [performCheck] ran, whose answer took
    longer than the SLA, gets the status "warning", so a row stored with
    that status raises no alert, the one of rule 103 included. *)
Theorem warning_never_alerts :
  (forall rows clock current q,
      status current = Some "warning" ->
      run StringToNumber ObjectToString round cfg rows clock current q = (Normal tt, q)) /\
  (forall (World : Type) gather job dns (w w' : World) facts,
      ~ (sla (performance cfg) == 0)%Q ->
      gather job dns w = (CheckService.Fulfilled facts, w') ->
      (sla (performance cfg)
       < round (CheckService.end_ facts - CheckService.start facts))%Q ->
      exists result,
        CheckService.performCheck World round cfg gather job dns w
        = (CheckService.Fulfilled result, w') /\
        get result "status" = Normal (JStr "warning") /\
        forall rows clock current q s,
          get result "status" = Normal (JStr s) ->
          status current = Some s ->
          run StringToNumber ObjectToString round cfg rows clock current q = (Normal tt, q)).
Proof.
  split; [intros; now apply run_warning|].
  intros World gather job dns w w' facts Hsla Hg Hslow.
  exists (CheckService.check_result round cfg job facts).
  unfold CheckService.performCheck; rewrite Hg.
  assert (Hst : get (CheckService.check_result round cfg job facts) "status"
                = Normal (JStr "warning")).
  { simpl; unfold CheckService.sla_or_500.
    destruct (Qeq_bool (sla (performance cfg)) 0) eqn:Hz;
      [apply Qeq_bool_iff in Hz; contradiction|].
    destruct (Qle_bool _ _) eqn:Hle; [|reflexivity].
    apply Qle_bool_iff in Hle; lra. }
  split; [reflexivity|]; split; [exact Hst|].
  intros rows clock current q s Hs Hc; rewrite Hst in Hs; injection Hs as <-.
  now apply run_warning.
Qed.

(** ** Results of the worker, seen by the engine *)

(** X8. The error result of the worker, stored as a row, makes the engine
    raise the alert of rule 100 with the message of the error the check
    threw, and nothing else. *)
Theorem error_result_raises_its_message (e result : JsVal) (message_ : string)
                                        (job : CheckService.Job)
                                        rows clock current q :
  enabled (alertsEngine cfg) = true ->
  CheckService.performCheckError e job = Normal result ->
  get e "message" = Normal (JStr message_) ->
  stored_as result current ->
  run StringToNumber ObjectToString round cfg rows clock current q
  = (Normal tt, q ++ [(queueName (alertsEngine cfg),
                       alert100 current [Subst (JStr message_)],
                       job_options)]).
Proof.
  intros Hen Hres Hm ((s & Hs & Hst) & Hr).
  assert (Hrec : prop (prop (record current) "error") "message" = JStr message_
                 /\ truthy (record current) = true
                 /\ truthy (prop (record current) "error") = true
                 /\ s = "error").
  { rewrite Hr.
    destruct e; try discriminate; injection Hres as <-;
      simpl in Hs; injection Hs as <-;
      unfold prop; simpl in *; injection Hm as Hm; rewrite ?Hm; auto. }
  destruct Hrec as (Hmsg & Ht & Hte & ->).
  rewrite (run_error_row StringToNumber ObjectToString round cfg rows clock current q
             Hen Hst)
    by (rewrite Hmsg; reflexivity).
  unfold message100; rewrite Ht, Hte, Hmsg; reflexivity.
Qed.

(** X9. With an SLA other than 0 in the configuration, no result of
    [performCheck] stored as a row raises the alert of rule 103: a slow
    answer is stored as a warning, which the rule passes over, and an
    answer stored as a success is within the SLA. *)
Theorem local_check_never_raises_103 (job : CheckService.Job)
                                     (facts : CheckService.Facts)
                                     rows clock current q :
  ~ (sla (performance cfg) == 0)%Q ->
  stored_as (CheckService.check_result round cfg job facts) current ->
  jobs_with_code 103
    (snd (run StringToNumber ObjectToString round cfg rows clock current q))
  = jobs_with_code 103 q.
Proof.
  intros Hsla ((s & Hs & Hst) & Hr).
  apply run_adds_no_103; intros perf (Hsucc & ms & Hp & Hn & Hlt).
  rewrite Hst in Hsucc; injection Hsucc as ->.
  rewrite Hr in Hp; simpl in Hp; injection Hp as <-.
  simpl in Hn; injection Hn as <-.
  simpl in Hs; injection Hs as Hs.
  unfold CheckService.sla_or_500 in Hs.
  destruct (Qeq_bool (sla (performance cfg)) 0) eqn:Hz;
    [apply Qeq_bool_iff in Hz; contradiction|].
  destruct (Qle_bool _ _) eqn:Hle; [|discriminate].
  apply Qle_bool_iff in Hle; lra.
Qed.

(** X10. With an SLA of 0 the worker falls back on 500 ms and the engine
    does not: an answer that took up to 500 ms is stored as a success, and
    rule 103 raises its alert on it. *)
Theorem zero_sla_raises_103 (job : CheckService.Job) (facts : CheckService.Facts)
                            (current : HealthCheck) (q : Queue) :
  (sla (performance cfg) == 0)%Q ->
  (0 < round (CheckService.end_ facts - CheckService.start facts) <= 500)%Q ->
  stored_as (CheckService.check_result round cfg job facts) current ->
  status current = Some "success" /\
  rule103 StringToNumber ObjectToString cfg current q
  = (Normal tt,
     q ++ [(queueName (alertsEngine cfg),
            alert103 current
              (JNum (round (CheckService.end_ facts - CheckService.start facts))),
            job_options)]).
Proof.
  intros Hsla [Hpos Hmax] ((s & Hs & Hst) & Hr).
  simpl in Hs; unfold CheckService.sla_or_500 in Hs.
  destruct (Qeq_bool (sla (performance cfg)) 0) eqn:Hz;
    [|apply Qeq_bool_neq in Hz; contradiction].
  destruct (Qle_bool _ 500) eqn:Hle;
    [|exfalso; apply Qle_bool_iff in Hmax; congruence].
  simpl in Hs; injection Hs as <-; split; [assumption|].
  destruct (rule103_effect StringToNumber ObjectToString cfg current q) as [Hyes _].
  apply Hyes; split; [assumption|].
  exists (round (CheckService.end_ facts - CheckService.start facts))%Q.
  rewrite Hr; repeat split; rewrite Hsla; assumption.
Qed.

End PipelineProofs.

(* ===================================================================== *)
(** * Worked cases *)
(* ===================================================================== *)

Section WorkedCases.
Import Js Effects Config Scenario.

(** The stalled chain of the scenario raises the alert of rule 101. *)
Lemma rule101_fires_iff_witness :
  enabled (alertsEngine cfg_enabled) = true /\
  AlertsEngine.jobs_with_code 101
    (snd (AlertsEngine.run not_a_number_s toString_of exact cfg_enabled
                           history clock current_row []))
  = [AlertsEngine.alert101 current_row previous_row (JNum 100)].
Proof.
  split; [reflexivity|].
  destruct (rule101_fires_iff not_a_number_s toString_of exact cfg_enabled
              history clock current_row [] eq_refl) as (_ & _ & Hyes & _).
  apply (Hyes previous_row (JNum 100)).
  exists other_row; repeat eexists; try reflexivity; discriminate.
Defined.

(** Its drift of 20 blocks, the threshold itself, raises that of rule 102. *)
Lemma rule102_fires_iff_witness :
  enabled (alertsEngine cfg_enabled) = true /\
  AlertsEngine.jobs_with_code 102
    (snd (AlertsEngine.run not_a_number_s toString_of exact cfg_enabled
                           history clock current_row []))
  = [AlertsEngine.alert102 current_row (JNum 80) (exact (100 - 80))].
Proof.
  split; [reflexivity|].
  destruct (rule102_fires_iff not_a_number_s toString_of exact cfg_enabled
              history clock current_row []) as (_ & _ & Hrun & Hedge).
  destruct (Hrun eq_refl) as [Hyes _].
  apply Hyes.
  - intro q; reflexivity.
  - apply (Hedge (JObj [("startingBlock", JNum 1); ("currentBlock", JNum 100);
                        ("highestBlock", JNum 100)]));
      try reflexivity; discriminate.
Defined.

(** Its response time of 650 ms, above the SLA of 500 ms, raises that of
    rule 103. *)
Lemma rule103_fires_iff_witness :
  enabled (alertsEngine cfg_enabled) = true /\
  AlertsEngine.jobs_with_code 103
    (snd (AlertsEngine.run not_a_number_s toString_of exact cfg_enabled
                           history clock current_row []))
  = [AlertsEngine.alert103 current_row (JNum 650)].
Proof.
  split; [reflexivity|].
  destruct (rule103_fires_iff not_a_number_s toString_of exact cfg_enabled
              history clock current_row []) as (_ & _ & Hrun & _).
  destruct (Hrun eq_refl) as [Hyes _].
  apply Hyes.
  - intro q; reflexivity.
  - intro q; reflexivity.
  - split; [reflexivity|]; exists 650; repeat split; reflexivity.
Defined.

(** C4, on the code.  The same success, with its drift of 20 blocks, when
    the row of history the first query returns was stored without a
    record: the condition of rule 102 holds, the evaluation throws in rule
    101, at the read of [previousHealthCheck.record.syncState], and no job
    with code 102 is added. *)
Lemma rule102_lost_to_rule101 :
  AlertsEngine.fires102 not_a_number_s toString_of exact cfg_enabled
                        current_row (JNum 80) 20 /\
  AlertsEngine.findOne (AlertsEngine.where_previous current_row
                          (AlertsEngine.now1 clock)) bare_history
  = Some bare_row /\
  AlertsEngine.run not_a_number_s toString_of exact cfg_enabled
                   bare_history clock current_row []
  = (Throw (TypeError "Cannot read properties of null (reading 'syncState')"), []) /\
  AlertsEngine.jobs_with_code 102
    (snd (AlertsEngine.run not_a_number_s toString_of exact cfg_enabled
                           bare_history clock current_row []))
  = [].
Proof.
  split; [|split; [reflexivity | split; reflexivity]].
  split; [reflexivity|].
  exists (JObj [("startingBlock", JNum 1); ("currentBlock", JNum 100);
                ("highestBlock", JNum 100)]), (JNum 100).
  repeat split; try reflexivity; discriminate.
Qed.

(** C5, on the code.  A success that answered in 650 ms, above the SLA of
    500 ms, and whose [syncState] is [null]: the condition of rule 103
    holds, the evaluation throws in rule 102, at the read of
    [syncState.currentBlock], and no job with code 103 is added. *)
Lemma rule103_lost_to_rule102 :
  AlertsEngine.fires103 not_a_number_s toString_of cfg_enabled
                        null_sync_row (JNum 650) /\
  AlertsEngine.run not_a_number_s toString_of exact cfg_enabled
                   [] clock null_sync_row []
  = (Throw (TypeError "Cannot read properties of null (reading 'currentBlock')"), []) /\
  AlertsEngine.jobs_with_code 103
    (snd (AlertsEngine.run not_a_number_s toString_of exact cfg_enabled
                           [] clock null_sync_row []))
  = [].
Proof.
  split; [|split; reflexivity].
  split; [reflexivity|]; exists 650; repeat split; reflexivity.
Qed.

(** The same observation stored as a warning raises nothing, and the slow
    answer of the scenario is stored as a warning. *)
Lemma warning_never_alerts_witness :
  AlertsEngine.status warning_row = Some "warning" /\
  AlertsEngine.run not_a_number_s toString_of exact cfg_enabled
                   history clock warning_row [] = (Normal tt, []) /\
  get (CheckService.check_result exact cfg_enabled job_rpc_test slow_facts) "status"
  = Normal (JStr "warning").
Proof.
  destruct (warning_never_alerts not_a_number_s toString_of exact cfg_enabled)
    as [Hrow Hcheck].
  split; [reflexivity|]; split; [apply Hrow; reflexivity|].
  destruct (Hcheck unit (fun _ _ w => (CheckService.Fulfilled slow_facts, w))
                   job_rpc_test [] tt tt slow_facts)
    as (r & Hr & Hs & _).
  - intro H; discriminate H.
  - reflexivity.
  - reflexivity.
  - injection Hr as <-; exact Hs.
Defined.

(** C9, as stated, fails under an SLA of 0: an answer in 100 ms is above
    that SLA, the worker gives it the status "success", and on the row it
    is stored as rule 103 raises its alert. *)
Lemma warning_never_alerts_counterexample :
  (sla (performance cfg_zero_sla)
   < exact (CheckService.end_ fast_facts - CheckService.start fast_facts))%Q /\
  CheckService.performCheck unit exact cfg_zero_sla gather_fast job_rpc_test [] tt
  = (CheckService.Fulfilled
       (CheckService.check_result exact cfg_zero_sla job_rpc_test fast_facts), tt) /\
  get (CheckService.check_result exact cfg_zero_sla job_rpc_test fast_facts) "status"
  = Normal (JStr "success") /\
  AlertsEngine.jobs_with_code 103
    (snd (AlertsEngine.run not_a_number_s toString_of exact cfg_zero_sla [] clock
            (row_of 12 1000000
               (CheckService.check_result exact cfg_zero_sla job_rpc_test fast_facts))
            []))
  = [AlertsEngine.alert103
       (row_of 12 1000000
          (CheckService.check_result exact cfg_zero_sla job_rpc_test fast_facts))
       (JNum (1100 - 1000))].
Proof.
  split; [reflexivity|]; split; [reflexivity|]; split; reflexivity.
Qed.

Lemma fn_timeout_transient : CheckService.always_transient fn_timeout.
Proof.
  intros job dns w; eexists; eexists; split; [reflexivity|].
  eexists; split; reflexivity.
Qed.

(** A node that is never reached: the wrapper gives up after its retries. *)
Lemma retryFn_exhausts_retries_witness :
  CheckService.always_transient fn_timeout /\
  exists r,
    fst (CheckService.retryFn unit fn_timeout job_rpc_test 3 (1 * 1000) idle)
    = Normal r /\
    get r "status" = Normal (JStr "error").
Proof.
  split; [exact fn_timeout_transient|].
  destruct (retryFn_exhausts_retries unit fn_timeout job_rpc_test (1 * 1000) idle
              fn_timeout_transient)
    as (e & _ & _ & p' & r & R & _ & _ & _ & _ & _ & Hs & _).
  exists r; now rewrite R.
Defined.

(** C2, as stated, fails on that node: the check function is called four
    times, not three. *)
Lemma retryFn_three_attempts_counterexample :
  CheckService.always_transient fn_timeout /\
  CheckService.attempts
    (CheckService.trace
       (snd (CheckService.retryFn unit fn_timeout job_rpc_test 3 (1 * 1000) idle)))
  = 4%nat /\
  CheckService.attempts
    (CheckService.trace
       (snd (CheckService.retryFn unit fn_timeout job_rpc_test 3 (1 * 1000) idle)))
  <> 3%nat.
Proof.
  split; [exact fn_timeout_transient|split; [reflexivity | discriminate]].
Qed.

(** A node that rejects the call: one attempt, with retries left. *)
Lemma retryFn_RpcError_no_retry_witness :
  exists mid p' r,
    CheckService.retryFn unit fn_rejected job_rpc_test 3 (1 * 1000) idle
    = (Normal r, p') /\
    CheckService.performCheckError
      (error_object "RpcError" "-32601: Method not found") job_rpc_test
    = Normal r /\
    CheckService.trace p' = mid /\
    CheckService.attempts mid = 1%nat /\ CheckService.delays mid = 0%nat.
Proof.
  destruct (retryFn_RpcError_no_retry unit fn_rejected job_rpc_test 3 (1 * 1000) idle
              (error_object "RpcError" "-32601: Method not found") tt
              eq_refl eq_refl) as (mid & p' & r & R & E & T & A & D & _).
  exists mid, p', r; repeat split; assumption.
Defined.

(** The check of the scenario, with a node that answers: one override,
    added and removed. *)
Lemma checkService_override_once_witness :
  known_ip (CheckService.serviceIpAddress
              (CheckService.member (CheckService.data job_rpc_test))) = true /\
  CheckService.override_paired
    (CheckService.checkService unit resolver_down known_ip same_name exact cfg_enabled
                               gather_fast job_rpc_test)
    job_rpc_test idle.
Proof.
  split; [reflexivity|].
  apply (checkService_override_once unit resolver_down known_ip same_name job_rpc_test idle
           eq_refl).
  intros job dns w e w' H; discriminate H.
Defined.

(** C7, as stated, fails twice.  For a member registered under a host
    name the override is refused: [checkService] throws before any attempt,
    and nothing is added or removed.  And when the conversation is rejected
    with [null] the [catch] block of the wrapper throws: the override was
    added, the check was called once, and the override is not removed. *)
Lemma checkService_override_once_counterexample :
  (CheckService.checkService unit resolver_down known_ip same_name exact cfg_enabled
                             gather_fast job_host_name idle
   = (Throw {| name := "Error"; message := "Invalid ip: rpc.example.org" |}, idle) /\
   ~ CheckService.override_paired
       (CheckService.checkService unit resolver_down known_ip same_name exact cfg_enabled
                                  gather_fast job_host_name)
       job_host_name idle) /\
  (CheckService.edns_and_calls
     (CheckService.trace
        (snd (CheckService.checkService unit resolver_down known_ip same_name exact cfg_enabled
                                        gather_null job_rpc_test idle)))
   = [CheckService.EdnsAdd "rpc-test.dotters.network" "10.0.0.5";
      CheckService.Call job_rpc_test] /\
   CheckService.overrides
     (snd (CheckService.checkService unit resolver_down known_ip same_name exact cfg_enabled
                                     gather_null job_rpc_test idle))
   = [("rpc-test.dotters.network", "10.0.0.5")] /\
   ~ CheckService.override_paired
       (CheckService.checkService unit resolver_down known_ip same_name exact cfg_enabled
                                  gather_null job_rpc_test)
       job_rpc_test idle).
Proof.
  split; [split; [reflexivity|] | split; [reflexivity | split; [reflexivity|]]].
  - intros (c & p' & added & k & E & T & C & _).
    vm_compute in E; injection E as <- <-.
    simpl in T; subst added; discriminate C.
  - intros (c & p' & added & k & E & _ & _ & _ & Ov).
    vm_compute in E; injection E as <- <-.
    discriminate Ov.
Qed.

(** The announcement of the specification's scenario. *)
Lemma services_announcement_witness :
  exists n',
    MessageHandler.handleMessage not_a_number_s toString_of services_message fresh
    = (Normal tt, n') /\
    MessageHandler.db n'
    = [MessageHandler.Upsert MessageHandler.Monitor
         (JObj [("monitorId", JStr "P1");
                ("services", JArr [JObj [("serviceUrl", JStr "wss://a");
                                         ("chainId", JStr "polkadot")]])]);
       MessageHandler.Upsert MessageHandler.Service
         (JObj [("serviceUrl", JStr "wss://a"); ("chainId", JStr "polkadot")]);
       MessageHandler.Upsert MessageHandler.Peer
         (JObj [("peerId", JStr "P1"); ("serviceUrl", JStr "wss://a")])].
Proof.
  apply (services_announcement not_a_number_s toString_of services_message
           [JObj [("serviceUrl", JStr "wss://a"); ("chainId", JStr "polkadot")]]
           fresh eq_refl eq_refl).
  repeat constructor; eexists; reflexivity.
Defined.

(** A result without a serviceUrl is stored, with the serviceUrl
    undefined. *)
Lemma healthCheck_gossip_row_witness :
  exists n',
    MessageHandler.handleMessage not_a_number_s toString_of no_url_message fresh
    = (Normal tt, n') /\
    MessageHandler.created MessageHandler.HealthCheck (MessageHandler.db n')
    = [JObj [("monitorId", JStr "P1");
             ("serviceUrl", JUndefined);
             ("level", JStr "warning");
             ("source", JStr "gossip");
             ("record", JObj [("status", JStr "success");
                              ("level", JStr "warning")])]].
Proof.
  destruct (healthCheck_gossip_row not_a_number_s toString_of no_url_message
              (JObj [("status", JStr "success"); ("level", JStr "warning")])
              fresh eq_refl eq_refl) as (n' & H & _ & C); try discriminate.
  exists n'; split; [exact H | exact C].
Defined.

(** C10, as stated, fails on two payloads that parse: [null], on which the
    handler throws and creates no row, and a record with an empty level,
    which is stored with the level "info". *)
Lemma healthCheck_gossip_row_counterexample :
  (MessageHandler.JSON_parse (MessageHandler.data null_message) = Normal JNull /\
   exists e,
     MessageHandler.handleMessage not_a_number_s toString_of null_message fresh
     = (Throw e, fresh) /\
     MessageHandler.created MessageHandler.HealthCheck (MessageHandler.db fresh) = []) /\
  (prop (JObj [("level", JStr EmptyString)]) "level" = JStr EmptyString /\
   MessageHandler.created MessageHandler.HealthCheck
     (MessageHandler.db
        (snd (MessageHandler.handleMessage not_a_number_s toString_of
                                           empty_level_message fresh)))
   = [JObj [("monitorId", JStr "P1");
            ("serviceUrl", JUndefined);
            ("level", JStr "info");
            ("source", JStr "gossip");
            ("record", JObj [("level", JStr EmptyString)])]]).
Proof.
  split; split; try reflexivity.
  eexists; split; reflexivity.
Qed.

(** Text that is not JSON leaves the datastore as it was, and the empty
    object is stored. *)
Lemma healthCheck_not_json_no_row_witness :
  MessageHandler.created MessageHandler.HealthCheck
    (MessageHandler.db
       (snd (MessageHandler.handleMessage not_a_number_s toString_of
                                          not_json_message fresh)))
  = [] /\
  MessageHandler.created MessageHandler.HealthCheck
    (MessageHandler.db
       (snd (MessageHandler.handleMessage not_a_number_s toString_of
                                          empty_object_message fresh)))
  = [MessageHandler.gossip_row "P1" (JObj [])].
Proof.
  split.
  - apply (healthCheck_not_json_no_row not_a_number_s toString_of
             not_json_message fresh eq_refl); reflexivity.
  - apply (healthCheck_not_json_no_row not_a_number_s toString_of
             empty_object_message fresh eq_refl); [reflexivity | | ]; discriminate.
Defined.

(** C3, as stated, fails twice: a payload that has none of the fields of a
    result is stored all the same, and on text that is not JSON the
    handler throws the SyntaxError to its caller and writes nothing to the
    console. *)
Lemma healthCheck_decode_fault_counterexample :
  MessageHandler.created MessageHandler.HealthCheck
    (MessageHandler.db
       (snd (MessageHandler.handleMessage not_a_number_s toString_of
                                          empty_object_message fresh)))
  = [MessageHandler.gossip_row "P1" (JObj [])] /\
  MessageHandler.handleMessage not_a_number_s toString_of not_json_message fresh
  = (Throw (SyntaxError "Unexpected token in JSON"), fresh).
Proof. split; reflexivity. Qed.

(** ** Worked cases of the further properties *)

(** The stalled chain again: three entries, in the order 101, 102, 103. *)
Lemma run_only_appends_witness :
  exists added,
    snd (AlertsEngine.run not_a_number_s toString_of exact cfg_enabled
                          history clock current_row []) = added /\
    (List.length added <= 3)%nat /\
    StronglySorted Z.lt (AlertsEngine.codes added).
Proof.
  destruct (run_only_appends not_a_number_s toString_of exact cfg_enabled
              history clock current_row []) as (added & E & L & _ & S & _).
  exists added; repeat split; assumption.
Defined.

(** The error result of a timed-out check, stored and evaluated; and an
    error whose message cannot be converted to a string. *)
Lemma rule100_fires_on_error_witness :
  enabled (alertsEngine cfg_enabled) = true /\
  AlertsEngine.status error_row = Some "error" /\
  AlertsEngine.run not_a_number_s toString_of exact cfg_enabled
                   history clock error_row []
  = (Normal tt,
     [("alerts",
       AlertsEngine.alert100 error_row
         [Subst (JStr "connect ETIMEDOUT 10.0.0.5:443")],
       AlertsEngine.job_options)]) /\
  AlertsEngine.run not_a_number_s toString_of exact cfg_enabled
                   history clock no_text_row []
  = (Throw (TypeError "Cannot convert object to primitive value"), []).
Proof.
  split; [reflexivity|]; split; [reflexivity|]; split.
  - apply (rule100_fires_on_error not_a_number_s toString_of exact cfg_enabled
             history clock error_row [] eq_refl); reflexivity.
  - apply (rule100_fires_on_error not_a_number_s toString_of exact cfg_enabled
             history clock no_text_row [] eq_refl); reflexivity.
Defined.

Lemma run_completes_on_readable_rows_witness :
  AlertsEngine.readable current_row /\ AlertsEngine.plain current_row /\
  fst (AlertsEngine.run not_a_number_s toString_of exact cfg_enabled
                        history clock current_row []) = Normal tt.
Proof.
  assert (Rc : AlertsEngine.readable current_row)
    by (eexists; split; [reflexivity | discriminate]).
  assert (Pc : AlertsEngine.plain current_row) by (repeat split).
  split; [exact Rc|]; split; [exact Pc|].
  apply (run_completes_on_readable_rows not_a_number_s toString_of exact cfg_enabled
           history clock current_row [] Rc Pc);
    simpl; eexists; split; try reflexivity; discriminate.
Defined.

(** A row of history without a record: rule 101 throws on it, and the
    drift and the slow answer of [current] raise nothing. *)
Lemma rule101_throw_ends_run_witness :
  AlertsEngine.run not_a_number_s toString_of exact cfg_enabled
                   bare_history clock current_row []
  = (Throw (TypeError "Cannot read properties of null (reading 'syncState')"), []).
Proof.
  apply (rule101_throw_ends_run not_a_number_s toString_of exact cfg_enabled
           bare_history clock current_row [] _ eq_refl).
  reflexivity.
Defined.

Lemma queries_return_history_witness :
  other_row <> current_row /\ other_row <> previous_row /\
  previous_row <> current_row.
Proof.
  destruct (queries_return_history history clock current_row previous_row other_row
              eq_refl eq_refl) as (A & B & C).
  repeat split; trivial.
  apply C; simpl; lia.
Defined.

(** A success that reports its best block and nothing else. *)
Lemma missing_numbers_raise_nothing_witness :
  AlertsEngine.rule102 not_a_number_s toString_of exact cfg_enabled
    (sparse_row 7 "m1" 1000000 (JObj [("currentBlock", JNum 100)])) []
  = (Normal tt, []) /\
  AlertsEngine.rule103 not_a_number_s toString_of cfg_enabled
    (sparse_row 7 "m1" 1000000 (JObj [("currentBlock", JNum 100)])) []
  = (Normal tt, []).
Proof.
  destruct (missing_numbers_raise_nothing not_a_number_s toString_of exact cfg_enabled
              (sparse_row 7 "m1" 1000000 (JObj [("currentBlock", JNum 100)])) []
              (JObj [("currentBlock", JNum 100)]) (JNum 100) JUndefined
              eq_refl eq_refl eq_refl) as [H102 H103].
  split; [apply H102; [now right | exact I | exact I] | apply H103; reflexivity].
Defined.

(** Two reports of member m1 without a best block, one of member m2 with
    block 112: the alert of a halted chain, at block [undefined]. *)
Lemma rule101_fires_on_missing_blocks_witness :
  AlertsEngine.rule101 toString_of cfg_enabled
    (sparse_row 9 "m1" 1000000 (JObj []))
    (Some (sparse_row 8 "m1" 700000 (JObj [])))
    (Some other_row) []
  = (Normal tt,
     [("alerts",
       AlertsEngine.alert101 (sparse_row 9 "m1" 1000000 (JObj []))
                             (sparse_row 8 "m1" 700000 (JObj [])) JUndefined,
       AlertsEngine.job_options)]).
Proof.
  apply (rule101_fires_on_missing_blocks toString_of cfg_enabled
           (sparse_row 9 "m1" 1000000 (JObj []))
           (sparse_row 8 "m1" 700000 (JObj [])) other_row
           (JObj []) (JObj [])
           (JObj [("startingBlock", JNum 1); ("currentBlock", JNum 112);
                  ("highestBlock", JNum 112)])
           (JNum 112) []);
    try reflexivity; discriminate.
Defined.

Lemma error_result_raises_its_message_witness :
  AlertsEngine.run not_a_number_s toString_of exact cfg_enabled
                   history clock error_row []
  = (Normal tt,
     [("alerts",
       AlertsEngine.alert100 error_row
         [Subst (JStr "connect ETIMEDOUT 10.0.0.5:443")],
       AlertsEngine.job_options)]).
Proof.
  apply (error_result_raises_its_message not_a_number_s toString_of exact cfg_enabled
           timeout_error _ "connect ETIMEDOUT 10.0.0.5:443"
           job_rpc_test history clock error_row [] eq_refl eq_refl eq_refl).
  split; [exists "error"; split; reflexivity | reflexivity].
Defined.

(** The slow answer and the fast one, stored under the SLA of 500 ms. *)
Lemma local_check_never_raises_103_witness :
  AlertsEngine.jobs_with_code 103
    (snd (AlertsEngine.run not_a_number_s toString_of exact cfg_enabled history clock
            (row_of 10 1000000
               (CheckService.check_result exact cfg_enabled job_rpc_test slow_facts)) []))
  = [] /\
  AlertsEngine.jobs_with_code 103
    (snd (AlertsEngine.run not_a_number_s toString_of exact cfg_enabled history clock
            (row_of 11 1000000
               (CheckService.check_result exact cfg_enabled job_rpc_test fast_facts)) []))
  = [].
Proof.
  assert (Hsla : ~ (sla (performance cfg_enabled) == 0)%Q) by (intro H; discriminate H).
  split.
  - apply (local_check_never_raises_103 not_a_number_s toString_of exact cfg_enabled
             job_rpc_test slow_facts history clock _ [] Hsla).
    split; [exists "warning"; split; reflexivity | reflexivity].
  - apply (local_check_never_raises_103 not_a_number_s toString_of exact cfg_enabled
             job_rpc_test fast_facts history clock _ [] Hsla).
    split; [exists "success"; split; reflexivity | reflexivity].
Defined.

(** The fast answer under an SLA of 0. *)
Lemma zero_sla_raises_103_witness :
  AlertsEngine.rule103 not_a_number_s toString_of cfg_zero_sla
    (row_of 12 1000000 (CheckService.check_result exact cfg_zero_sla job_rpc_test fast_facts)) []
  = (Normal tt,
     [("alerts",
       AlertsEngine.alert103
         (row_of 12 1000000
            (CheckService.check_result exact cfg_zero_sla job_rpc_test fast_facts))
         (JNum (1100 - 1000)),
       AlertsEngine.job_options)]).
Proof.
  apply (zero_sla_raises_103 not_a_number_s toString_of exact cfg_zero_sla
           job_rpc_test fast_facts _ []).
  - reflexivity.
  - unfold exact; split; simpl; lra.
  - split; [exists "success"; split; reflexivity | reflexivity].
Defined.

Lemma timeout_error_transient : CheckService.transient timeout_error.
Proof. eexists; split; reflexivity. Qed.

Lemma fn_timeout_rejects_with_errors : CheckService.rejects_with_errors fn_timeout.
Proof.
  intros job dns w e w' H; injection H as <- _; split; discriminate.
Qed.

(** Two timeouts, then an answer: the answer, after three calls and two
    delays. *)
Lemma retryFn_returns_first_end_witness :
  exists mid p',
    CheckService.retryFn nat fn_third_time job_rpc_test 3 (1 * 1000) idle_counting
    = (Normal (CheckService.check_result exact cfg_enabled job_rpc_test fast_facts), p') /\
    CheckService.trace p' = mid /\
    CheckService.attempts mid = 3%nat /\ CheckService.delays mid = 2%nat.
Proof.
  destruct (retryFn_returns_first_end nat fn_third_time job_rpc_test 3 (1 * 1000)
              idle_counting 2
              (CheckService.check_result exact cfg_enabled job_rpc_test fast_facts) 3%nat)
    as (mid & p' & R & _ & T & A & D).
  - apply (CheckService.ends_later _ _ _ 0%nat 1%nat 3%nat timeout_error);
      [reflexivity | exact timeout_error_transient|].
    apply (CheckService.ends_later _ _ _ 1%nat 2%nat 3%nat timeout_error);
      [reflexivity | exact timeout_error_transient|].
    apply CheckService.ends_result; reflexivity.
  - repeat constructor.
  - exists mid, p'; repeat split; assumption.
Defined.

(** The node that is never reached: the wrapper returns the error result
    after four calls; a client that rejects with [null]: the wrapper
    throws after one. *)
Lemma retryFn_returns_on_errors_witness :
  (exists r p',
      CheckService.retryFn unit fn_timeout job_rpc_test 3 (1 * 1000) idle
      = (Normal r, p')) /\
  (exists err p',
      CheckService.retryFn unit fn_null job_rpc_test 3 (1 * 1000) idle
      = (Throw err, p') /\
      name err = "TypeError" /\
      CheckService.attempts (CheckService.trace p') = 1%nat).
Proof.
  split.
  - destruct (retryFn_returns_on_errors unit fn_timeout job_rpc_test 3 (1 * 1000) idle)
      as [Hret _].
    destruct (Hret fn_timeout_rejects_with_errors) as (r & p' & _ & R & _).
    now exists r, p'.
  - destruct (retryFn_returns_on_errors unit fn_null job_rpc_test 3 (1 * 1000) idle)
      as [_ Hthrow].
    destruct (Hthrow JNull tt eq_refl (or_introl eq_refl)) as (err & R & Hn).
    exists err; eexists; split; [exact R|]; split; [exact Hn | reflexivity].
Defined.

(** A subdomain that only exists through its override: the check runs,
    and [checkService] throws the error of the last lookup. *)
Lemma checkService_ends_with_lookup_witness :
  fst (CheckService.checkService_with unit resolver_down known_ip same_name fn_timeout
                                      job_rpc_test idle)
  = Throw not_found_error.
Proof.
  destruct (checkService_ends_with_lookup unit resolver_down known_ip same_name fn_timeout
              job_rpc_test idle eq_refl fn_timeout_rejects_with_errors)
    as [Hdown _].
  apply Hdown.
  - intros x [].
  - intro w; exists w; reflexivity.
Defined.

(** The same check leaves the table empty; with a client that rejects
    with [null] the override stays. *)
Lemma checkService_restores_overrides_witness :
  CheckService.overrides
    (snd (CheckService.checkService_with unit resolver_down known_ip same_name fn_timeout
                                         job_rpc_test idle))
  = [] /\
  CheckService.overrides
    (snd (CheckService.checkService_with unit resolver_down known_ip same_name fn_null
                                         job_rpc_test idle))
  = [("rpc-test.dotters.network", "10.0.0.5")].
Proof.
  split.
  - destruct (checkService_restores_overrides unit resolver_down known_ip same_name
                fn_timeout job_rpc_test idle) as [Hkept _];
      [discriminate | intros [] |].
    exact (Hkept fn_timeout_rejects_with_errors).
  - destruct (checkService_restores_overrides unit resolver_down known_ip same_name
                fn_null job_rpc_test idle) as [_ Hleft];
      [discriminate | intros [] |].
    exact (Hleft eq_refl tt eq_refl).
Defined.

Lemma handleMessage_not_json_throws_witness :
  MessageHandler.handleMessage not_a_number_s toString_of
    (message_on "/ibp/services" "not json" None) fresh
  = (Throw (SyntaxError "Unexpected token in JSON"), fresh).
Proof.
  apply (handleMessage_not_json_throws not_a_number_s toString_of
           (message_on "/ibp/services" "not json" None) fresh);
    [now left | reflexivity].
Defined.

(** The announcement [null]. *)
Lemma services_without_elements_witness :
  exists n',
    MessageHandler.handleMessage not_a_number_s toString_of
      (message_on "/ibp/services" "null" (Some JNull)) fresh
    = (Normal tt, n') /\
    MessageHandler.db n'
    = [MessageHandler.Upsert MessageHandler.Monitor
         (JObj [("monitorId", JStr "P1"); ("services", JArr [])])].
Proof.
  destruct (services_without_elements not_a_number_s toString_of
              (message_on "/ibp/services" "null" (Some JNull)) JNull fresh
              eq_refl eq_refl) as [Hfalsy _].
  apply Hfalsy; reflexivity.
Defined.

(** The announcement of service a, [null], service b: service b is not
    upserted. *)
Lemma services_stop_at_null_witness :
  exists e n',
    MessageHandler.handleMessage not_a_number_s toString_of
      (message_on "/ibp/services" "[a, null, b]"
                  (Some (JArr [service_a; JNull; service_b]))) fresh
    = (Throw e, n') /\
    MessageHandler.db n'
    = [MessageHandler.Upsert MessageHandler.Monitor
         (JObj [("monitorId", JStr "P1");
                ("services", JArr [service_a; JNull; service_b])]);
       MessageHandler.Upsert MessageHandler.Service service_a;
       MessageHandler.Upsert MessageHandler.Peer
         (JObj [("peerId", JStr "P1"); ("serviceUrl", JStr "wss://a")]);
       MessageHandler.Upsert MessageHandler.Service JNull].
Proof.
  destruct (services_stop_at_null not_a_number_s toString_of
              (message_on "/ibp/services" "[a, null, b]"
                          (Some (JArr [service_a; JNull; service_b])))
              [service_a] [service_b] fresh eq_refl eq_refl)
    as (n' & E & D).
  - repeat constructor; eexists; reflexivity.
  - eexists; exists n'; split; [exact E | exact D].
Defined.

(** A message on a topic the handler does not decode. *)
Lemma handleMessage_calls_by_topic_witness :
  MessageHandler.handleMessage not_a_number_s toString_of
    (message_on "/ibp/signedMessage" "not json" None) fresh
  = (Normal tt,
     {| MessageHandler.db := [];
        MessageHandler.console
        := [[Lit "received: "; Lit "not json"; Lit " from "; Lit "P1";
             Lit " on topic "; Lit "/ibp/signedMessage"]] |}) /\
  MessageHandler.db
    (snd (MessageHandler.handleMessage not_a_number_s toString_of
            (message_on "/ibp/signedMessage" "not json" None) fresh))
  = [].
Proof.
  split; [reflexivity|].
  destruct (handleMessage_calls_by_topic not_a_number_s toString_of
              (message_on "/ibp/signedMessage" "not json" None) fresh)
    as (added & E & _ & _ & H).
  destruct H as [-> _]; [discriminate | discriminate|].
  exact E.
Defined.

(** A peer discovered while the datastore is down. *)
Lemma handleDiscovery_never_throws_witness :
  exists n',
    MessageHandler.handleDiscovery storage_down "P2" fresh = (Normal tt, n') /\
    MessageHandler.db n' = [].
Proof.
  destruct (handleDiscovery_never_throws storage_down "P2" fresh)
    as (n' & E & _ & Hfail).
  exists n'; split; [exact E|].
  apply (Hfail _ eq_refl).
Defined.

(** A node that serves a and b publishes both: the peer is left with b
    alone as the services of its Monitor. *)
Lemma published_services_arrive_witness :
  MessageHandler.db
    (snd (MessageHandler.for_each
            (map (MessageHandler.received (fun _ => "...") "P1")
                 (MessageHandler.publishServices (Some [service_a; service_b])))
            (MessageHandler.handleMessage not_a_number_s toString_of) fresh))
  = [MessageHandler.Upsert MessageHandler.Monitor
       (JObj [("monitorId", JStr "P1"); ("services", JArr [service_a])]);
     MessageHandler.Upsert MessageHandler.Service service_a;
     MessageHandler.Upsert MessageHandler.Peer
       (JObj [("peerId", JStr "P1"); ("serviceUrl", JStr "wss://a")]);
     MessageHandler.Upsert MessageHandler.Monitor
       (JObj [("monitorId", JStr "P1"); ("services", JArr [service_b])]);
     MessageHandler.Upsert MessageHandler.Service service_b;
     MessageHandler.Upsert MessageHandler.Peer
       (JObj [("peerId", JStr "P1"); ("serviceUrl", JStr "wss://b")])].
Proof.
  rewrite (published_services_arrive not_a_number_s toString_of
             (fun _ => "...") "P1" [service_a; service_b] fresh).
  - reflexivity.
  - repeat constructor; eexists; reflexivity.
Defined.

End WorkedCases.
